(** * RAGnarokAI: the document pipeline handlers, embedded and verified

    The Lambda handlers of [backend/src/handlers] and the metadata helpers of
    [backend/src/utils/dynamodb.py] are translated function by function.  The
    DynamoDB table, the S3 bucket and standard output form an explicit world
    that a small state-and-exception monad threads through the handlers;
    whatever is imported from outside the repository (boto3 failures, uuid4,
    the clock, Textract, Bedrock, a few Python conversions) is collected in
    one record of oracles, [Env].

    Python [str] is modelled by [string]: one [ascii] stands for one character
    (code points below 256). *)

From Stdlib Require Import ZArith String Ascii Floats List.
From stdpp Require Import base option gmap strings pretty list.

#[local] Set Warnings "-register-all,-inexact-float".
#[local] Open Scope string_scope.
#[local] Open Scope Z_scope.

(** ** Python values *)

(** JSON-like values as they travel through requests, table items and
    response bodies. *)
Inductive Value :=
| VNone
| VBool (b : bool)
| VInt (z : Z)
| VFloat (f : float)
| VStr (s : string)
| VList (l : list Value)
| VDict (d : gmap string Value).

Abbreviation Item := (gmap string Value).

(** Truth value of [x] in [if x:] / [if not x:]. *)
Definition truthy (v : Value) : bool :=
  match v with
  | VNone => false
  | VBool b => b
  | VInt z => negb (z =? 0)
  | VFloat f => negb (PrimFloat.eqb f 0%float)
  | VStr s => negb (String.eqb s "")
  | VList l => match l with [] => false | _ => true end
  | VDict d => negb (bool_decide (d = ∅))
  end.

(** [d.get(k)]: a missing key reads as [None]. *)
Definition dict_get (d : Item) (k : string) : Value := default VNone (d !! k).

(** [d.get(k, dflt)]. *)
Definition dict_get_default (d : Item) (k : string) (dflt : Value) : Value :=
  default dflt (d !! k).

(** [v == s] for a string literal [s]. *)
Definition eq_str (v : Value) (s : string) : bool :=
  match v with VStr t => String.eqb t s | _ => false end.

(** *** String methods *)

(** [s[:n]] for a bound [n >= 0]. *)
Fixpoint slice_to (n : Z) (s : string) : string :=
  match s with
  | EmptyString => EmptyString
  | String c s' => if n <=? 0 then EmptyString else String c (slice_to (n - 1) s')
  end.

(** [len(s)]. *)
Definition len (s : string) : Z := Z.of_nat (String.length s).

(** [c.isspace()] on the first 256 code points. *)
Definition isspace (c : ascii) : bool :=
  let n := Z.of_nat (nat_of_ascii c) in
  ((9 <=? n) && (n <=? 13)) || ((28 <=? n) && (n <=? 32)) || (n =? 133) || (n =? 160).

Fixpoint lstrip (s : string) : string :=
  match s with
  | String c s' => if isspace c then lstrip s' else s
  | EmptyString => EmptyString
  end.

Fixpoint rstrip (s : string) : string :=
  match s with
  | EmptyString => EmptyString
  | String c s' =>
      match rstrip s' with
      | EmptyString => if isspace c then EmptyString else String c EmptyString
      | r => String c r
      end
  end.

(** [s.strip()]. *)
Definition strip (s : string) : string := rstrip (lstrip s).

Definition lower_char (c : ascii) : ascii :=
  let n := Z.of_nat (nat_of_ascii c) in
  if ((65 <=? n) && (n <=? 90)) || ((192 <=? n) && (n <=? 222) && negb (n =? 215))
  then ascii_of_nat (Z.to_nat (n + 32)) else c.

(** [s.lower()]. *)
Fixpoint lower (s : string) : string :=
  match s with
  | EmptyString => EmptyString
  | String c s' => String (lower_char c) (lower s')
  end.

(** [s.split(sep)] for a one-character separator. *)
Fixpoint split (sep : ascii) (s : string) : list string :=
  match s with
  | EmptyString => [EmptyString]
  | String c s' =>
      if Ascii.eqb c sep then EmptyString :: split sep s'
      else match split sep s' with
           | p :: ps => String c p :: ps
           | [] => [String c EmptyString]
           end
  end.

(** [c in s] for a character [c]. *)
Fixpoint contains (c : ascii) (s : string) : bool :=
  match s with
  | EmptyString => false
  | String c' s' => Ascii.eqb c' c || contains c s'
  end.

(** The storage key layout of the upload slot:
    [documents/{userId}/{yyyy}/{mm}/{dd}/{documentId}/{filename}]. *)
Definition key_layout (user_id yyyy mm dd document_id filename : string) : string :=
  "documents/" ++ user_id ++ "/" ++ yyyy ++ "/" ++ mm ++ "/" ++ dd ++ "/"
  ++ document_id ++ "/" ++ filename.

(** ** Exceptions *)

Inductive ExnClass :=
| ClientError | JSONDecodeError | KeyError | AttributeError | TypeError
| ValueError | OtherError.

(** An exception: its class and [str(e)]. *)
Record Exn := MkExn { exn_class : ExnClass; exn_str : string }.

Definition is_ClientError (e : Exn) : bool :=
  match exn_class e with ClientError => true | _ => false end.

(** ** The world outside a handler invocation *)

(** One [SET] action of an [UpdateExpression]. *)
Inductive Action :=
| SetAttr (attr : string) (v : Value)
| SetListAppendIfNotExists (attr : string) (dflt tail : Value).

(** Calls that leave the process, in the order they are issued. *)
Inductive Call :=
| PutItem (item : Item)
| UpdateItem (key : string) (acts : list Action)
| GetItem (key : string)
| DeleteItem (key : string)
| QueryIndex (user_id : string) (limit : Z)
| HeadObject (key : string)
| DeleteObject (key : string)
| Uuid4
| DetectDocumentText (bucket key : string)
| InvokeSummarize (text : Value) (max_length : Z)
| InvokeAnswer (text : Value) (question : string)
| InvokeEntities (text : Value)
| InvokeQuestions (text : Value) (n : Z).

Record World := MkWorld {
  table : gmap string Item;      (* the DynamoDB documents table, by documentId *)
  bucket : gset string;          (* keys of the objects in the S3 bucket *)
  trace : list Call;             (* calls issued so far, most recent first *)
  stdout : list string           (* lines printed so far, most recent first *)
}.

(** Logical time: the number of calls issued so far. *)
Definition tick (w : World) : nat := length (trace w).

Record datetime := MkDate {
  dt_year : nat; dt_month : nat; dt_day : nat;
  dt_time : string               (* the part after the date in isoformat() *)
}.

Record OcrResult := MkOcr {
  ocr_text : string; ocr_line_count : Z; ocr_word_count : Z; ocr_confidence : float
}.

(** What the handlers import from outside the repository.  Oracles indexed by
    a [nat] are consulted at the logical time of the call.  [fault] stands for
    every reason a boto3 call may raise (the service refusing or throttling,
    the network, the validation of the parameters).  The adapters of
    [utils/textract.py] and [utils/bedrock.py] are taken by their results:
    each is one call to Textract or Bedrock followed by text processing that
    no property below depends on. *)
Record Env := MkEnv {
  fault : nat -> option Exn;     (* does the AWS call issued at this time raise *)
  uuid4 : nat -> string;
  utcnow : nat -> datetime;
  str_float : float -> string;                   (* str(x) on a float *)
  py_float : Value -> Exn + float;               (* float(v) *)
  py_int : Value -> Exn + Z;                     (* int(v) *)
  unquote_plus : string -> string;               (* urllib.parse.unquote_plus *)
  presigned_url : string -> string -> string;
  index_query : gmap string Item -> string -> Z -> list Item;
                                 (* the answer of the userId-createdAt index *)
  extract_text_from_s3 : string -> string -> Exn + OcrResult;
  summarize_document : Value -> Z -> Exn + string;
  answer_question : Value -> string -> Exn + (string * string);
  extract_key_entities : Value -> Exn + Value;
  generate_document_questions : Value -> Z -> Exn + list string
}.

(** ** The handler monad: state that survives exceptions *)

Definition M (A : Type) : Type := World -> (Exn + A) * World.

Definition ret {A} (a : A) : M A := fun w => (inr a, w).
Definition raise {A} (e : Exn) : M A := fun w => (inl e, w).

Definition bind {A B} (m : M A) (k : A -> M B) : M B :=
  fun w => match m w with
           | (inr a, w') => k a w'
           | (inl e, w') => (inl e, w')
           end.

(** [try: m  except Exception as e: h e]. *)
Definition try_except {A} (m : M A) (h : Exn -> M A) : M A :=
  fun w => match m w with
           | (inr a, w') => (inr a, w')
           | (inl e, w') => h e w'
           end.

(** [try: m  except <class>: h e]: other exceptions propagate. *)
Definition try_except_if {A} (catches : Exn -> bool) (m : M A) (h : Exn -> M A) : M A :=
  try_except m (fun e => if catches e then h e else raise e).

Notation "'do' x <- m ; k" := (bind m (fun x => k))
  (at level 10, x name, m at level 100, k at level 200,
   format "'[v' 'do'  x  <-  m ; '/' k ']'").

Definition print (line : string) : M unit :=
  fun w => (inr tt, MkWorld (table w) (bucket w) (trace w) (line :: stdout w)).

Definition record_call (c : Call) (w : World) : World :=
  MkWorld (table w) (bucket w) (c :: trace w) (stdout w).

Definition set_table (t : gmap string Item) (w : World) : World :=
  MkWorld t (bucket w) (trace w) (stdout w).

Definition set_bucket (b : gset string) (w : World) : World :=
  MkWorld (table w) b (trace w) (stdout w).

(** An AWS call: it is recorded, then either raises as [fault] says or acts. *)
Definition aws {A} (env : Env) (c : Call) (act : M A) : M A :=
  fun w => match fault env (tick w) with
           | Some e => (inl e, record_call c w)
           | None => act (record_call c w)
           end.

(** A call to the OCR or LLM adapter: recorded, its outcome given by [env]. *)
Definition adapter {A} (c : Call) (outcome : Exn + A) : M A :=
  fun w => (outcome, record_call c w).


(** [datetime.utcnow()], read at the current logical time. *)
Definition now (env : Env) : M datetime := fun w => (inr (utcnow env (tick w)), w).

(** [str(uuid.uuid4())]. *)
Definition new_uuid (env : Env) : M string :=
  fun w => (inr (uuid4 env (tick w)), record_call Uuid4 w).

Fixpoint zeros (n : nat) : string :=
  match n with O => "" | S n' => String "0" (zeros n') end.

(** Decimal rendering of [n], zero-padded to [width] digits. *)
Definition zfill (width : nat) (n : nat) : string :=
  let s := pretty n in (zeros (width - String.length s) ++ s)%string.

(** [d.isoformat()]. *)
Definition isoformat (d : datetime) : string :=
  zfill 4 (dt_year d) ++ "-" ++ zfill 2 (dt_month d) ++ "-" ++ zfill 2 (dt_day d)
  ++ dt_time d.

(** [d.strftime('%Y/%m/%d')]. *)
Definition strftime_Ymd (d : datetime) : string :=
  zfill 4 (dt_year d) ++ "/" ++ zfill 2 (dt_month d) ++ "/" ++ zfill 2 (dt_day d).

(** *** The DynamoDB table *)

Definition ValidationException : Exn :=
  MkExn ClientError "An error occurred (ValidationException)".

(** [table.put_item(Item=item)]: the item replaces whatever its key held. *)
Definition put_item (env : Env) (item : Item) : M unit :=
  aws env (PutItem item) (fun w =>
    match item !! "documentId" with
    | Some (VStr k) => (inr tt, set_table (<[k := item]> (table w)) w)
    | _ => (inl ValidationException, w)
    end).

(** [table.get_item(Key={'documentId': key}).get('Item')]. *)
Definition get_item (env : Env) (key : string) : M (option Item) :=
  aws env (GetItem key) (fun w => (inr (table w !! key), w)).

(** [table.delete_item(Key={'documentId': key})]. *)
Definition delete_item (env : Env) (key : string) : M unit :=
  aws env (DeleteItem key) (fun w => (inr tt, set_table (delete key (table w)) w)).

Definition apply_action (acc : Exn + Item) (a : Action) : Exn + Item :=
  match acc with
  | inl e => inl e
  | inr it =>
      match a with
      | SetAttr k v => inr (<[k := v]> it)
      | SetListAppendIfNotExists k dflt tl =>
          match dict_get_default it k dflt, tl with
          | VList l, VList l' => inr (<[k := VList (l ++ l')]> it)
          | _, _ => inl ValidationException
          end
      end
  end.

(** [table.update_item(Key={'documentId': key}, UpdateExpression="SET ...",
    ReturnValues='ALL_NEW')]: the item is created when the key is new. *)
Definition update_item (env : Env) (key : string) (acts : list Action) : M Item :=
  aws env (UpdateItem key acts) (fun w =>
    let old := default {[ "documentId" := VStr key ]} (table w !! key) in
    match fold_left apply_action acts (inr old) with
    | inr new => (inr new, set_table (<[key := new]> (table w)) w)
    | inl e => (inl e, w)
    end).

(** *** The S3 bucket *)

Definition NoSuchKey : Exn := MkExn ClientError "An error occurred (404)".
Definition ParamValidationError : Exn := MkExn OtherError "Parameter validation failed".

(** [s3.head_object(Bucket=BUCKET_NAME, Key=key)]. *)
Definition head_object (env : Env) (key : Value) : M unit :=
  match key with
  | VStr k =>
      aws env (HeadObject k) (fun w =>
        if bool_decide (k ∈ bucket w) then (inr tt, w) else (inl NoSuchKey, w))
  | _ => raise ParamValidationError
  end.

(** [s3.delete_object(Bucket=BUCKET_NAME, Key=key)]: deleting a key that is
    not there is not an error. *)
Definition delete_object (env : Env) (key : Value) : M unit :=
  match key with
  | VStr k =>
      aws env (DeleteObject k) (fun w => (inr tt, set_bucket (bucket w ∖ {[ k ]}) w))
  | _ => raise ParamValidationError
  end.

(** The client's PUT of an object through a presigned URL. *)
Definition client_put (key : string) (w : World) : World :=
  set_bucket ({[ key ]} ∪ bucket w) w.

(** ** API Gateway and S3 events *)

Record S3Record := MkS3Record {
  s3_bucket_name : string;       (* record['s3']['bucket']['name'] *)
  s3_object_key : string         (* record['s3']['object']['key'] *)
}.

(** What [json.loads(event.get('body', '{}'))] meets. *)
Inductive Body :=
| BodyAbsent                     (* no 'body' key *)
| BodyNull                       (* 'body': None *)
| BodyInvalid                    (* text that is not JSON *)
| BodyJson (v : Value).          (* text that parses to [v] *)

Record Event := MkEvent {
  httpMethod : option string;
  pathParameters : option (gmap string string);
  queryStringParameters : option (gmap string string);
  headers : option (gmap string string);
  claims : option (gmap string string);   (* requestContext.authorizer.claims *)
  body : Body;
  Records : option (list S3Record)
}.

Record Response := MkResponse {
  statusCode : Z;
  resp_headers : list (string * string);
  resp_body : Value              (* the value handed to json.dumps *)
}.

(** The status code of an invocation that returned. *)
Definition status_of (r : Exn + Response) : option Z :=
  match r with inr resp => Some (statusCode resp) | inl _ => None end.

(** A field of the JSON object an invocation returned. *)
Definition body_field (r : Exn + Response) (k : string) : option Value :=
  match r with
  | inr resp => match resp_body resp with VDict d => d !! k | _ => None end
  | inl _ => None
  end.

Definition BUCKET_NAME : string := "documind-documents".

Definition json_loads (b : Body) : M Value :=
  match b with
  | BodyAbsent => ret (VDict ∅)
  | BodyNull => raise (MkExn TypeError "the JSON object must be str, bytes or bytearray, not NoneType")
  | BodyInvalid => raise (MkExn JSONDecodeError "Expecting value")
  | BodyJson v => ret v
  end.

Definition is_JSONDecodeError (e : Exn) : bool :=
  match exn_class e with JSONDecodeError => true | _ => false end.

(** [body.get]: only a dict has it. *)
Definition as_dict (v : Value) : M Item :=
  match v with
  | VDict d => ret d
  | _ => raise (MkExn AttributeError "object has no attribute 'get'")
  end.

(** [event.get(field, {}) or {}]. *)
Definition params_of (o : option (gmap string string)) : gmap string string :=
  default ∅ o.

(** [if not s] on an optional string. *)
Definition nonempty (o : option string) : bool :=
  match o with Some s => negb (String.eqb s "") | None => false end.

Definition dict (l : list (string * Value)) : Value := VDict (list_to_map l).

(** The response envelope shared by the handlers, up to the allowed methods. *)
Definition api_response (methods : string) (status_code : Z) (body : Value) : Response :=
  MkResponse status_code
    [("Content-Type", "application/json");
     ("Access-Control-Allow-Origin", "*");
     ("Access-Control-Allow-Headers", "Content-Type,X-User-Id,Authorization");
     ("Access-Control-Allow-Methods", methods)]
    body.

(** ** utils/dynamodb.py *)

Module Dynamodb.

Definition create_document (env : Env)
    (user_id : string) (filename s3_key content_type file_size : Value) : M Item :=
  do document_id <- new_uuid env;
  do d <- now env;
  let timestamp := isoformat d in
  let item : Item := list_to_map
    [("documentId", VStr document_id);
     ("userId", VStr user_id);
     ("filename", filename);
     ("s3Key", s3_key);
     ("contentType", content_type);
     ("fileSize", file_size);
     ("status", VStr "UPLOADED");
     ("createdAt", VStr timestamp);
     ("updatedAt", VStr timestamp)] in
  do _ <- put_item env item;
  ret item.

Definition update_document_status (env : Env)
    (document_id status : string) (metadata : list (string * Value)) : M Item :=
  do d <- now env;
  let update_expression :=
    SetAttr "status" (VStr status) :: SetAttr "updatedAt" (VStr (isoformat d))
    :: map (fun kv => SetAttr (fst kv) (snd kv)) metadata in
  update_item env document_id update_expression.

Definition get_document (env : Env) (document_id : string) : M (option Item) :=
  get_item env document_id.

Definition get_user_documents (env : Env) (user_id : string) (limit : Z)
    : M (list Item) :=
  aws env (QueryIndex user_id limit) (fun w =>
    (inr (index_query env (table w) user_id limit), w)).

Definition delete_document (env : Env) (document_id : string) : M bool :=
  try_except
    (do _ <- delete_item env document_id; ret true)
    (fun _ => ret false).

Definition store_extracted_text (env : Env)
    (document_id text : string) (word_count : Z) (confidence : float) : M Item :=
  update_document_status env document_id "EXTRACTED"
    [("extractedText", VStr (slice_to 50000 text));
     ("wordCount", VInt word_count);
     ("ocrConfidence", VStr (str_float env confidence));
     ("textLength", VInt (len text))].

Definition store_summary (env : Env) (document_id summary : string) : M Item :=
  update_document_status env document_id "COMPLETED" [("summary", VStr summary)].

Definition add_query_to_history (env : Env)
    (document_id question answer : string) : M unit :=
  do d <- now env;
  let timestamp := isoformat d in
  let query_item := dict
    [("question", VStr question);
     ("answer", VStr answer);
     ("timestamp", VStr timestamp)] in
  try_except
    (do _ <- update_item env document_id
               [SetListAppendIfNotExists "queryHistory" (VList []) (VList [query_item])];
     ret tt)
    (fun _ =>
       do _ <- update_item env document_id
                 [SetAttr "queryHistory" (VList [query_item])];
       ret tt).

End Dynamodb.

(** ** handlers/upload.py *)

Module Upload.

Definition ALLOWED_TYPES : list string :=
  ["application/pdf"; "image/png"; "image/jpeg"; "image/jpg"; "text/plain"].

Definition response : Z -> Value -> Response := api_response "GET,POST,OPTIONS".

Definition get_user_id (event : Event) : string :=
  match claims event with
  | Some c => default "anonymous" (c !! "sub")
  | None => default "anonymous" (params_of (headers event) !! "X-User-Id")
  end.

Definition handle_get_presigned_url (env : Env) (event : Event) : M Response :=
  let params := params_of (queryStringParameters event) in
  let filename := params !! "filename" in
  let content_type := default "application/pdf" (params !! "contentType") in
  let user_id := get_user_id event in
  if negb (nonempty filename) then
    ret (response 400 (dict [("error", VStr "filename is required")]))
  else if negb (bool_decide (content_type ∈ ALLOWED_TYPES)) then
    ret (response 400 (dict [("error", VStr
      "Invalid content type. Allowed types: ['application/pdf', 'image/png', 'image/jpeg', 'image/jpg', 'text/plain']")]))
  else
    do document_id <- new_uuid env;
    do d <- now env;
    let timestamp := strftime_Ymd d in
    let s3_key := "documents/" ++ user_id ++ "/" ++ timestamp ++ "/" ++ document_id
                  ++ "/" ++ default "" filename in
    let url := presigned_url env "put_object" s3_key in
    ret (response 200 (dict
      [("uploadUrl", VStr url);
       ("documentId", VStr document_id);
       ("s3Key", VStr s3_key);
       ("expiresIn", VInt 3600)])).

Definition handle_upload_request (env : Env) (event : Event) : M Response :=
  do parsed <- try_except_if is_JSONDecodeError
                 (do v <- json_loads (body event); ret (Some v))
                 (fun _ => ret None);
  match parsed with
  | None => ret (response 400 (dict [("error", VStr "Invalid JSON body")]))
  | Some v =>
      do body <- as_dict v;
      let document_id := dict_get body "documentId" in
      let s3_key := dict_get body "s3Key" in
      let filename := dict_get body "filename" in
      let content_type := dict_get_default body "contentType" (VStr "application/pdf") in
      let file_size := dict_get_default body "fileSize" (VInt 0) in
      let user_id := get_user_id event in
      if negb (truthy document_id && truthy s3_key && truthy filename) then
        ret (response 400 (dict
          [("error", VStr "documentId, s3Key, and filename are required")]))
      else
        do found <- try_except_if is_ClientError
                      (do _ <- head_object env s3_key; ret true)
                      (fun _ => ret false);
        if negb found then
          ret (response 404 (dict [("error", VStr "Document not found in S3")]))
        else
          do document <- Dynamodb.create_document env
                           user_id filename s3_key content_type file_size;
          ret (response 201 (dict
            [("message", VStr "Document uploaded successfully");
             ("document", VDict document)]))
  end.

Definition lambda_handler (env : Env) (event : Event) : M Response :=
  try_except
    (let http_method := default "POST" (httpMethod event) in
     if String.eqb http_method "POST" then handle_upload_request env event
     else if String.eqb http_method "GET" then handle_get_presigned_url env event
     else ret (response 405 (dict [("error", VStr "Method not allowed")])))
    (fun e =>
       do _ <- print ("Error: " ++ exn_str e);
       ret (response 500 (dict
         [("error", VStr "Internal server error"); ("message", VStr (exn_str e))]))).

End Upload.

(** ** handlers/extract.py *)

Module Extract.

Definition response : Z -> Value -> Response := api_response "GET,POST,OPTIONS".

(** Lines 62-80 of the loop body: what happens to the record named by the
    derived [document_id]. *)
Definition extract_and_store (env : Env) (bucket key document_id : string) : M unit :=
  do _ <- Dynamodb.update_document_status env document_id "PROCESSING" [];
  try_except
    (do result <- adapter (DetectDocumentText bucket key)
                    (extract_text_from_s3 env bucket key);
     do _ <- Dynamodb.store_extracted_text env document_id
               (ocr_text result) (ocr_word_count result) (ocr_confidence result);
     print ("Successfully extracted " ++ pretty (ocr_word_count result)
            ++ " words from document " ++ document_id))
    (fun e =>
       do _ <- print ("Error extracting text from " ++ document_id ++ ": " ++ exn_str e);
       do _ <- Dynamodb.update_document_status env document_id "FAILED"
                 [("errorMessage", VStr (exn_str e))];
       ret tt).

(** The body of the [for record in event.get('Records', [])] loop. *)
Definition process_record (env : Env) (record : S3Record) : M unit :=
  let bucket := s3_bucket_name record in
  let key := unquote_plus env (s3_object_key record) in
  do _ <- print ("Processing document: s3://" ++ bucket ++ "/" ++ key);
  let parts := split "/" key in
  if (4 <=? length parts)%nat then
    let document_id := nth 3 parts "" in
    extract_and_store env bucket key document_id
  else
    print ("Could not extract document ID from key: " ++ key).

Fixpoint for_each_record (env : Env) (records : list S3Record) : M unit :=
  match records with
  | [] => ret tt
  | record :: rest => do _ <- process_record env record; for_each_record env rest
  end.

Definition handle_s3_event (env : Env) (event : Event) : M Response :=
  do _ <- for_each_record env (default [] (Records event));
  ret (MkResponse 200 [] (VStr "Processing complete")).

Definition handle_api_request (env : Env) (event : Event) : M Response :=
  let path_params := params_of (pathParameters event) in
  let document_id := path_params !! "documentId" in
  if negb (nonempty document_id) then
    ret (response 400 (dict [("error", VStr "documentId is required")]))
  else
    let document_id := default "" document_id in
    do found <- Dynamodb.get_document env document_id;
    let document := default ∅ found in
    if negb (truthy (VDict document)) then
      ret (response 404 (dict [("error", VStr "Document not found")]))
    else if eq_str (dict_get document "status") "EXTRACTED"
            && truthy (dict_get document "extractedText") then
      do text <- match document !! "extractedText" with
                 | Some v => ret v
                 | None => raise (MkExn KeyError "'extractedText'")
                 end;
      do confidence <- (fun w =>
                          (py_float env (dict_get_default document "ocrConfidence" (VInt 0)), w));
      ret (response 200 (dict
        [("documentId", VStr document_id);
         ("text", text);
         ("wordCount", dict_get_default document "wordCount" (VInt 0));
         ("confidence", VFloat confidence);
         ("cached", VBool true)]))
    else
      do _ <- Dynamodb.update_document_status env document_id "PROCESSING" [];
      try_except
        (do s3_key <- match document !! "s3Key" with
                      | Some (VStr k) => ret k
                      | Some _ => raise ParamValidationError   (* boto3 rejects the name *)
                      | None => raise (MkExn KeyError "'s3Key'")
                      end;
         do result <- adapter (DetectDocumentText BUCKET_NAME s3_key)
                        (extract_text_from_s3 env BUCKET_NAME s3_key);
         do _ <- Dynamodb.store_extracted_text env document_id
                   (ocr_text result) (ocr_word_count result) (ocr_confidence result);
         ret (response 200 (dict
           [("documentId", VStr document_id);
            ("text", VStr (ocr_text result));
            ("wordCount", VInt (ocr_word_count result));
            ("confidence", VFloat (ocr_confidence result));
            ("cached", VBool false)])))
        (fun e =>
           do _ <- Dynamodb.update_document_status env document_id "FAILED"
                     [("errorMessage", VStr (exn_str e))];
           ret (response 500 (dict
             [("error", VStr "Text extraction failed"); ("message", VStr (exn_str e))]))).

Definition lambda_handler (env : Env) (event : Event) : M Response :=
  try_except
    (match Records event with
     | Some _ => handle_s3_event env event
     | None => handle_api_request env event
     end)
    (fun e =>
       do _ <- print ("Error: " ++ exn_str e);
       ret (response 500 (dict
         [("error", VStr "Internal server error"); ("message", VStr (exn_str e))]))).

End Extract.

(** ** handlers/query.py *)

Module Query.

Definition response : Z -> Value -> Response := api_response "GET,POST,OPTIONS".

(** [body.get('question', '').strip()]: only a string has [strip]. *)
Definition stripped (v : Value) : M string :=
  match v with
  | VStr s => ret (strip s)
  | _ => raise (MkExn AttributeError "object has no attribute 'strip'")
  end.

Definition lambda_handler (env : Env) (event : Event) : M Response :=
  try_except
    (let path_params := params_of (pathParameters event) in
     let document_id := path_params !! "documentId" in
     if negb (nonempty document_id) then
       ret (response 400 (dict [("error", VStr "documentId is required")]))
     else
       let document_id := default "" document_id in
       do parsed <- try_except_if is_JSONDecodeError
                      (do v <- json_loads (body event); ret (Some v))
                      (fun _ => ret None);
       match parsed with
       | None => ret (response 400 (dict [("error", VStr "Invalid JSON body")]))
       | Some v =>
           do body <- as_dict v;
           do question <- stripped (dict_get_default body "question" (VStr ""));
           if String.eqb question "" then
             ret (response 400 (dict
               [("error", VStr "question is required in request body")]))
           else if 1000 <? len question then
             ret (response 400 (dict
               [("error", VStr "Question too long (max 1000 characters)")]))
           else
             do found <- Dynamodb.get_document env document_id;
             let document := default ∅ found in
             if negb (truthy (VDict document)) then
               ret (response 404 (dict [("error", VStr "Document not found")]))
             else
               let extracted_text := dict_get document "extractedText" in
               if negb (truthy extracted_text) then
                 ret (response 400 (dict
                   [("error", VStr "Document text has not been extracted yet");
                    ("hint", VStr "Call the extract endpoint first")]))
               else
                 do result <- adapter (InvokeAnswer extracted_text question)
                                (answer_question env extracted_text question);
                 do _ <- Dynamodb.add_query_to_history env document_id question
                           (fst result);
                 ret (response 200 (dict
                   [("documentId", VStr document_id);
                    ("question", VStr question);
                    ("answer", VStr (fst result));
                    ("confidence", VStr (snd result))]))
       end)
    (fun e =>
       do _ <- print ("Error: " ++ exn_str e);
       ret (response 500 (dict
         [("error", VStr "Query failed"); ("message", VStr (exn_str e))]))).

End Query.

(** ** handlers/summarize.py *)

Module Summarize.

Definition response : Z -> Value -> Response := api_response "GET,POST,OPTIONS".

(** [query_params.get(name, 'false').lower() == 'true']. *)
Definition flag (query_params : gmap string string) (name : string) : bool :=
  String.eqb (lower (default "false" (query_params !! name))) "true".

Definition lambda_handler (env : Env) (event : Event) : M Response :=
  try_except
    (let path_params := params_of (pathParameters event) in
     let document_id := path_params !! "documentId" in
     if negb (nonempty document_id) then
       ret (response 400 (dict [("error", VStr "documentId is required")]))
     else
       let document_id := default "" document_id in
       let query_params := params_of (queryStringParameters event) in
       let include_entities := flag query_params "entities" in
       let include_questions := flag query_params "questions" in
       do max_length <- (fun w =>
                           (py_int env (default (VInt 500) (VStr <$> query_params !! "maxLength")), w));
       do found <- Dynamodb.get_document env document_id;
       let document := default ∅ found in
       if negb (truthy (VDict document)) then
         ret (response 404 (dict [("error", VStr "Document not found")]))
       else
         let extracted_text := dict_get document "extractedText" in
         if negb (truthy extracted_text) then
           ret (response 400 (dict
             [("error", VStr "Document text has not been extracted yet");
              ("hint", VStr "Call the extract endpoint first")]))
         else if truthy (dict_get document "summary")
                 && negb include_entities && negb include_questions then
           ret (response 200 (dict
             [("documentId", VStr document_id);
              ("summary", dict_get document "summary");
              ("cached", VBool true)]))
         else
           do summary <- adapter (InvokeSummarize extracted_text max_length)
                           (summarize_document env extracted_text max_length);
           do _ <- Dynamodb.store_summary env document_id summary;
           let result :=
             [("documentId", VStr document_id);
              ("summary", VStr summary);
              ("wordCount", dict_get_default document "wordCount" (VInt 0));
              ("cached", VBool false)] in
           do result <- (if include_entities then
                           do entities <- adapter (InvokeEntities extracted_text)
                                            (extract_key_entities env extracted_text);
                           ret (result ++ [("entities", entities)])%list
                         else ret result);
           do result <- (if include_questions then
                           do questions <- adapter (InvokeQuestions extracted_text 5)
                                             (generate_document_questions env extracted_text 5);
                           ret (result ++ [("suggestedQuestions", VList (VStr <$> questions))])%list
                         else ret result);
           ret (response 200 (dict result)))
    (fun e =>
       do _ <- print ("Error: " ++ exn_str e);
       ret (response 500 (dict
         [("error", VStr "Summarization failed"); ("message", VStr (exn_str e))]))).

End Summarize.

(** ** handlers/documents.py *)

Module Documents.

Definition response : Z -> Value -> Response := api_response "GET,POST,DELETE,OPTIONS".

Definition get_user_id (event : Event) : string :=
  match claims event with
  | Some c => default "anonymous" (c !! "sub")
  | None => default "anonymous" (params_of (headers event) !! "X-User-Id")
  end.

(** [document.get('userId') != user_id and user_id != 'anonymous']. *)
Definition access_denied (document : Item) (user_id : string) : bool :=
  negb (eq_str (dict_get document "userId") user_id)
  && negb (String.eqb user_id "anonymous").

Definition list_documents_handler (env : Env) (event : Event) : M Response :=
  let user_id := get_user_id event in
  let query_params := params_of (queryStringParameters event) in
  do limit <- (fun w =>
                 (py_int env (default (VInt 50) (VStr <$> query_params !! "limit")), w));
  let limit := Z.min limit 100 in
  do documents <- Dynamodb.get_user_documents env user_id limit;
  let documents :=
    (fun doc : Item => delete "queryHistory" (delete "extractedText" doc)) <$> documents in
  ret (response 200 (dict
    [("documents", VList (VDict <$> documents));
     ("count", VInt (Z.of_nat (length documents)))])).

Definition get_document_handler (env : Env) (event : Event) (document_id : string)
    : M Response :=
  do found <- Dynamodb.get_document env document_id;
  let document := default ∅ found in
  if negb (truthy (VDict document)) then
    ret (response 404 (dict [("error", VStr "Document not found")]))
  else
    let user_id := get_user_id event in
    if access_denied document user_id then
      ret (response 403 (dict [("error", VStr "Access denied")]))
    else
      let query_params := params_of (queryStringParameters event) in
      let include_text := Summarize.flag query_params "includeText" in
      let include_history := Summarize.flag query_params "includeHistory" in
      let document := if include_text then document else delete "extractedText" document in
      let document := if include_history then document else delete "queryHistory" document in
      do document <- (if truthy (dict_get document "s3Key") then
                        match dict_get document "s3Key" with
                        | VStr k =>
                            ret (<["downloadUrl" :=
                                    VStr (presigned_url env "get_object" k)]> document)
                        | _ => raise ParamValidationError
                        end
                      else ret document);
      ret (response 200 (dict [("document", VDict document)])).

Definition delete_document_handler (env : Env) (event : Event)
    (document_id : option string) : M Response :=
  if negb (nonempty document_id) then
    ret (response 400 (dict [("error", VStr "documentId is required")]))
  else
    let document_id := default "" document_id in
    do found <- Dynamodb.get_document env document_id;
    let document := default ∅ found in
    if negb (truthy (VDict document)) then
      ret (response 404 (dict [("error", VStr "Document not found")]))
    else
      let user_id := get_user_id event in
      if access_denied document user_id then
        ret (response 403 (dict [("error", VStr "Access denied")]))
      else
        do _ <- (if truthy (dict_get document "s3Key") then
                   try_except
                     (delete_object env (dict_get document "s3Key"))
                     (fun e => print ("Warning: Could not delete S3 object: " ++ exn_str e))
                 else ret tt);
        do _ <- Dynamodb.delete_document env document_id;
        ret (response 200 (dict
          [("message", VStr "Document deleted successfully");
           ("documentId", VStr document_id)])).

Definition lambda_handler (env : Env) (event : Event) : M Response :=
  try_except
    (let http_method := default "GET" (httpMethod event) in
     let path_params := params_of (pathParameters event) in
     let document_id := path_params !! "documentId" in
     if String.eqb http_method "GET" then
       if nonempty document_id then
         get_document_handler env event (default "" document_id)
       else list_documents_handler env event
     else if String.eqb http_method "DELETE" then
       delete_document_handler env event document_id
     else ret (response 405 (dict [("error", VStr "Method not allowed")])))
    (fun e =>
       do _ <- print ("Error: " ++ exn_str e);
       ret (response 500 (dict
         [("error", VStr "Internal server error"); ("message", VStr (exn_str e))]))).

End Documents.

(** ** The deployed pipeline: one handler invocation at a time *)

Module Pipeline.

Inductive Request :=
| ToUpload (event : Event)       (* upload slot (GET) or finalize (POST) *)
| ToExtract (event : Event)      (* storage event or extraction request *)
| ToQuery (event : Event)
| ToSummarize (event : Event)
| ToDocuments (event : Event)    (* list, get or delete *)
| ClientPut (key : string).      (* the client's upload through a presigned URL *)

Definition serve (env : Env) (request : Request) (w : World) : World :=
  match request with
  | ToUpload event => snd (Upload.lambda_handler env event w)
  | ToExtract event => snd (Extract.lambda_handler env event w)
  | ToQuery event => snd (Query.lambda_handler env event w)
  | ToSummarize event => snd (Summarize.lambda_handler env event w)
  | ToDocuments event => snd (Documents.lambda_handler env event w)
  | ClientPut key => client_put key w
  end.

(** Worlds the deployment can be in: it starts with an empty table, and
    every invocation may meet different services. *)
Inductive reachable : World -> Prop :=
| reachable_start w : table w = ∅ -> reachable w
| reachable_serve env request w : reachable w -> reachable (serve env request w).

Fixpoint serve_all (script : list (Env * Request)) (w : World) : World :=
  match script with
  | [] => w
  | (env, request) :: rest => serve_all rest (serve env request w)
  end.

(** A record that carries [extractedText] has one of the [allowed] statuses. *)
Definition text_implies_status (allowed : list string) (item : Item) : bool :=
  match item !! "extractedText" with
  | None => true
  | Some _ =>
      match item !! "status" with
      | Some (VStr s) => bool_decide (s ∈ allowed)
      | _ => false
      end
  end.

Definition invariant (allowed : list string) (t : gmap string Item) : Prop :=
  map_Forall (fun _ item => text_implies_status allowed item = true) t.

(** The statuses the specification allows next to an extracted text, and
    those the handlers can leave next to one. *)
Definition spec_statuses : list string := ["EXTRACTED"; "COMPLETED"].
Definition code_statuses : list string :=
  ["PROCESSING"; "EXTRACTED"; "COMPLETED"; "FAILED"].

(** A computation keeps a property of the table. *)
Definition keeps {A} (P : gmap string Item -> Prop) (m : M A) : Prop :=
  forall w, P (table w) -> P (table (snd (m w))).

End Pipeline.

(** ** Test doubles and a walk through the pipeline *)

Module Scenario.

Definition no_fault : nat -> option Exn := fun _ => None.

Definition hello_ocr : OcrResult := MkOcr "Hello world" 1 2 98.5%float.

(** Services that never fail; Textract reads "Hello world" off every page. *)
Definition env0 : Env := {|
  fault := no_fault;
  uuid4 := fun n => "uuid-" ++ pretty n;
  utcnow := fun _ => MkDate 2024 1 15 "T10:30:00";
  str_float := fun _ => "98.5";
  py_float := fun v => match v with
                       | VStr "98.5" => inr 98.5%float
                       | VInt 0 => inr 0%float
                       | _ => inl (MkExn ValueError "could not convert to float")
                       end;
  py_int := fun v => match v with
                     | VInt z => inr z
                     | VStr "50" => inr 50
                     | _ => inl (MkExn ValueError "invalid literal for int()")
                     end;
  unquote_plus := fun s => s;
  presigned_url := fun op key => "https://s3.example/" ++ key;
  index_query := fun _ _ _ => [];
  extract_text_from_s3 := fun _ _ => inr hello_ocr;
  summarize_document := fun _ _ => inr "A greeting.";
  answer_question := fun _ _ => inr ("It says hello.", "high");
  extract_key_entities := fun _ => inr (VDict ∅);
  generate_document_questions := fun _ _ => inr []
|}.

Definition with_fault (f : nat -> option Exn) (env : Env) : Env :=
  MkEnv f (uuid4 env) (utcnow env) (str_float env) (py_float env) (py_int env)
    (unquote_plus env) (presigned_url env) (index_query env) (extract_text_from_s3 env)
    (summarize_document env) (answer_question env) (extract_key_entities env)
    (generate_document_questions env).

Definition with_ocr (f : string -> string -> Exn + OcrResult) (env : Env) : Env :=
  MkEnv (fault env) (uuid4 env) (utcnow env) (str_float env) (py_float env) (py_int env)
    (unquote_plus env) (presigned_url env) (index_query env) f
    (summarize_document env) (answer_question env) (extract_key_entities env)
    (generate_document_questions env).

Definition empty_world : World := MkWorld ∅ ∅ [] [].

Definition no_event : Event := MkEvent None None None None None BodyAbsent None.

Definition as_user (user : string) (event : Event) : Event :=
  MkEvent (httpMethod event) (pathParameters event) (queryStringParameters event)
    (Some {[ "X-User-Id" := user ]}) (claims event) (body event) (Records event).

Definition on_document (document_id : string) (event : Event) : Event :=
  MkEvent (httpMethod event) (Some {[ "documentId" := document_id ]})
    (queryStringParameters event) (headers event) (claims event) (body event)
    (Records event).

Definition with_query (params : gmap string string) (event : Event) : Event :=
  MkEvent (httpMethod event) (pathParameters event) (Some params)
    (headers event) (claims event) (body event) (Records event).

Definition with_body (fields : list (string * Value)) (event : Event) : Event :=
  MkEvent (httpMethod event) (pathParameters event) (queryStringParameters event)
    (headers event) (claims event) (BodyJson (dict fields)) (Records event).

Definition s3_event (keys : list string) : Event :=
  MkEvent None None None None None BodyAbsent
    (Some (MkS3Record BUCKET_NAME <$> keys)).

(** The upload slot for report.pdf requested by user u1. *)
Definition slot_request : Event :=
  as_user "u1" (with_query {[ "filename" := "report.pdf";
                              "contentType" := "application/pdf" ]} no_event).

Definition slot_key : string := "documents/u1/2024/01/15/uuid-0/report.pdf".

(** The finalize request a client sends after that upload. *)
Definition finalize_request : Event :=
  as_user "u1" (with_body [("documentId", VStr "uuid-0");
                           ("s3Key", VStr slot_key);
                           ("filename", VStr "report.pdf");
                           ("contentType", VStr "application/pdf");
                           ("fileSize", VInt 2048)] no_event).

Definition AccessDenied : Exn := MkExn ClientError "An error occurred (AccessDenied)".

(** Services whose Textract call raises. *)
Definition ocr_down : Env := with_ocr (fun _ _ => inl AccessDenied) env0.

(** The storage event of the uploaded report, delivered twice; the second
    time Textract fails. *)
Definition redelivery : list (Env * Pipeline.Request) :=
  [(env0, Pipeline.ToExtract (s3_event [slot_key]));
   (ocr_down, Pipeline.ToExtract (s3_event [slot_key]))].

(** The world in which that finalize request arrives: the slot was issued in
    the empty world and the client has put the blob. *)
Definition finalize_world : World :=
  client_put slot_key (snd (Upload.handle_get_presigned_url env0 slot_request empty_world)).

(** The world after that finalize request: the record of the upload exists
    (under uuid-2) with status UPLOADED. *)
Definition finalized_world : World :=
  snd (Upload.handle_upload_request env0 finalize_request finalize_world).

(** A document of alice, extracted, whose blob is no longer in the bucket. *)
Definition alice_document : Item := list_to_map
  [("documentId", VStr "doc-1");
   ("userId", VStr "alice");
   ("filename", VStr "report.pdf");
   ("s3Key", VStr "documents/alice/2024/01/15/doc-1/report.pdf");
   ("contentType", VStr "application/pdf");
   ("fileSize", VInt 2048);
   ("status", VStr "EXTRACTED");
   ("createdAt", VStr "2024-01-15T10:00:00");
   ("updatedAt", VStr "2024-01-15T10:05:00");
   ("extractedText", VStr "Hello world");
   ("wordCount", VInt 2);
   ("ocrConfidence", VStr "98.5");
   ("textLength", VInt 11)].

Definition alice_world : World := MkWorld {[ "doc-1" := alice_document ]} ∅ [] [].

(** The same document once summarized. *)
Definition summarized_document : Item :=
  <["summary" := VStr "A greeting."]> (<["status" := VStr "COMPLETED"]> alice_document).

Definition summarized_world : World :=
  MkWorld {[ "doc-1" := summarized_document ]} ∅ [] [].

(** A summarize request for doc-1 asking for about 50 words. *)
Definition summarize_request : Event :=
  on_document "doc-1" (with_query {[ "maxLength" := "50" ]} no_event).

(** The document of alice after one question was asked about it. *)
Definition earlier_entry : Value :=
  dict [("question", VStr "What is this?");
        ("answer", VStr "A greeting.");
        ("timestamp", VStr "2024-01-15T10:10:00")].

Definition asked_document : Item :=
  <["queryHistory" := VList [earlier_entry]]> alice_document.

Definition asked_world : World := MkWorld {[ "doc-1" := asked_document ]} ∅ [] [].

(** A second question about doc-1, sent by mallory. *)
Definition question_request : Event :=
  as_user "mallory"
    (on_document "doc-1" (with_body [("question", VStr "  Who says hello?  ")] no_event)).

(** The entry that question adds to the history. *)
Definition new_entry : Value :=
  dict [("question", VStr "Who says hello?");
        ("answer", VStr "It says hello.");
        ("timestamp", VStr "2024-01-15T10:30:00")].

(** Services whose call at time [n] raises. *)
Definition failing_at (n : nat) (env : Env) : Env :=
  with_fault (fun m => if (m =? n)%nat then Some AccessDenied else None) env.

End Scenario.

(** ** More string methods *)

(** The newline character and the string made of it. *)
Definition newline_char : ascii := "010"%char.
Definition newline : string := String newline_char EmptyString.

(** The double quote. *)
Definition dquote : string := String "034"%char EmptyString.

(** [sep.join(items)]. *)
Fixpoint join (sep : string) (items : list string) : string :=
  match items with
  | [] => ""
  | item :: rest =>
      match rest with
      | [] => item
      | _ => item ++ sep ++ join sep rest
      end
  end.

(** [s.startswith(p)]. *)
Fixpoint startswith (p s : string) : bool :=
  match p, s with
  | EmptyString, _ => true
  | String a p', String b s' => Ascii.eqb a b && startswith p' s'
  | String _ _, EmptyString => false
  end.

(** [needle in hay]. *)
Fixpoint is_infix (needle hay : string) : bool :=
  startswith needle hay
  || match hay with
     | EmptyString => false
     | String _ hay' => is_infix needle hay'
     end.

(** [s.find(c)] for a character [c]: the lowest index, or -1. *)
Fixpoint find (c : ascii) (s : string) : Z :=
  match s with
  | EmptyString => -1
  | String c' s' =>
      if Ascii.eqb c' c then 0
      else let i := find c s' in if i <? 0 then -1 else i + 1
  end.

(** [s.rfind(c)] for a character [c]: the highest index, or -1. *)
Fixpoint rfind (c : ascii) (s : string) : Z :=
  match s with
  | EmptyString => -1
  | String c' s' =>
      let i := rfind c s' in
      if 0 <=? i then i + 1 else if Ascii.eqb c' c then 0 else -1
  end.

(** [s[n:]] for [n >= 0]. *)
Fixpoint slice_from (n : Z) (s : string) : string :=
  match s with
  | EmptyString => EmptyString
  | String c s' => if n <=? 0 then s else slice_from (n - 1) s'
  end.

(** [s[start:stop]] for [0 <= start <= stop]. *)
Definition slice (start stop : Z) (s : string) : string :=
  slice_to (stop - start) (slice_from start s).

(** [c.isdigit()] on the first 256 code points: the ten digits and the
    superscripts one, two and three. *)
Definition isdigit (c : ascii) : bool :=
  let n := Z.of_nat (nat_of_ascii c) in
  ((48 <=? n) && (n <=? 57)) || (n =? 178) || (n =? 179) || (n =? 185).

(** [s.lstrip(chars)]. *)
Fixpoint lstrip_chars (chars : string) (s : string) : string :=
  match s with
  | String c s' => if contains c chars then lstrip_chars chars s' else s
  | EmptyString => EmptyString
  end.

(** [l[:n]], also for a negative [n]. *)
Definition list_slice_to {A} (n : Z) (l : list A) : list A :=
  if 0 <=? n then take (Z.to_nat n) l
  else take (length l - Z.to_nat (- n)) l.

(** ** utils/textract.py *)

(** The OCR adapter itself, from the blocks Textract answers on; the handlers
    above take it by its result, and [Scenario.with_ocr] puts it behind
    them. *)

Module Textract.

Record Relationship := MkRelationship {
  rel_type : string;             (* relationship['Type'] *)
  rel_ids : list string          (* relationship['Ids'] *)
}.

(** A block of a Textract response; the optional fields are the keys a block
    may lack. *)
Record Block := MkBlock {
  BlockType : string;
  Id : string;
  Text : option string;
  Confidence : option float;
  EntityTypes : option (list string);
  Relationships : option (list Relationship)
}.

(** [block['Text']]. *)
Definition text_of (block : Block) : Exn + string :=
  match Text block with
  | Some t => inr t
  | None => inl (MkExn KeyError "'Text'")
  end.

(** The loop of [extract_text_from_s3] over the blocks, from the lists of
    lines and words gathered so far. *)
Fixpoint gather (blocks : list Block) (lines words : list string)
    : Exn + (list string * list string) :=
  match blocks with
  | [] => inr (lines, words)
  | block :: rest =>
      if String.eqb (BlockType block) "LINE" then
        match text_of block with
        | inr t => gather rest (lines ++ [t]) words
        | inl e => inl e
        end
      else if String.eqb (BlockType block) "WORD" then
        match text_of block with
        | inr t => gather rest lines (words ++ [t])
        | inl e => inl e
        end
      else gather rest lines words
  end.

(** [float(n)] for a list length. *)
Definition float_of_nat (n : nat) : float :=
  PrimFloat.of_uint63 (Uint63.of_Z (Z.of_nat n)).

Definition _calculate_average_confidence (blocks : list Block) : float :=
  let confidences := omap Confidence blocks in
  match confidences with
  | [] => 0%float
  | _ =>
      PrimFloat.div (fold_left PrimFloat.add confidences 0%float)
        (float_of_nat (length confidences))
  end.

(** [extract_text_from_s3], given what [detect_document_text] answers. *)
Definition extract_text_from_s3
    (detect_document_text : string -> string -> Exn + list Block)
    (bucket key : string) : Exn + OcrResult :=
  match detect_document_text bucket key with
  | inl e => inl e
  | inr blocks =>
      match gather blocks [] [] with
      | inl e => inl e
      | inr (lines, words) =>
          inr (MkOcr (join newline lines)
                 (Z.of_nat (length lines))
                 (Z.of_nat (length words))
                 (_calculate_average_confidence blocks))
      end
  end.

(** The texts of the blocks of [all_blocks] named [child_id] that have one. *)
Definition texts_named (child_id : string) (all_blocks : list Block) : list string :=
  omap (fun b => if String.eqb (Id b) child_id then Text b else None) all_blocks.

Definition _get_text_from_block (block : Block) (all_blocks : list Block) : string :=
  match Text block with
  | Some t => t
  | None =>
      let text_parts :=
        match Relationships block with
        | Some relationships =>
            flat_map (fun relationship =>
                        if String.eqb (rel_type relationship) "CHILD" then
                          flat_map (fun child_id => texts_named child_id all_blocks)
                            (rel_ids relationship)
                        else [])
              relationships
        | None => []
        end in
      join " " text_parts
  end.

(** The first block of [all_blocks] whose [Id] is [value_id]. *)
Definition block_named (value_id : string) (all_blocks : list Block) : option Block :=
  List.find (fun b => String.eqb (Id b) value_id) all_blocks.

(** The first hit of a search [f] along a list. *)
Fixpoint first_hit {A B} (f : A -> option B) (l : list A) : option B :=
  match l with
  | [] => None
  | x :: rest => match f x with Some y => Some y | None => first_hit f rest end
  end.

Definition _get_value_for_key (key_block : Block) (all_blocks : list Block)
    : option string :=
  match Relationships key_block with
  | None => None
  | Some relationships =>
      first_hit (fun relationship =>
                   if String.eqb (rel_type relationship) "VALUE" then
                     first_hit (fun value_id =>
                                  match block_named value_id all_blocks with
                                  | Some block => Some (_get_text_from_block block all_blocks)
                                  | None => None
                                  end)
                       (rel_ids relationship)
                   else None)
        relationships
  end.

Record Analysis := MkAnalysis {
  an_text : string;
  an_tables : list Value;
  an_forms : list (string * string);     (* {'key': ..., 'value': ...} *)
  an_signatures : list Value
}.

(** The loop of [analyze_document_s3] over the blocks; [all_blocks] is
    [response['Blocks']]. *)
Fixpoint analyze_blocks (all_blocks blocks : list Block)
    (lines : list string) (key_value_pairs : list (string * string))
    : Exn + (list string * list (string * string)) :=
  match blocks with
  | [] => inr (lines, key_value_pairs)
  | block :: rest =>
      if String.eqb (BlockType block) "LINE" then
        match text_of block with
        | inr t => analyze_blocks all_blocks rest (lines ++ [t]) key_value_pairs
        | inl e => inl e
        end
      else if String.eqb (BlockType block) "KEY_VALUE_SET" then
        if bool_decide ("KEY" ∈ default [] (EntityTypes block)) then
          let key_text := _get_text_from_block block all_blocks in
          let value_text := _get_value_for_key block all_blocks in
          if negb (String.eqb key_text "") then
            analyze_blocks all_blocks rest lines
              (key_value_pairs ++ [(key_text, default "" value_text)])
          else analyze_blocks all_blocks rest lines key_value_pairs
        else analyze_blocks all_blocks rest lines key_value_pairs
      else analyze_blocks all_blocks rest lines key_value_pairs
  end.

(** [analyze_document_s3], given what [analyze_document] answers for the
    feature types (['TABLES', 'FORMS'] when none are given). *)
Definition analyze_document_s3
    (analyze_document : string -> string -> list string -> Exn + list Block)
    (bucket key : string) (feature_types : option (list string)) : Exn + Analysis :=
  let feature_types := default ["TABLES"; "FORMS"] feature_types in
  match analyze_document bucket key feature_types with
  | inl e => inl e
  | inr blocks =>
      match analyze_blocks blocks blocks [] [] with
      | inl e => inl e
      | inr (lines, key_value_pairs) =>
          inr (MkAnalysis (join newline lines) [] key_value_pairs [])
      end
  end.

End Textract.

(** ** utils/bedrock.py *)

(** The LLM adapters themselves, from the text the model answers on. *)

Module Bedrock.

(** [invoke_claude(prompt, system_prompt=..., temperature=...)]: the model
    behind it answers with a text or raises. *)
Definition Claude : Type := string -> string -> float -> Exn + string.

Definition summarize_system_prompt : string :=
  "You are an expert document analyst. Your task is to provide " ++ newline
  ++ "    clear, concise, and accurate summaries of documents. Focus on the key points, " ++ newline
  ++ "    main ideas, and important details. Be objective and maintain the original " ++ newline
  ++ "    meaning.".

Definition summarize_prompt (text : string) (max_length : Z) : string :=
  "Please provide a comprehensive summary of the following document. " ++ newline
  ++ "The summary should be approximately " ++ pretty max_length ++ " words and capture the main points." ++ newline
  ++ newline
  ++ "Document:" ++ newline
  ++ "---" ++ newline
  ++ text ++ newline
  ++ "---" ++ newline
  ++ newline
  ++ "Summary:".

Definition summarize_document (invoke_claude : Claude) (text : string) (max_length : Z)
    : Exn + string :=
  invoke_claude (summarize_prompt text max_length) summarize_system_prompt 0.3%float.

Definition answer_system_prompt : string :=
  "You are a helpful document assistant. Answer questions " ++ newline
  ++ "    based ONLY on the provided document context. If the answer cannot be found " ++ newline
  ++ "    in the document, say so clearly. Always cite relevant parts of the document " ++ newline
  ++ "    when possible.".

Definition answer_prompt (document_text question : string) : string :=
  "Based on the following document, please answer the question." ++ newline
  ++ "If the answer is not found in the document, respond with " ++ dquote ++ "I couldn't find this information in the document." ++ dquote ++ newline
  ++ newline
  ++ "Document:" ++ newline
  ++ "---" ++ newline
  ++ document_text ++ newline
  ++ "---" ++ newline
  ++ newline
  ++ "Question: " ++ question ++ newline
  ++ newline
  ++ "Please provide a clear and concise answer:".

(** Lines 126-131: the confidence read off the answer. *)
Definition confidence_of (answer : string) : string :=
  if is_infix "couldn't find" (lower answer) || is_infix "not found" (lower answer)
  then "low"
  else if is_infix "may" (lower answer) || is_infix "might" (lower answer)
  then "medium"
  else "high".

Definition answer_question (invoke_claude : Claude) (document_text question : string)
    : Exn + (string * string) :=
  match invoke_claude (answer_prompt document_text question) answer_system_prompt
          0.2%float with
  | inl e => inl e
  | inr answer => inr (answer, confidence_of answer)
  end.

Definition entities_system_prompt : string :=
  "You are an entity extraction expert. Extract key entities " ++ newline
  ++ "    from documents accurately. Return entities in a structured format.".

Definition entities_prompt (text : string) : string :=
  "Extract key entities from the following document. " ++ newline
  ++ "Identify: People, Organizations, Dates, Locations, Monetary Values, and Key Terms." ++ newline
  ++ newline
  ++ "Document:" ++ newline
  ++ "---" ++ newline
  ++ text ++ newline
  ++ "---" ++ newline
  ++ newline
  ++ "Return the entities as a JSON object with these keys:" ++ newline
  ++ "- people: list of person names" ++ newline
  ++ "- organizations: list of organization names" ++ newline
  ++ "- dates: list of dates mentioned" ++ newline
  ++ "- locations: list of locations" ++ newline
  ++ "- monetary_values: list of monetary amounts" ++ newline
  ++ "- key_terms: list of important terms or concepts" ++ newline
  ++ newline
  ++ "JSON:".

(** Lines 172-182: the entities read off the response; [json_loads] is
    [json.loads]. *)
Definition entities_of (json_loads : string -> Exn + Value) (response : string)
    : Exn + Value :=
  let start := find "{" response in
  let stop := rfind "}" response + 1 in
  let parsed :=
    if negb (start =? -1) && (start <? stop) then
      match json_loads (slice start stop response) with
      | inr v => Some (inr v)
      | inl e => if is_JSONDecodeError e then None else Some (inl e)
      end
    else None in
  default (inr (dict [("raw_response", VStr response)])) parsed.

Definition extract_key_entities (invoke_claude : Claude)
    (json_loads : string -> Exn + Value) (text : string) : Exn + Value :=
  match invoke_claude (entities_prompt text) entities_system_prompt 0.1%float with
  | inl e => inl e
  | inr response => entities_of json_loads response
  end.

Definition questions_system_prompt : string :=
  "You are an educational assistant. Generate insightful " ++ newline
  ++ "    questions that help users understand and explore document content.".

Definition questions_prompt (text : string) (num_questions : Z) : string :=
  "Based on the following document, generate " ++ pretty num_questions ++ " " ++ newline
  ++ "thoughtful questions that someone might want to ask about its content." ++ newline
  ++ "Focus on important details, key concepts, and practical insights." ++ newline
  ++ newline
  ++ "Document:" ++ newline
  ++ "---" ++ newline
  ++ slice_to 3000 text ++ "  # Limit text to avoid token limits" ++ newline
  ++ "---" ++ newline
  ++ newline
  ++ "Generate exactly " ++ pretty num_questions ++ " questions, one per line, numbered 1-" ++ pretty num_questions ++ ":".

(** The body of the loop of lines 214-220: the question a line holds. *)
Definition question_of_line (line : string) : option string :=
  let line := strip line in
  match line with
  | EmptyString => None
  | String first _ =>
      if isdigit first || startswith "-" line then
        let question := strip (lstrip_chars "0123456789.-) " line) in
        if negb (String.eqb question "") then Some question else None
      else None
  end.

(** Lines 212-222: the questions read off the response. *)
Definition parse_questions (response : string) (num_questions : Z) : list string :=
  list_slice_to num_questions
    (omap question_of_line (split newline_char (strip response))).

Definition generate_document_questions (invoke_claude : Claude)
    (text : string) (num_questions : Z) : Exn + list string :=
  match invoke_claude (questions_prompt text num_questions) questions_system_prompt
          0.7%float with
  | inl e => inl e
  | inr response => inr (parse_questions response num_questions)
  end.

End Bedrock.

(** ** More test doubles *)

Module Cases.

(** Services whose index answers with the given documents. *)
Definition listing (documents : list Item) : Env :=
  MkEnv (fault Scenario.env0) (uuid4 Scenario.env0) (utcnow Scenario.env0)
    (str_float Scenario.env0) (py_float Scenario.env0) (py_int Scenario.env0)
    (unquote_plus Scenario.env0) (presigned_url Scenario.env0)
    (fun _ _ _ => documents)
    (extract_text_from_s3 Scenario.env0) (summarize_document Scenario.env0)
    (answer_question Scenario.env0) (extract_key_entities Scenario.env0)
    (generate_document_questions Scenario.env0).

(** Services whose LLM adapter raises on every call. *)
Definition llm_down : Env :=
  MkEnv (fault Scenario.env0) (uuid4 Scenario.env0) (utcnow Scenario.env0)
    (str_float Scenario.env0) (py_float Scenario.env0) (py_int Scenario.env0)
    (unquote_plus Scenario.env0) (presigned_url Scenario.env0)
    (index_query Scenario.env0) (extract_text_from_s3 Scenario.env0)
    (fun _ _ => inl Scenario.AccessDenied) (fun _ _ => inl Scenario.AccessDenied)
    (fun _ => inl Scenario.AccessDenied) (fun _ _ => inl Scenario.AccessDenied).

(** The document of alice before any extraction. *)
Definition uploaded_document : Item := list_to_map
  [("documentId", VStr "doc-1");
   ("userId", VStr "alice");
   ("filename", VStr "report.pdf");
   ("s3Key", VStr "documents/alice/2024/01/15/doc-1/report.pdf");
   ("contentType", VStr "application/pdf");
   ("fileSize", VInt 2048);
   ("status", VStr "UPLOADED");
   ("createdAt", VStr "2024-01-15T10:00:00");
   ("updatedAt", VStr "2024-01-15T10:00:00")].

Definition uploaded_world : World := MkWorld {[ "doc-1" := uploaded_document ]} ∅ [] [].

(** Services whose LLM summarizes but fails at entities and questions. *)
Definition enrichment_down : Env :=
  MkEnv (fault Scenario.env0) (uuid4 Scenario.env0) (utcnow Scenario.env0)
    (str_float Scenario.env0) (py_float Scenario.env0) (py_int Scenario.env0)
    (unquote_plus Scenario.env0) (presigned_url Scenario.env0)
    (index_query Scenario.env0) (extract_text_from_s3 Scenario.env0)
    (fun _ _ => inr "A short greeting.") (answer_question Scenario.env0)
    (fun _ => inl Scenario.AccessDenied) (fun _ _ => inl Scenario.AccessDenied).

(** A summarize request for doc-1 that also asks for the entities. *)
Definition entities_request : Event :=
  Scenario.on_document "doc-1"
    (Scenario.with_query {[ "entities" := "TRUE" ]} Scenario.no_event).

(** The record a storage event leaves for an object outside the upload
    layout when Textract fails on it: it has no [s3Key]. *)
Definition stub : Item := list_to_map
  [("documentId", VStr "01");
   ("status", VStr "FAILED");
   ("updatedAt", VStr "2024-01-15T10:30:00");
   ("errorMessage", VStr "An error occurred (AccessDenied)")].

Definition stub_world : World := MkWorld {[ "01" := stub ]} ∅ [] [].

(** A page as Textract describes it: two lines, three words. *)
Definition page : list Textract.Block :=
  [Textract.MkBlock "PAGE" "p1" None None None None;
   Textract.MkBlock "LINE" "l1" (Some "Hello") (Some 99%float) None None;
   Textract.MkBlock "WORD" "w1" (Some "Hello") (Some 99%float) None None;
   Textract.MkBlock "LINE" "l2" (Some "world") (Some 98%float) None None;
   Textract.MkBlock "WORD" "w2" (Some "wor") (Some 98%float) None None;
   Textract.MkBlock "WORD" "w3" (Some "ld") (Some 97%float) None None].

Definition detect : string -> string -> Exn + list Textract.Block :=
  fun _ _ => inr page.

(** A form as Textract describes it: the key "Name:" with the value "Alice",
    and a key without text. *)
Definition form : list Textract.Block :=
  [Textract.MkBlock "LINE" "l1" (Some "Name: Alice") None None None;
   Textract.MkBlock "KEY_VALUE_SET" "k1" None None (Some ["KEY"])
     (Some [Textract.MkRelationship "VALUE" ["v1"];
            Textract.MkRelationship "CHILD" ["w1"]]);
   Textract.MkBlock "KEY_VALUE_SET" "v1" None None (Some ["VALUE"])
     (Some [Textract.MkRelationship "CHILD" ["w2"]]);
   Textract.MkBlock "KEY_VALUE_SET" "k2" None None (Some ["KEY"]) None;
   Textract.MkBlock "WORD" "w1" (Some "Name:") None None None;
   Textract.MkBlock "WORD" "w2" (Some "Alice") None None None;
   Textract.MkBlock "TABLE" "t1" None None None None].

Definition analyze : string -> string -> list string -> Exn + list Textract.Block :=
  fun _ _ _ => inr form.

(** A page on which Textract finds nothing to read. *)
Definition blank_page : list Textract.Block :=
  [Textract.MkBlock "PAGE" "p1" None None None None].

Definition detect_blank : string -> string -> Exn + list Textract.Block :=
  fun _ _ => inr blank_page.

(** A model that answers every prompt with [response]. *)
Definition claude_says (response : string) : Bedrock.Claude :=
  fun _ _ _ => inr response.

(** A [json.loads] that knows the empty object only. *)
Definition loads_empty_object (s : string) : Exn + Value :=
  if String.eqb s "{}" then inr (VDict ∅)
  else inl (MkExn JSONDecodeError "Expecting value").

(** A response to the request for questions: an introduction, two
    numbered questions, a starred one and a dashed one. *)
Definition questions_response : string :=
  "Here are your questions:" ++ newline
  ++ "1. What is greeted?" ++ newline
  ++ "2) 3 reasons to say hello?" ++ newline
  ++ "* Who says it?" ++ newline
  ++ "- Why?" ++ newline.

(** A get of doc-1 whose method is spelled in lower case. *)
Definition lowercase_get : Event :=
  MkEvent (Some "get") (Some {[ "documentId" := "doc-1" ]}) None
    (Some {[ "X-User-Id" := "alice" ]}) None BodyAbsent None.

End Cases.

(** ** What a status update sends and stores *)

(** The [SET] actions [update_document_status] builds in world [w]. *)
Definition status_actions (env : Env) (status : string) (w : World)
    (metadata : list (string * Value)) : list Action :=
  SetAttr "status" (VStr status)
  :: SetAttr "updatedAt" (VStr (isoformat (utcnow env (tick w))))
  :: map (fun kv => SetAttr (fst kv) (snd kv)) metadata.

Definition set_all (metadata : list (string * Value)) (item : Item) : Item :=
  fold_left (fun it kv => <[fst kv := snd kv]> it) metadata item.

(** The item an update starts from: the stored one, or a new one with only
    its key. *)
Definition upserted (key : string) (w : World) : Item :=
  default {[ "documentId" := VStr key ]} (table w !! key).

(** The item a status update leaves under [key]. *)
Definition with_status (env : Env) (key status : string)
    (metadata : list (string * Value)) (w : World) : Item :=
  set_all metadata
    (<["updatedAt" := VStr (isoformat (utcnow env (tick w)))]>
       (<["status" := VStr status]> (upserted key w))).

(** A record whose extraction has come to an end, one way or the other. *)
Definition settled (t : gmap string Item) (key : string) : Prop :=
  exists item,
    t !! key = Some item
    /\ (item !! "status" = Some (VStr "EXTRACTED")
        \/ item !! "status" = Some (VStr "FAILED")).

(** * Properties *)

(** ** Running the primitives *)

Section Primitives.
Context (env : Env).

Lemma aws_returns {A} (c : Call) (act : M A) w :
  fault env (tick w) = None -> aws env c act w = act (record_call c w).
Proof. intros H. unfold aws. now rewrite H. Qed.

Lemma aws_raises {A} (c : Call) (act : M A) w e :
  fault env (tick w) = Some e -> aws env c act w = (inl e, record_call c w).
Proof. intros H. unfold aws. now rewrite H. Qed.

Lemma tick_record_call c w : tick (record_call c w) = S (tick w).
Proof. reflexivity. Qed.

Lemma get_item_returns key w :
  fault env (tick w) = None ->
  get_item env key w = (inr (table w !! key), record_call (GetItem key) w).
Proof. intros H. unfold get_item. now rewrite aws_returns. Qed.

Lemma fold_set_attrs metadata item :
  fold_left apply_action (map (fun kv => SetAttr (fst kv) (snd kv)) metadata) (inr item)
  = inr (set_all metadata item).
Proof.
  revert item. induction metadata as [|kv metadata IH]; intros item; [reflexivity|].
  simpl. apply IH.
Qed.

Lemma update_document_status_returns key status metadata w :
  fault env (tick w) = None ->
  Dynamodb.update_document_status env key status metadata w
  = (inr (with_status env key status metadata w),
     set_table (<[key := with_status env key status metadata w]> (table w))
       (record_call (UpdateItem key (status_actions env status w metadata)) w)).
Proof.
  intros H. unfold Dynamodb.update_document_status, bind, now, update_item.
  rewrite aws_returns by exact H. simpl.
  now rewrite fold_set_attrs.
Qed.

Lemma update_document_status_raises key status metadata w e :
  fault env (tick w) = Some e ->
  Dynamodb.update_document_status env key status metadata w
  = (inl e, record_call (UpdateItem key (status_actions env status w metadata)) w).
Proof.
  intros H. unfold Dynamodb.update_document_status, bind, now, update_item.
  now rewrite (aws_raises _ _ _ e).
Qed.

End Primitives.

(** ** Slicing *)

Lemma slice_to_prefix n s : exists rest, s = (slice_to n s ++ rest)%string.
Proof.
  revert n. induction s as [|c s IH]; intros n; simpl.
  - now exists "".
  - destruct (n <=? 0).
    + now exists (String c s).
    + destruct (IH (n - 1)) as [rest Hrest]. exists rest.
      change (String c s = String c (slice_to (n - 1) s ++ rest)). now f_equal.
Qed.

Lemma slice_to_len n s : 0 <= n -> len (slice_to n s) = Z.min n (len s).
Proof.
  unfold len. revert n. induction s as [|c s IH]; intros n Hn; simpl.
  - lia.
  - destruct (Z.leb_spec n 0).
    + simpl. lia.
    + simpl String.length. rewrite !Nat2Z.inj_succ, IH by lia. lia.
Qed.

(** ** Storing an OCR result *)

(** C6. When the table accepts the update, [store_extracted_text] leaves the
    record with status EXTRACTED, [extractedText] the first 50000 characters
    of the text (a prefix of it, of length min(50000, len text)), [wordCount]
    the given word count, [ocrConfidence] the string form of the confidence
    and [textLength] the length of the whole text. *)
Theorem store_extracted_text_persists
    env document_id text word_count confidence w :
  fault env (tick w) = None ->
  exists item w' rest,
    Dynamodb.store_extracted_text env document_id text word_count confidence w
    = (inr item, w')
    /\ table w' !! document_id = Some item
    /\ item !! "status" = Some (VStr "EXTRACTED")
    /\ item !! "extractedText" = Some (VStr (slice_to 50000 text))
    /\ text = (slice_to 50000 text ++ rest)%string
    /\ len (slice_to 50000 text) = Z.min 50000 (len text)
    /\ item !! "wordCount" = Some (VInt word_count)
    /\ item !! "ocrConfidence" = Some (VStr (str_float env confidence))
    /\ item !! "textLength" = Some (VInt (len text)).
Proof.
  intros Hok. destruct (slice_to_prefix 50000 text) as [rest Hrest].
  unfold Dynamodb.store_extracted_text.
  rewrite update_document_status_returns by exact Hok.
  eexists _, _, rest. split; [reflexivity|].
  split; [apply lookup_insert_eq|].
  unfold with_status, set_all; simpl.
  repeat split; try (by simplify_map_eq); try exact Hrest.
  apply slice_to_len; lia.
Qed.

Lemma store_extracted_text_persists_witness :
  exists item w' rest,
    Dynamodb.store_extracted_text Scenario.env0 "doc-1" "Hello world" 2 98.5%float
      Scenario.empty_world = (inr item, w')
    /\ table w' !! "doc-1" = Some item
    /\ item !! "status" = Some (VStr "EXTRACTED")
    /\ item !! "extractedText" = Some (VStr (slice_to 50000 "Hello world"))
    /\ "Hello world" = (slice_to 50000 "Hello world" ++ rest)%string
    /\ len (slice_to 50000 "Hello world") = Z.min 50000 (len "Hello world")
    /\ item !! "wordCount" = Some (VInt 2)
    /\ item !! "ocrConfidence" = Some (VStr (str_float Scenario.env0 98.5%float))
    /\ item !! "textLength" = Some (VInt (len "Hello world")).
Proof.
  apply (store_extracted_text_persists Scenario.env0 "doc-1" "Hello world" 2 98.5%float
           Scenario.empty_world).
  reflexivity.
Defined.

(** The cap bites: of 50001 characters, the last one is not stored. *)
Example slice_to_drops_the_tail :
  len (slice_to 50000 (zeros (Z.to_nat 50001))) = 50000.
Proof. vm_compute. reflexivity. Qed.

(** ** Question validation *)

(** C9. A question that is empty once trimmed, or longer than 1000 characters
    once trimmed, is answered with a 400; the world is left as it was, so no
    adapter was invoked and no record was touched. *)
Theorem question_is_validated env event fields question w :
  json_loads (body event) w = (inr (VDict fields), w) ->
  dict_get_default fields "question" (VStr "") = VStr question ->
  strip question = "" \/ 1000 < len (strip question) ->
  exists resp,
    Query.lambda_handler env event w = (inr resp, w) /\ statusCode resp = 400.
Proof.
  intros Hbody Hquestion Hbad.
  unfold Query.lambda_handler, try_except.
  destruct (nonempty (params_of (pathParameters event) !! "documentId")); simpl.
  2: { eexists; split; reflexivity. }
  unfold try_except_if, try_except, bind at 1 2.
  rewrite Hbody. simpl.
  unfold bind at 1 2. simpl. rewrite Hquestion. simpl.
  destruct (String.eqb_spec (strip question) "") as [Hempty|Hfull]; simpl.
  { eexists; split; reflexivity. }
  destruct Hbad as [Hempty|Hlong]; [contradiction|].
  apply Z.ltb_lt in Hlong. rewrite Hlong. simpl.
  eexists; split; reflexivity.
Qed.

Lemma question_is_validated_witness :
  exists resp,
    Query.lambda_handler Scenario.env0
      (Scenario.on_document "doc-1"
         (Scenario.with_body [("question", VStr "   ")] Scenario.no_event))
      Scenario.empty_world
    = (inr resp, Scenario.empty_world)
    /\ statusCode resp = 400.
Proof.
  apply (question_is_validated Scenario.env0 _ (list_to_map [("question", VStr "   ")])
           "   " Scenario.empty_world).
  - reflexivity.
  - reflexivity.
  - left. reflexivity.
Defined.

(** ** Deleting a document *)

Lemma delete_document_runs env document_id w :
  exists w',
    Dynamodb.delete_document env document_id w
    = (inr (bool_decide (fault env (tick w) = None)), w')
    /\ trace w' = DeleteItem document_id :: trace w
    /\ stdout w' = stdout w
    /\ (fault env (tick w) = None -> table w' = delete document_id (table w)).
Proof.
  unfold Dynamodb.delete_document, try_except, bind, delete_item, aws.
  destruct (fault env (tick w)) as [e|]; simpl; eexists; repeat split; congruence.
Qed.

(** C10. An authorized delete of an existing document answers 200 whatever
    the blob deletion did: when [delete_object] raises, the exception is
    printed as a warning and goes no further; [delete_document] is the last
    call issued in every case, and the record is gone as soon as the table
    accepts that call. *)
Theorem delete_swallows_blob_failure env event document_id document w :
  document_id <> "" ->
  table w !! document_id = Some document ->
  truthy (VDict document) = true ->
  fault env (tick w) = None ->
  Documents.access_denied document (Documents.get_user_id event) = false ->
  exists w' earlier,
    Documents.delete_document_handler env event (Some document_id) w
    = (inr (Documents.response 200 (dict
              [("message", VStr "Document deleted successfully");
               ("documentId", VStr document_id)])), w')
    /\ trace w' = DeleteItem document_id :: earlier
    /\ (fault env (length earlier) = None ->
        table w' = delete document_id (table w))
    /\ (forall key e,
          document !! "s3Key" = Some (VStr key) -> key <> "" ->
          fault env (S (tick w)) = Some e ->
          earlier = DeleteObject key :: GetItem document_id :: trace w
          /\ stdout w' = ("Warning: Could not delete S3 object: " ++ exn_str e)%string
                         :: stdout w).
Proof.
  intros Hid Hdoc Hne Hread Hauth.
  unfold Documents.delete_document_handler.
  assert (nonempty (Some document_id) = true) as ->.
  { simpl. now destruct (String.eqb_spec document_id ""). }
  simpl. unfold bind at 1. unfold Dynamodb.get_document.
  rewrite get_item_returns by exact Hread. simpl. rewrite Hdoc. simpl.
  simpl in Hne. rewrite Hne. simpl.
  rewrite Hauth.
  set (w1 := record_call (GetItem document_id) w).
  assert (exists w2,
    (if truthy (dict_get document "s3Key")
     then try_except (delete_object env (dict_get document "s3Key"))
            (fun e => print ("Warning: Could not delete S3 object: " ++ exn_str e))
     else ret tt) w1 = (inr tt, w2)
    /\ table w2 = table w
    /\ (forall key e,
          document !! "s3Key" = Some (VStr key) -> key <> "" ->
          fault env (S (tick w)) = Some e ->
          trace w2 = DeleteObject key :: GetItem document_id :: trace w
          /\ stdout w2 = ("Warning: Could not delete S3 object: " ++ exn_str e)%string
                         :: stdout w)) as (w2 & Hblob & Htable & Hwarn).
  { unfold dict_get. destruct (document !! "s3Key") as [v|] eqn:Hkey; simpl.
    2: { eexists; split; [reflexivity | split; [reflexivity | discriminate]]. }
    destruct (truthy v) eqn:Htruthy.
    2: { eexists; split; [reflexivity | split; [reflexivity|]].
         intros key e [= ->] Hk. simpl in Htruthy.
         destruct (String.eqb_spec key ""); [contradiction | discriminate]. }
    unfold try_except, delete_object.
    destruct v;
      try (eexists; split; [reflexivity | split; [reflexivity | discriminate]]).
    unfold aws. change (tick w1) with (S (tick w)).
    destruct (fault env (S (tick w))) as [e|] eqn:Hfault; simpl.
    - eexists; split; [reflexivity | split; [reflexivity|]].
      intros key e' [= ->] _ [= ->]. split; reflexivity.
    - eexists; split; [reflexivity | split; [reflexivity | discriminate]]. }
  unfold bind at 1. rewrite Hblob.
  destruct (delete_document_runs env document_id w2) as (w3 & Hrun & Htrace & Hout & Hgone).
  unfold bind. rewrite Hrun. simpl.
  exists w3, (trace w2). repeat split.
  - exact Htrace.
  - intros Hok. rewrite Hgone by exact Hok. now rewrite Htable.
  - destruct (Hwarn key e) as [Ht _]; assumption.
  - destruct (Hwarn key e) as [_ Hs]; try assumption. now rewrite Hout.
Qed.

Lemma delete_swallows_blob_failure_witness :
  exists w' earlier,
    Documents.delete_document_handler (Scenario.failing_at 1 Scenario.env0)
      (Scenario.as_user "alice" Scenario.no_event) (Some "doc-1") Scenario.alice_world
    = (inr (Documents.response 200 (dict
              [("message", VStr "Document deleted successfully");
               ("documentId", VStr "doc-1")])), w')
    /\ trace w' = DeleteItem "doc-1" :: earlier
    /\ (fault (Scenario.failing_at 1 Scenario.env0) (length earlier) = None ->
        table w' = delete "doc-1" (table Scenario.alice_world))
    /\ (forall key e,
          Scenario.alice_document !! "s3Key" = Some (VStr key) -> key <> "" ->
          fault (Scenario.failing_at 1 Scenario.env0) (S (tick Scenario.alice_world))
          = Some e ->
          earlier = DeleteObject key :: GetItem "doc-1" :: trace Scenario.alice_world
          /\ stdout w' = ("Warning: Could not delete S3 object: " ++ exn_str e)%string
                         :: stdout Scenario.alice_world).
Proof.
  apply (delete_swallows_blob_failure (Scenario.failing_at 1 Scenario.env0)
           (Scenario.as_user "alice" Scenario.no_event) "doc-1"
           Scenario.alice_document Scenario.alice_world).
  - discriminate.
  - reflexivity.
  - reflexivity.
  - reflexivity.
  - reflexivity.
Defined.

(** With the blob store refusing the delete, the record of alice is removed
    all the same and the caller sees a 200. *)
Example delete_with_blob_store_down :
  let out := Documents.delete_document_handler (Scenario.failing_at 1 Scenario.env0)
               (Scenario.as_user "alice" Scenario.no_event) (Some "doc-1")
               Scenario.alice_world in
  status_of (fst out) = Some 200
  /\ table (snd out) !! "doc-1" = None
  /\ trace (snd out)
     = [DeleteItem "doc-1";
        DeleteObject "documents/alice/2024/01/15/doc-1/report.pdf";
        GetItem "doc-1"]
  /\ stdout (snd out)
     = ["Warning: Could not delete S3 object: An error occurred (AccessDenied)"].
Proof. vm_compute. repeat split. Qed.

(** ** Synchronous extraction *)

Lemma set_all_lookup_ne metadata item k :
  (forall kv, kv ∈ metadata -> fst kv <> k) ->
  set_all metadata item !! k = item !! k.
Proof.
  revert item. induction metadata as [|kv metadata IH]; intros item Hkeys; [reflexivity|].
  simpl. rewrite IH.
  - apply lookup_insert_ne. apply Hkeys. now left.
  - intros kv' Hin. apply Hkeys. now right.
Qed.

Lemma with_status_status env key status metadata w :
  (forall kv, kv ∈ metadata -> fst kv <> "status") ->
  with_status env key status metadata w !! "status" = Some (VStr status).
Proof.
  intros Hkeys. unfold with_status. rewrite set_all_lookup_ne by exact Hkeys.
  rewrite lookup_insert_ne by discriminate. apply lookup_insert_eq.
Qed.

Section ExtractionRequest.
Context (env : Env) (event : Event) (document_id : string) (document : Item) (w : World).
Hypothesis Hpath : params_of (pathParameters event) !! "documentId" = Some document_id.
Hypothesis Hid : document_id <> "".
Hypothesis Hdoc : table w !! document_id = Some document.
Hypothesis Hfound : truthy (VDict document) = true.
Hypothesis Hread : fault env (tick w) = None.

Ltac read_document Hhit :=
  unfold Extract.handle_api_request; rewrite Hpath;
  replace (nonempty (Some document_id)) with true
    by (simpl; now destruct (String.eqb_spec document_id ""));
  cbn [negb]; unfold bind at 1; unfold Dynamodb.get_document;
  change (default "" (Some document_id)) with document_id; cbv beta;
  rewrite get_item_returns by exact Hread; rewrite Hdoc;
  change (default ∅ (Some document)) with document;
  rewrite Hfound, Hhit; cbn [negb].

Lemma extraction_request_cached confidence :
  eq_str (dict_get document "status") "EXTRACTED"
  && truthy (dict_get document "extractedText") = true ->
  py_float env (dict_get_default document "ocrConfidence" (VInt 0)) = inr confidence ->
  Extract.handle_api_request env event w
  = (inr (Extract.response 200 (dict
            [("documentId", VStr document_id);
             ("text", dict_get document "extractedText");
             ("wordCount", dict_get_default document "wordCount" (VInt 0));
             ("confidence", VFloat confidence);
             ("cached", VBool true)])),
     record_call (GetItem document_id) w).
Proof.
  intros Hhit Hconf. read_document Hhit.
  apply andb_true_iff in Hhit as [_ Htext].
  unfold dict_get in *. destruct (document !! "extractedText") as [text|]; [|discriminate].
  unfold bind, ret. simpl. now rewrite Hconf.
Qed.

Lemma extraction_request_fresh key :
  eq_str (dict_get document "status") "EXTRACTED"
  && truthy (dict_get document "extractedText") = false ->
  document !! "s3Key" = Some (VStr key) ->
  fault env (S (tick w)) = None ->
  fault env (S (S (S (tick w)))) = None ->
  let w2 := snd (Dynamodb.update_document_status env document_id "PROCESSING" []
                   (record_call (GetItem document_id) w)) in
  let w3 := record_call (DetectDocumentText BUCKET_NAME key) w2 in
  Extract.handle_api_request env event w
  = match extract_text_from_s3 env BUCKET_NAME key with
    | inr result =>
        (inr (Extract.response 200 (dict
                [("documentId", VStr document_id);
                 ("text", VStr (ocr_text result));
                 ("wordCount", VInt (ocr_word_count result));
                 ("confidence", VFloat (ocr_confidence result));
                 ("cached", VBool false)])),
         snd (Dynamodb.store_extracted_text env document_id (ocr_text result)
                (ocr_word_count result) (ocr_confidence result) w3))
    | inl e =>
        (inr (Extract.response 500 (dict
                [("error", VStr "Text extraction failed");
                 ("message", VStr (exn_str e))])),
         snd (Dynamodb.update_document_status env document_id "FAILED"
                [("errorMessage", VStr (exn_str e))] w3))
    end.
Proof.
  intros Hhit Hkey Hupd Hstore. read_document Hhit.
  unfold bind at 1.
  rewrite update_document_status_returns by exact Hupd.
  cbv zeta. unfold try_except. rewrite Hkey.
  unfold bind at 1 2. cbv beta iota. unfold ret at 1. unfold adapter. cbn [snd].
  destruct (extract_text_from_s3 env BUCKET_NAME key) as [e|result].
  - unfold bind. rewrite update_document_status_returns by exact Hstore. reflexivity.
  - unfold Dynamodb.store_extracted_text, bind.
    rewrite update_document_status_returns by exact Hstore. reflexivity.
Qed.

End ExtractionRequest.

(** C7. An extraction request for a stored document: when its status is
    EXTRACTED and its text is non-empty, the stored text, word count and parsed
    confidence come back with [cached: true] after the one read of the record
    (no update, no OCR call).  Otherwise the record is first moved to
    PROCESSING; then, if OCR succeeds, its result is stored, the record is
    EXTRACTED and the response carries [cached: false]; if OCR raises, the
    record is FAILED with the message of the exception attached and the
    response is a 500. *)
Theorem extraction_request_transitions env event document_id document w :
  params_of (pathParameters event) !! "documentId" = Some document_id ->
  document_id <> "" ->
  table w !! document_id = Some document ->
  truthy (VDict document) = true ->
  fault env (tick w) = None ->
  let w1 := record_call (GetItem document_id) w in
  if eq_str (dict_get document "status") "EXTRACTED"
     && truthy (dict_get document "extractedText")
  then
    forall confidence,
      py_float env (dict_get_default document "ocrConfidence" (VInt 0)) = inr confidence ->
      Extract.handle_api_request env event w
      = (inr (Extract.response 200 (dict
                [("documentId", VStr document_id);
                 ("text", dict_get document "extractedText");
                 ("wordCount", dict_get_default document "wordCount" (VInt 0));
                 ("confidence", VFloat confidence);
                 ("cached", VBool true)])), w1)
  else
    forall key,
      document !! "s3Key" = Some (VStr key) ->
      fault env (S (tick w)) = None ->
      fault env (S (S (S (tick w)))) = None ->
      exists processing w2,
        Dynamodb.update_document_status env document_id "PROCESSING" [] w1
        = (inr processing, w2)
        /\ table w2 !! document_id = Some processing
        /\ processing !! "status" = Some (VStr "PROCESSING")
        /\ let w3 := record_call (DetectDocumentText BUCKET_NAME key) w2 in
           match extract_text_from_s3 env BUCKET_NAME key with
           | inr result =>
               exists extracted w4,
                 Dynamodb.store_extracted_text env document_id (ocr_text result)
                   (ocr_word_count result) (ocr_confidence result) w3
                 = (inr extracted, w4)
                 /\ table w4 !! document_id = Some extracted
                 /\ extracted !! "status" = Some (VStr "EXTRACTED")
                 /\ Extract.handle_api_request env event w
                    = (inr (Extract.response 200 (dict
                              [("documentId", VStr document_id);
                               ("text", VStr (ocr_text result));
                               ("wordCount", VInt (ocr_word_count result));
                               ("confidence", VFloat (ocr_confidence result));
                               ("cached", VBool false)])), w4)
           | inl e =>
               exists failed w4,
                 Dynamodb.update_document_status env document_id "FAILED"
                   [("errorMessage", VStr (exn_str e))] w3
                 = (inr failed, w4)
                 /\ table w4 !! document_id = Some failed
                 /\ failed !! "status" = Some (VStr "FAILED")
                 /\ failed !! "errorMessage" = Some (VStr (exn_str e))
                 /\ Extract.handle_api_request env event w
                    = (inr (Extract.response 500 (dict
                              [("error", VStr "Text extraction failed");
                               ("message", VStr (exn_str e))])), w4)
           end.
Proof.
  intros Hpath Hid Hdoc Hfound Hread w1.
  destruct (eq_str (dict_get document "status") "EXTRACTED"
            && truthy (dict_get document "extractedText")) eqn:Hhit.
  - intros confidence Hconf. now apply extraction_request_cached.
  - intros key Hkey Hupd Hstore.
    rewrite (extraction_request_fresh env event document_id document w
               Hpath Hid Hdoc Hfound Hread key Hhit Hkey Hupd Hstore).
    fold w1.
    rewrite update_document_status_returns by exact Hupd.
    eexists _, _. split; [reflexivity|].
    split; [apply lookup_insert_eq|].
    split; [apply with_status_status; intros kv Hin; inversion Hin|].
    cbv zeta. cbn [snd].
    destruct (extract_text_from_s3 env BUCKET_NAME key) as [e|result].
    + rewrite update_document_status_returns by exact Hstore.
      eexists _, _. split; [reflexivity|].
      split; [apply lookup_insert_eq|].
      split.
      { apply with_status_status. intros kv Hin.
        apply list_elem_of_singleton in Hin as ->. discriminate. }
      split; [unfold with_status, set_all; simpl; apply lookup_insert_eq|].
      reflexivity.
    + unfold Dynamodb.store_extracted_text.
      rewrite update_document_status_returns by exact Hstore.
      eexists _, _. split; [reflexivity|].
      split; [apply lookup_insert_eq|].
      split; [|reflexivity].
      apply with_status_status. intros kv Hin.
      repeat (apply elem_of_cons in Hin as [->|Hin]; [discriminate|]).
      inversion Hin.
Qed.

Lemma extraction_request_transitions_witness :
  Extract.handle_api_request Scenario.env0
    (Scenario.on_document "doc-1" Scenario.no_event) Scenario.alice_world
  = (inr (Extract.response 200 (dict
            [("documentId", VStr "doc-1");
             ("text", VStr "Hello world");
             ("wordCount", VInt 2);
             ("confidence", VFloat 98.5%float);
             ("cached", VBool true)])),
     record_call (GetItem "doc-1") Scenario.alice_world).
Proof.
  exact (extraction_request_transitions Scenario.env0
           (Scenario.on_document "doc-1" Scenario.no_event) "doc-1"
           Scenario.alice_document Scenario.alice_world
           eq_refl ltac:(discriminate) eq_refl eq_refl eq_refl
           98.5%float eq_refl).
Defined.

(** A document that was only uploaded goes UPLOADED, PROCESSING, EXTRACTED;
    with Textract failing it ends FAILED and keeps the message. *)
Example extraction_of_an_uploaded_document :
  let uploaded := delete "extractedText" (<["status" := VStr "UPLOADED"]> Scenario.alice_document) in
  let w := MkWorld {[ "doc-1" := uploaded ]} ∅ [] [] in
  let request := Scenario.on_document "doc-1" Scenario.no_event in
  let good := Extract.handle_api_request Scenario.env0 request w in
  let bad := Extract.handle_api_request
               (Scenario.with_ocr (fun _ _ => inl Scenario.AccessDenied) Scenario.env0)
               request w in
  (status_of (fst good), body_field (fst good) "cached") = (Some 200, Some (VBool false))
  /\ (table (snd good) !! "doc-1" ≫= lookup "status") = Some (VStr "EXTRACTED")
  /\ status_of (fst bad) = Some 500
  /\ (table (snd bad) !! "doc-1" ≫= lookup "status") = Some (VStr "FAILED")
  /\ (table (snd bad) !! "doc-1" ≫= lookup "errorMessage")
     = Some (VStr "An error occurred (AccessDenied)").
Proof. vm_compute. repeat split. Qed.

(** ** Summaries *)

Section SummarizeRequest.
Context (env : Env) (event : Event) (document_id : string) (max_length : Z).
Hypothesis Hpath : params_of (pathParameters event) !! "documentId" = Some document_id.
Hypothesis Hid : document_id <> "".
Hypothesis Hentities :
  Summarize.flag (params_of (queryStringParameters event)) "entities" = false.
Hypothesis Hquestions :
  Summarize.flag (params_of (queryStringParameters event)) "questions" = false.
Hypothesis Hlength :
  py_int env (default (VInt 500)
                (VStr <$> params_of (queryStringParameters event) !! "maxLength"))
  = inr max_length.

Lemma truthy_lookup (document : Item) k :
  truthy (dict_get document k) = true -> truthy (VDict document) = true.
Proof.
  unfold dict_get. simpl. intros Hk.
  apply negb_true_iff, bool_decide_eq_false_2. intros ->.
  now rewrite lookup_empty in Hk.
Qed.

(** The handler up to its decision on the stored summary. *)
Lemma summarize_reads document w :
  fault env (tick w) = None ->
  table w !! document_id = Some document ->
  truthy (dict_get document "extractedText") = true ->
  Summarize.lambda_handler env event w
  = let w1 := record_call (GetItem document_id) w in
    if truthy (dict_get document "summary") then
      (inr (Summarize.response 200 (dict
              [("documentId", VStr document_id);
               ("summary", dict_get document "summary");
               ("cached", VBool true)])), w1)
    else
      try_except
        (do summary <- adapter (InvokeSummarize (dict_get document "extractedText") max_length)
                         (summarize_document env (dict_get document "extractedText") max_length);
         do _ <- Dynamodb.store_summary env document_id summary;
         ret (Summarize.response 200 (dict
           [("documentId", VStr document_id);
            ("summary", VStr summary);
            ("wordCount", dict_get_default document "wordCount" (VInt 0));
            ("cached", VBool false)])))
        (fun e =>
           do _ <- print ("Error: " ++ exn_str e);
           ret (Summarize.response 500 (dict
             [("error", VStr "Summarization failed"); ("message", VStr (exn_str e))])))
        w1.
Proof.
  intros Hread Hdoc Htext.
  unfold Summarize.lambda_handler. rewrite Hpath.
  replace (nonempty (Some document_id)) with true
    by (simpl; now destruct (String.eqb_spec document_id "")).
  cbn [negb]. rewrite Hentities, Hquestions.
  change (default "" (Some document_id)) with document_id.
  unfold try_except at 1. unfold bind at 1. rewrite Hlength.
  unfold bind at 1. unfold Dynamodb.get_document.
  rewrite get_item_returns by exact Hread. rewrite Hdoc.
  change (default ∅ (Some document)) with document.
  rewrite (truthy_lookup _ _ Htext), Htext. cbn [negb andb].
  cbv zeta. destruct (truthy (dict_get document "summary")); cbn [andb].
  - reflexivity.
  - unfold try_except, bind, adapter, ret.
    destruct (summarize_document env (dict_get document "extractedText") max_length);
      [reflexivity|].
    destruct (Dynamodb.store_summary env document_id s _) as [[e|item] w']; reflexivity.
Qed.

Lemma summarize_200_reads w0 r1 w :
  Summarize.lambda_handler env event w0 = (inr r1, w) ->
  statusCode r1 = 200 ->
  exists document,
    fault env (tick w0) = None
    /\ table w0 !! document_id = Some document
    /\ truthy (dict_get document "extractedText") = true.
Proof.
  intros Hrun Hstatus.
  unfold Summarize.lambda_handler in Hrun. rewrite Hpath in Hrun.
  replace (nonempty (Some document_id)) with true in Hrun
    by (simpl; now destruct (String.eqb_spec document_id "")).
  cbn [negb] in Hrun.
  change (default "" (Some document_id)) with document_id in Hrun.
  unfold try_except at 1 in Hrun. unfold bind at 1 in Hrun. rewrite Hlength in Hrun.
  unfold bind at 1 in Hrun. unfold Dynamodb.get_document, get_item, aws in Hrun.
  destruct (fault env (tick w0)) as [e|] eqn:Hfault.
  { injection Hrun as <- _. discriminate Hstatus. }
  destruct (table (record_call (GetItem document_id) w0) !! document_id)
    as [document|] eqn:Hdoc.
  2: { injection Hrun as <- _. discriminate Hstatus. }
  change (default ∅ (Some document)) with document in Hrun.
  destruct (truthy (VDict document)).
  2: { injection Hrun as <- _. discriminate Hstatus. }
  cbn [negb] in Hrun.
  destruct (truthy (dict_get document "extractedText")) eqn:Htext.
  2: { injection Hrun as <- _. discriminate Hstatus. }
  now exists document.
Qed.

End SummarizeRequest.

(** C8. When the record has a non-empty summary (and the extracted text the
    handler requires), a summarize request with neither flag set returns that
    summary with [cached: true]; the only call issued is the read of the
    record, so no LLM adapter runs and the table is untouched.  Consequently a
    successful summarize call that returned a non-empty summary is followed,
    for the same request, by a cached answer with the same summary. *)
Theorem summarize_twice_is_cached env event document_id max_length :
  params_of (pathParameters event) !! "documentId" = Some document_id ->
  document_id <> "" ->
  Summarize.flag (params_of (queryStringParameters event)) "entities" = false ->
  Summarize.flag (params_of (queryStringParameters event)) "questions" = false ->
  py_int env (default (VInt 500)
                (VStr <$> params_of (queryStringParameters event) !! "maxLength"))
  = inr max_length ->
  (forall document w,
     fault env (tick w) = None ->
     table w !! document_id = Some document ->
     truthy (dict_get document "extractedText") = true ->
     truthy (dict_get document "summary") = true ->
     Summarize.lambda_handler env event w
     = (inr (Summarize.response 200 (dict
               [("documentId", VStr document_id);
                ("summary", dict_get document "summary");
                ("cached", VBool true)])),
        record_call (GetItem document_id) w))
  /\ (forall w0 first w summary,
        Summarize.lambda_handler env event w0 = (inr first, w) ->
        statusCode first = 200 ->
        body_field (inr first) "summary" = Some summary ->
        truthy summary = true ->
        fault env (tick w) = None ->
        Summarize.lambda_handler env event w
        = (inr (Summarize.response 200 (dict
                  [("documentId", VStr document_id);
                   ("summary", summary);
                   ("cached", VBool true)])),
           record_call (GetItem document_id) w)).
Proof.
  intros Hpath Hid Hentities Hquestions Hlength.
  assert (forall document w,
     fault env (tick w) = None ->
     table w !! document_id = Some document ->
     truthy (dict_get document "extractedText") = true ->
     truthy (dict_get document "summary") = true ->
     Summarize.lambda_handler env event w
     = (inr (Summarize.response 200 (dict
               [("documentId", VStr document_id);
                ("summary", dict_get document "summary");
                ("cached", VBool true)])),
        record_call (GetItem document_id) w)) as Hcached.
  { intros document w Hread Hdoc Htext Hsummary.
    rewrite (summarize_reads env event document_id max_length
               Hpath Hid Hentities Hquestions Hlength document w Hread Hdoc Htext).
    cbv zeta. now rewrite Hsummary. }
  split; [exact Hcached|].
  intros w0 first w summary Hrun Hstatus Hfield Hsummary Hread.
  destruct (summarize_200_reads env event document_id max_length
              Hpath Hid Hlength w0 first w Hrun Hstatus)
    as (document & Hread0 & Hdoc0 & Htext0).
  rewrite (summarize_reads env event document_id max_length
             Hpath Hid Hentities Hquestions Hlength document w0 Hread0 Hdoc0 Htext0)
    in Hrun.
  cbv zeta in Hrun.
  destruct (truthy (dict_get document "summary")) eqn:Hstored.
  - injection Hrun as <- <-. simpl in Hfield.
    rewrite lookup_insert_ne, lookup_insert_eq in Hfield by discriminate.
    injection Hfield as <-.
    now apply Hcached.
  - unfold try_except, bind at 1, adapter in Hrun.
    destruct (summarize_document env (dict_get document "extractedText") max_length)
      as [e|generated].
    { injection Hrun as <- _. discriminate Hstatus. }
    unfold bind at 1 in Hrun. unfold Dynamodb.store_summary in Hrun.
    set (w2 := record_call (InvokeSummarize (dict_get document "extractedText") max_length)
                 (record_call (GetItem document_id) w0)) in *.
    destruct (fault env (tick w2)) as [e|] eqn:Hfault.
    { rewrite (update_document_status_raises env _ _ _ _ e Hfault) in Hrun.
      injection Hrun as <- _. discriminate Hstatus. }
    rewrite (update_document_status_returns env _ _ _ _ Hfault) in Hrun.
    injection Hrun as <- <-. simpl in Hfield.
    rewrite lookup_insert_ne, lookup_insert_eq in Hfield by discriminate.
    injection Hfield as <-.
    set (stored := with_status env document_id "COMPLETED" [("summary", VStr generated)] w2).
    assert (dict_get stored "summary" = VStr generated) as Hnew.
    { unfold dict_get, stored, with_status, set_all. simpl. now rewrite lookup_insert_eq. }
    assert (dict_get stored "extractedText" = dict_get document "extractedText") as Hsame.
    { unfold dict_get, stored, with_status, set_all, upserted. simpl.
      rewrite !lookup_insert_ne by discriminate.
      change (table w2) with (table w0). now rewrite Hdoc0. }
    rewrite <- Hnew. apply Hcached.
    + exact Hread.
    + apply lookup_insert_eq.
    + now rewrite Hsame.
    + now rewrite Hnew.
Qed.

Lemma summarize_twice_is_cached_witness :
  Summarize.lambda_handler Scenario.env0 Scenario.summarize_request
    Scenario.summarized_world
  = (inr (Summarize.response 200 (dict
            [("documentId", VStr "doc-1");
             ("summary", VStr "A greeting.");
             ("cached", VBool true)])),
     record_call (GetItem "doc-1") Scenario.summarized_world).
Proof.
  exact (proj1 (summarize_twice_is_cached Scenario.env0 Scenario.summarize_request
                  "doc-1" 50 eq_refl ltac:(discriminate) eq_refl eq_refl eq_refl)
           Scenario.summarized_document Scenario.summarized_world
           eq_refl eq_refl eq_refl eq_refl).
Defined.

(** The extracted document of alice, summarized twice: the first call asks the
    LLM and completes the record, the second returns the same summary from the
    record. *)
Example summarize_then_summarize :
  let first := Summarize.lambda_handler Scenario.env0 Scenario.summarize_request
                 Scenario.alice_world in
  let second := Summarize.lambda_handler Scenario.env0 Scenario.summarize_request
                  (snd first) in
  (body_field (fst first) "summary", body_field (fst first) "cached")
  = (Some (VStr "A greeting."), Some (VBool false))
  /\ (table (snd first) !! "doc-1" ≫= lookup "status") = Some (VStr "COMPLETED")
  /\ (body_field (fst second) "summary", body_field (fst second) "cached")
     = (Some (VStr "A greeting."), Some (VBool true))
  /\ trace (snd second) = GetItem "doc-1" :: trace (snd first)
  /\ (table (snd second) !! "doc-1" ≫= lookup "summary") = Some (VStr "A greeting.").
Proof. vm_compute. repeat split. Qed.

(** ** Finalizing an upload *)

Section Finalize.
Context (env : Env) (event : Event) (fields : Item) (key : string).
Hypothesis Hbody : body event = BodyJson (VDict fields).
Hypothesis Hgiven : truthy (dict_get fields "documentId") = true.
Hypothesis Hkey : dict_get fields "s3Key" = VStr key.
Hypothesis Hkey_ne : key <> "".
Hypothesis Hname : truthy (dict_get fields "filename") = true.

Lemma finalize_creates w :
  key ∈ bucket w ->
  fault env (tick w) = None ->
  fault env (S (S (tick w))) = None ->
  exists created,
    Upload.handle_upload_request env event w
    = (inr (Upload.response 201 (dict
              [("message", VStr "Document uploaded successfully");
               ("document", VDict created)])),
       set_table (<[uuid4 env (S (tick w)) := created]> (table w))
         (record_call (PutItem created)
            (record_call Uuid4 (record_call (HeadObject key) w))))
    /\ created !! "documentId" = Some (VStr (uuid4 env (S (tick w))))
    /\ created !! "userId" = Some (VStr (Upload.get_user_id event))
    /\ created !! "s3Key" = Some (VStr key)
    /\ created !! "status" = Some (VStr "UPLOADED").
Proof.
  intros Hblob Hhead Hput. eexists. split; [|repeat split].
  unfold Upload.handle_upload_request, try_except_if, try_except.
  unfold bind at 1. rewrite Hbody. simpl json_loads.
  unfold bind at 1. unfold ret at 1 2. cbv beta iota.
  unfold bind at 1. simpl as_dict. unfold ret at 1. cbv beta iota.
  rewrite Hgiven, Hname, Hkey.
  replace (truthy (VStr key)) with true
    by (simpl; now destruct (String.eqb_spec key "")).
  cbn [andb negb].
  unfold bind at 1 2. unfold head_object. rewrite aws_returns by exact Hhead.
  cbn [bucket record_call]. rewrite bool_decide_eq_true_2 by exact Hblob.
  unfold ret at 1. cbv beta iota. cbn [negb].
  unfold bind at 1. unfold Dynamodb.create_document.
  unfold bind at 1. unfold new_uuid at 1. cbv beta iota.
  unfold bind at 1. unfold now at 1. cbv beta iota.
  unfold bind at 1. unfold put_item.
  rewrite aws_returns by exact Hput.
  reflexivity.
  all: reflexivity.
Qed.

End Finalize.

(** The identifier an upload slot hands out is the uuid drawn at that time. *)
Lemma slot_identifier env event w resp w' issued :
  Upload.handle_get_presigned_url env event w = (inr resp, w') ->
  body_field (inr resp) "documentId" = Some issued ->
  issued = VStr (uuid4 env (tick w)).
Proof.
  unfold Upload.handle_get_presigned_url.
  destruct (nonempty _); cbn [negb].
  2: { intros [= <- _] Hfield. discriminate Hfield. }
  destruct (bool_decide _); cbn [negb].
  2: { intros [= <- _] Hfield. discriminate Hfield. }
  intros [= <- _] Hfield. cbn in Hfield.
  rewrite lookup_insert_ne, lookup_insert_eq in Hfield by discriminate.
  congruence.
Qed.

(** C4. A finalize request that passes validation and finds its blob creates
    a record under an identifier drawn from [uuid4] at that moment; the
    [documentId] of the request body has no part in it.  With [uuid4] never
    repeating itself, the new identifier differs from the one an earlier
    upload slot issued, and finalizing twice with the same request leaves two
    records under two identifiers. *)
Theorem finalize_ignores_document_id env event fields key w :
  (forall m n, uuid4 env m = uuid4 env n -> m = n) ->
  (forall n, fault env n = None) ->
  body event = BodyJson (VDict fields) ->
  truthy (dict_get fields "documentId") = true ->
  dict_get fields "s3Key" = VStr key ->
  key <> "" ->
  truthy (dict_get fields "filename") = true ->
  key ∈ bucket w ->
  exists first second w1 w2,
    Upload.handle_upload_request env event w
    = (inr (Upload.response 201 (dict
              [("message", VStr "Document uploaded successfully");
               ("document", VDict first)])), w1)
    /\ Upload.handle_upload_request env event w1
       = (inr (Upload.response 201 (dict
                 [("message", VStr "Document uploaded successfully");
                  ("document", VDict second)])), w2)
    /\ first !! "documentId" = Some (VStr (uuid4 env (S (tick w))))
    /\ second !! "documentId" = Some (VStr (uuid4 env (S (tick w1))))
    /\ table w1 = <[uuid4 env (S (tick w)) := first]> (table w)
    /\ uuid4 env (S (tick w)) <> uuid4 env (S (tick w1))
    /\ table w2 !! uuid4 env (S (tick w)) = Some first
    /\ table w2 !! uuid4 env (S (tick w1)) = Some second
    /\ (forall slot w0 resp w0',
          Upload.handle_get_presigned_url env slot w0 = (inr resp, w0') ->
          body_field (inr resp) "documentId" = Some (dict_get fields "documentId") ->
          (tick w0 <= tick w)%nat ->
          first !! "documentId" <> Some (dict_get fields "documentId")).
Proof.
  intros Hfresh Hreliable Hbody Hgiven Hkey Hkey_ne Hname Hblob.
  destruct (finalize_creates env event fields key Hbody Hgiven Hkey Hkey_ne Hname w
              Hblob (Hreliable _) (Hreliable _))
    as (first & Hfirst & Hid1 & _).
  set (w1 := set_table (<[uuid4 env (S (tick w)) := first]> (table w))
               (record_call (PutItem first)
                  (record_call Uuid4 (record_call (HeadObject key) w)))) in *.
  destruct (finalize_creates env event fields key Hbody Hgiven Hkey Hkey_ne Hname w1
              Hblob (Hreliable _) (Hreliable _))
    as (second & Hsecond & Hid2 & _).
  assert (uuid4 env (S (tick w)) <> uuid4 env (S (tick w1))) as Hdistinct.
  { intros Heq. apply Hfresh in Heq. unfold w1, tick in Heq. simpl in Heq. lia. }
  exists first, second, w1. eexists.
  split; [exact Hfirst|]. split; [exact Hsecond|].
  split; [exact Hid1|]. split; [exact Hid2|].
  split; [reflexivity|]. split; [exact Hdistinct|].
  split; [|split].
  - cbn [table set_table]. rewrite lookup_insert_ne by (intros Heq; now apply Hdistinct).
    apply lookup_insert_eq.
  - cbn [table set_table]. apply lookup_insert_eq.
  - intros slot w0 resp w0' Hslot Hissued Hearlier.
    rewrite (slot_identifier env slot w0 resp w0' _ Hslot Hissued), Hid1.
    intros [= Heq]. apply Hfresh in Heq. lia.
Qed.

Lemma env0_uuid4_fresh m n :
  uuid4 Scenario.env0 m = uuid4 Scenario.env0 n -> m = n.
Proof.
  cbn. intros Heq. apply (inj pretty).
  now apply (inj (String.append "uuid-")).
Qed.

Lemma finalize_ignores_document_id_witness :
  exists first second w1 w2,
    Upload.handle_upload_request Scenario.env0 Scenario.finalize_request
      Scenario.finalize_world
    = (inr (Upload.response 201 (dict
              [("message", VStr "Document uploaded successfully");
               ("document", VDict first)])), w1)
    /\ Upload.handle_upload_request Scenario.env0 Scenario.finalize_request w1
       = (inr (Upload.response 201 (dict
                 [("message", VStr "Document uploaded successfully");
                  ("document", VDict second)])), w2)
    /\ first !! "documentId" = Some (VStr "uuid-2")
    /\ second !! "documentId"
       = Some (VStr (uuid4 Scenario.env0 (S (tick w1))))
    /\ "uuid-2" <> uuid4 Scenario.env0 (S (tick w1))
    /\ table w2 !! "uuid-2" = Some first
    /\ table w2 !! uuid4 Scenario.env0 (S (tick w1)) = Some second.
Proof.
  destruct (finalize_ignores_document_id Scenario.env0 Scenario.finalize_request
              (list_to_map [("documentId", VStr "uuid-0");
                            ("s3Key", VStr Scenario.slot_key);
                            ("filename", VStr "report.pdf");
                            ("contentType", VStr "application/pdf");
                            ("fileSize", VInt 2048)])
              Scenario.slot_key Scenario.finalize_world
              env0_uuid4_fresh (fun _ => eq_refl) eq_refl eq_refl eq_refl
              ltac:(discriminate) eq_refl ltac:(set_solver))
    as (first & second & w1 & w2 & H1 & H2 & H3 & H4 & _ & H6 & H7 & H8 & _).
  exists first, second, w1, w2. repeat split; assumption.
Defined.

(** The walk of the spec: the slot issues uuid-0, the finalize request quotes
    it, and the record appears under uuid-2; nothing is stored under uuid-0,
    and a second finalize adds a record under uuid-5. *)
Example finalize_after_slot :
  let slot := Upload.handle_get_presigned_url Scenario.env0 Scenario.slot_request
                Scenario.empty_world in
  let once := Upload.handle_upload_request Scenario.env0 Scenario.finalize_request
                Scenario.finalize_world in
  let twice := Upload.handle_upload_request Scenario.env0 Scenario.finalize_request
                 (snd once) in
  (body_field (fst slot) "documentId", body_field (fst slot) "s3Key")
  = (Some (VStr "uuid-0"), Some (VStr Scenario.slot_key))
  /\ status_of (fst once) = Some 201
  /\ (table (snd once) !! "uuid-2" ≫= lookup "status") = Some (VStr "UPLOADED")
  /\ (table (snd once) !! "uuid-2" ≫= lookup "fileSize") = Some (VInt 2048)
  /\ (table (snd once) !! "uuid-0" ≫= lookup "status") = None
  /\ (table (snd twice) !! "uuid-2" ≫= lookup "status") = Some (VStr "UPLOADED")
  /\ (table (snd twice) !! "uuid-5" ≫= lookup "status") = Some (VStr "UPLOADED").
Proof. vm_compute. repeat split. Qed.

(** ** The document identifier of a storage event *)

Lemma split_segment sep a b :
  contains sep a = false ->
  split sep (a ++ String sep b) = a :: split sep b.
Proof.
  induction a as [|c a IH]; intros Hfree.
  - change (split sep (String sep b) = "" :: split sep b).
    cbn [split]. now rewrite Ascii.eqb_refl.
  - cbn in Hfree. apply orb_false_iff in Hfree as [Hc Ha].
    change (String c a ++ String sep b)%string with (String c (a ++ String sep b)).
    cbn [split]. rewrite Hc, IH by exact Ha. reflexivity.
Qed.

(** On a key of the slot layout, the segment [handle_s3_event] reads at
    position 3 is the month, whatever the document identifier is. *)
Lemma fourth_segment_is_the_month user_id yyyy mm dd document_id filename :
  contains "/" user_id = false ->
  contains "/" yyyy = false ->
  contains "/" mm = false ->
  let parts := split "/" (key_layout user_id yyyy mm dd document_id filename) in
  (4 <=? length parts)%nat = true /\ nth 3 parts "" = mm.
Proof.
  intros Huser Hyear Hmonth. unfold key_layout.
  change ("documents/" ++ ?rest)%string with ("documents" ++ String "/" rest)%string.
  rewrite split_segment by reflexivity.
  change (user_id ++ "/" ++ ?rest)%string with (user_id ++ String "/" rest)%string.
  rewrite split_segment by exact Huser.
  change (yyyy ++ "/" ++ ?rest)%string with (yyyy ++ String "/" rest)%string.
  rewrite split_segment by exact Hyear.
  change (mm ++ "/" ++ ?rest)%string with (mm ++ String "/" rest)%string.
  rewrite split_segment by exact Hmonth.
  split; reflexivity.
Qed.

(** C1, at the key the upload slot issued for report.pdf.  The storage event
    for documents/u1/2024/01/15/uuid-0/report.pdf moves a record named "01",
    the month, through PROCESSING to EXTRACTED; no record named after the
    documentId segment uuid-0 is touched, the record of the upload stays
    UPLOADED, and no warning is printed. *)
Theorem s3_event_updates_the_month_record :
  let out := Extract.handle_s3_event Scenario.env0
               (Scenario.s3_event [Scenario.slot_key]) Scenario.finalized_world in
  Scenario.slot_key = key_layout "u1" "2024" "01" "15" "uuid-0" "report.pdf"
  /\ status_of (fst out) = Some 200
  /\ (table Scenario.finalized_world !! "01") = None
  /\ (table (snd out) !! "01" ≫= lookup "status") = Some (VStr "EXTRACTED")
  /\ (table (snd out) !! "01" ≫= lookup "extractedText") = Some (VStr "Hello world")
  /\ (table (snd out) !! "uuid-0") = None
  /\ (table (snd out) !! "uuid-2" ≫= lookup "s3Key") = Some (VStr Scenario.slot_key)
  /\ (table (snd out) !! "uuid-2" ≫= lookup "status") = Some (VStr "UPLOADED")
  /\ stdout (snd out)
     = ["Successfully extracted 2 words from document 01";
        "Processing document: s3://documind-documents/documents/u1/2024/01/15/uuid-0/report.pdf"].
Proof. vm_compute. repeat split. Qed.

(** The length test lets through keys that are not of the layout: a/b/c/d is
    processed as document d.  Only keys of fewer than four segments are
    skipped, with the warning and without any call. *)
Example s3_event_on_other_keys :
  let four := Extract.handle_s3_event Scenario.env0 (Scenario.s3_event ["a/b/c/d"])
                Scenario.empty_world in
  let three := Extract.handle_s3_event Scenario.env0 (Scenario.s3_event ["a/b/c"])
                 Scenario.empty_world in
  (table (snd four) !! "d" ≫= lookup "status") = Some (VStr "EXTRACTED")
  /\ trace (snd three) = []
  /\ stdout (snd three)
     = ["Could not extract document ID from key: a/b/c";
        "Processing document: s3://documind-documents/a/b/c"].
Proof. vm_compute. repeat split. Qed.

(** Fewer than four segments: the record is skipped, a warning is printed,
    nothing is called and the table is as before. *)
Lemma short_key_is_skipped env record w :
  (length (split "/" (unquote_plus env (s3_object_key record))) < 4)%nat ->
  Extract.process_record env record w
  = (inr tt,
     MkWorld (table w) (bucket w) (trace w)
       (("Could not extract document ID from key: "
         ++ unquote_plus env (s3_object_key record))%string
        :: ("Processing document: s3://" ++ s3_bucket_name record ++ "/"
            ++ unquote_plus env (s3_object_key record))%string
        :: stdout w)).
Proof.
  intros Hshort. unfold Extract.process_record, bind, print.
  cbn [fst snd table bucket trace stdout].
  destruct (Nat.leb_spec 4 (length (split "/" (unquote_plus env (s3_object_key record)))));
    [lia | reflexivity].
Qed.

(** On every key of the slot layout with a slash-free user, the loop body
    works on the record named by the month. *)
Lemma layout_key_targets_the_month
    env record user_id yyyy mm dd document_id filename :
  unquote_plus env (s3_object_key record)
  = key_layout user_id yyyy mm dd document_id filename ->
  contains "/" user_id = false ->
  contains "/" yyyy = false ->
  contains "/" mm = false ->
  Extract.process_record env record
  = (do _ <- print ("Processing document: s3://" ++ s3_bucket_name record ++ "/"
                    ++ key_layout user_id yyyy mm dd document_id filename);
     Extract.extract_and_store env (s3_bucket_name record)
       (key_layout user_id yyyy mm dd document_id filename) mm).
Proof.
  intros Hkey Huser Hyear Hmonth. unfold Extract.process_record. rewrite Hkey.
  destruct (fourth_segment_is_the_month user_id yyyy mm dd document_id filename
              Huser Hyear Hmonth) as [Hlong Hfourth].
  cbv zeta in Hlong, Hfourth. now rewrite Hlong, Hfourth.
Qed.

(** ** The query history *)

(** When the table accepts the [list_append], the new entry follows the
    stored ones. *)
Lemma add_query_to_history_appends env document_id question answer w document history :
  table w !! document_id = Some document ->
  dict_get_default document "queryHistory" (VList []) = VList history ->
  fault env (tick w) = None ->
  exists w' entry,
    Dynamodb.add_query_to_history env document_id question answer w = (inr tt, w')
    /\ entry = dict [("question", VStr question); ("answer", VStr answer);
                     ("timestamp", VStr (isoformat (utcnow env (tick w))))]
    /\ table w' = <[document_id := <["queryHistory" := VList (history ++ [entry])]> document]>
                    (table w).
Proof.
  intros Hdoc Hhistory Hok.
  unfold Dynamodb.add_query_to_history, bind at 1, now, try_except, bind at 1, update_item.
  rewrite aws_returns by exact Hok. cbn [table record_call].
  rewrite Hdoc. change (default _ (Some document)) with document.
  cbn [fold_left apply_action]. rewrite Hhistory.
  eexists _, _. split; [reflexivity|]. split; reflexivity.
Qed.

(** When the append is refused and the second write is accepted, the history
    is the new entry alone, whatever it held before. *)
Lemma add_query_to_history_overwrites env document_id question answer w e :
  fault env (tick w) = Some e ->
  fault env (S (tick w)) = None ->
  exists w' entry,
    Dynamodb.add_query_to_history env document_id question answer w = (inr tt, w')
    /\ entry = dict [("question", VStr question); ("answer", VStr answer);
                     ("timestamp", VStr (isoformat (utcnow env (tick w))))]
    /\ (table w' !! document_id ≫= lookup "queryHistory") = Some (VList [entry]).
Proof.
  intros Hrefused Hok.
  unfold Dynamodb.add_query_to_history, bind at 1, now, try_except, bind at 1, update_item.
  rewrite (aws_raises env _ _ _ e Hrefused).
  unfold bind. rewrite aws_returns by exact Hok.
  cbn [fold_left apply_action].
  eexists _, _. split; [reflexivity|]. split; [reflexivity|].
  cbn [table set_table]. rewrite lookup_insert_eq. cbn. apply lookup_insert_eq.
Qed.

(** Status updates of extraction and summarization leave the history alone. *)
Lemma status_update_keeps_history env document_id status metadata w :
  (forall kv, kv ∈ metadata -> fst kv <> "queryHistory") ->
  with_status env document_id status metadata w !! "queryHistory"
  = upserted document_id w !! "queryHistory".
Proof.
  intros Hkeys. unfold with_status. rewrite set_all_lookup_ne by exact Hkeys.
  now rewrite !lookup_insert_ne by discriminate.
Qed.

(** C2, at a record whose history holds one entry.  With DynamoDB answering
    every call, the question appends its entry after the stored one.  When the
    [list_append] update is refused once (the call at time 2), the handler
    still answers 200 and the history is the new entry alone: the stored
    entry is gone. *)
Theorem query_history_fallback_discards :
  let appended := Query.lambda_handler Scenario.env0 Scenario.question_request
                    Scenario.asked_world in
  let refused := Query.lambda_handler (Scenario.failing_at 2 Scenario.env0)
                   Scenario.question_request Scenario.asked_world in
  (table Scenario.asked_world !! "doc-1" ≫= lookup "queryHistory")
  = Some (VList [Scenario.earlier_entry])
  /\ status_of (fst appended) = Some 200
  /\ (table (snd appended) !! "doc-1" ≫= lookup "queryHistory")
     = Some (VList [Scenario.earlier_entry; Scenario.new_entry])
  /\ status_of (fst refused) = Some 200
  /\ (table (snd refused) !! "doc-1" ≫= lookup "queryHistory")
     = Some (VList [Scenario.new_entry]).
Proof. vm_compute. repeat split. Qed.

(** ** Who may ask *)

(** C3, at a question of mallory about the document of alice.  The caller is
    neither the owner nor anonymous, and yet the handler returns 200, not 403;
    the LLM adapter is invoked on the text of alice and the record gains a
    history entry. *)
Theorem stranger_is_answered :
  let out := Query.lambda_handler Scenario.env0 Scenario.question_request
               Scenario.asked_world in
  Documents.get_user_id Scenario.question_request = "mallory"
  /\ (table Scenario.asked_world !! "doc-1" ≫= lookup "userId") = Some (VStr "alice")
  /\ ~ (status_of (fst out) = Some 403
        /\ trace (snd out) = GetItem "doc-1" :: trace Scenario.asked_world
        /\ (table (snd out) !! "doc-1" ≫= lookup "queryHistory")
           = (table Scenario.asked_world !! "doc-1" ≫= lookup "queryHistory"))
  /\ status_of (fst out) = Some 200
  /\ body_field (fst out) "answer" = Some (VStr "It says hello.")
  /\ nth_error (trace (snd out)) 1
     = Some (InvokeAnswer (VStr "Hello world") "Who says hello?")
  /\ (table (snd out) !! "doc-1" ≫= lookup "queryHistory")
     = Some (VList [Scenario.earlier_entry; Scenario.new_entry]).
Proof.
  vm_compute. repeat split; try reflexivity.
  intros [Hstatus _]. discriminate Hstatus.
Qed.

(** The handler reads the path parameters and the body of the event, nothing
    else: neither the identity header nor the authorizer claims. *)
Lemma query_ignores_identity env event event' :
  pathParameters event = pathParameters event' ->
  body event = body event' ->
  Query.lambda_handler env event = Query.lambda_handler env event'.
Proof. intros Hpath Hbody. unfold Query.lambda_handler. now rewrite Hpath, Hbody. Qed.

(** Every answer of the handler is a 200, 400, 404 or 500. *)
Lemma query_status_codes env event w resp w' :
  Query.lambda_handler env event w = (inr resp, w') ->
  statusCode resp ∈ [200; 400; 404; 500].
Proof.
  intros Hrun.
  cbv [Query.lambda_handler try_except_if try_except bind ret raise print] in Hrun.
  repeat case_match; simplify_eq; cbn; set_solver.
Qed.

(** What the handler does instead of the check: its outcome is the same for
    every caller identity and is never a 403; a valid question about a stored
    document with extracted text is put to the LLM adapter and, once answered,
    appended to the history of the record and returned with a 200, whoever
    asks. *)
Lemma query_has_no_ownership_check
    env event document_id fields question document history answer confidence w :
  params_of (pathParameters event) !! "documentId" = Some document_id ->
  document_id <> "" ->
  body event = BodyJson (VDict fields) ->
  dict_get_default fields "question" (VStr "") = VStr question ->
  strip question <> "" ->
  len (strip question) <= 1000 ->
  table w !! document_id = Some document ->
  truthy (dict_get document "extractedText") = true ->
  dict_get_default document "queryHistory" (VList []) = VList history ->
  answer_question env (dict_get document "extractedText") (strip question)
  = inr (answer, confidence) ->
  fault env (tick w) = None ->
  fault env (S (S (tick w))) = None ->
  (forall other,
     pathParameters other = pathParameters event -> body other = body event ->
     Query.lambda_handler env other w = Query.lambda_handler env event w)
  /\ (forall resp w', Query.lambda_handler env event w = (inr resp, w') ->
                      statusCode resp <> 403)
  /\ exists w' entry,
       Query.lambda_handler env event w
       = (inr (Query.response 200 (dict
                 [("documentId", VStr document_id);
                  ("question", VStr (strip question));
                  ("answer", VStr answer);
                  ("confidence", VStr confidence)])), w')
       /\ nth_error (trace w') 1
          = Some (InvokeAnswer (dict_get document "extractedText") (strip question))
       /\ entry = dict [("question", VStr (strip question)); ("answer", VStr answer);
                        ("timestamp", VStr (isoformat (utcnow env (S (S (tick w))))))]
       /\ table w'
          = <[document_id := <["queryHistory" := VList (history ++ [entry])]> document]>
              (table w).
Proof.
  intros Hpath Hid Hbody Hquestion Hfull Hshort Hdoc Htext Hhistory Hanswer Hread Hwrite.
  split; [|split].
  - intros other Hp Hb. now rewrite (query_ignores_identity env other event Hp Hb).
  - intros resp w' Hrun Hdenied.
    pose proof (query_status_codes env event w resp w' Hrun) as Hcodes.
    rewrite Hdenied in Hcodes.
    repeat (apply elem_of_cons in Hcodes as [Hcodes|Hcodes]; [discriminate|]).
    inversion Hcodes.
  - unfold Query.lambda_handler. rewrite Hpath.
    replace (nonempty (Some document_id)) with true
      by (simpl; now destruct (String.eqb_spec document_id "")).
    cbn [negb]. change (default "" (Some document_id)) with document_id.
    unfold try_except_if. unfold try_except at 1 2. unfold bind at 1 2.
    rewrite Hbody. cbn [json_loads]. unfold ret at 1 2. cbv beta iota.
    unfold bind at 1. cbn [as_dict]. unfold ret at 1. cbv beta iota.
    rewrite Hquestion. unfold bind at 1. cbn [Query.stripped]. unfold ret at 1.
    cbv beta iota.
    destruct (String.eqb_spec (strip question) "") as [|_]; [contradiction|].
    destruct (Z.ltb_spec 1000 (len (strip question))) as [|_]; [lia|].
    unfold bind at 1. unfold Dynamodb.get_document.
    rewrite get_item_returns by exact Hread. rewrite Hdoc.
    change (default ∅ (Some document)) with document.
    rewrite (truthy_lookup _ _ Htext), Htext. cbn [negb].
    unfold bind at 1. unfold adapter at 1. rewrite Hanswer. cbn [fst snd].
    set (w2 := record_call (InvokeAnswer _ _) _).
    destruct (add_query_to_history_appends env document_id (strip question) answer w2
                document history Hdoc Hhistory Hwrite) as (w3 & entry & Hrun & Hentry & Htable).
    unfold bind at 1. rewrite Hrun. unfold ret.
    exists w3, entry. split; [reflexivity|].
    split; [|split; [exact Hentry | exact Htable]].
    revert Hrun. unfold Dynamodb.add_query_to_history, bind at 1, now, try_except,
      bind at 1, update_item.
    rewrite aws_returns by exact Hwrite. cbn [table record_call].
    change (table w2) with (table w). rewrite Hdoc.
    change (default _ (Some document)) with document.
    cbn [fold_left apply_action]. rewrite Hhistory. unfold ret.
    intros [= <-]. reflexivity.
Qed.

Lemma query_has_no_ownership_check_witness :
  exists w' entry,
    Query.lambda_handler Scenario.env0 Scenario.question_request Scenario.asked_world
    = (inr (Query.response 200 (dict
              [("documentId", VStr "doc-1");
               ("question", VStr "Who says hello?");
               ("answer", VStr "It says hello.");
               ("confidence", VStr "high")])), w')
    /\ nth_error (trace w') 1
       = Some (InvokeAnswer (VStr "Hello world") "Who says hello?")
    /\ entry = Scenario.new_entry
    /\ table w'
       = <["doc-1" := <["queryHistory" := VList ([Scenario.earlier_entry] ++ [entry])]>
                        Scenario.asked_document]>
           (table Scenario.asked_world).
Proof.
  exact (proj2 (proj2
    (query_has_no_ownership_check Scenario.env0 Scenario.question_request "doc-1"
       (list_to_map [("question", VStr "  Who says hello?  ")])
       "  Who says hello?  " Scenario.asked_document [Scenario.earlier_entry]
       "It says hello." "high" Scenario.asked_world
       eq_refl ltac:(discriminate) eq_refl eq_refl ltac:(discriminate)
       ltac:(vm_compute; discriminate) eq_refl eq_refl eq_refl eq_refl eq_refl eq_refl))).
Defined.

(** The documents handler, for comparison, does turn mallory away. *)
Example stranger_cannot_get :
  status_of (fst (Documents.get_document_handler Scenario.env0
                    Scenario.question_request "doc-1" Scenario.asked_world))
  = Some 403.
Proof. vm_compute. reflexivity. Qed.

(** ** Extracted text and status *)

Section Keeps.
Context (P : gmap string Item -> Prop).

Lemma keeps_ret {A} (a : A) : Pipeline.keeps P (ret a).
Proof. intros w Hw. exact Hw. Qed.

Lemma keeps_raise {A} (e : Exn) : Pipeline.keeps P (@raise A e).
Proof. intros w Hw. exact Hw. Qed.

Lemma keeps_pure {A} (x : Exn + A) : Pipeline.keeps P (fun w => (x, w)).
Proof. intros w Hw. exact Hw. Qed.

Lemma keeps_print line : Pipeline.keeps P (print line).
Proof. intros w Hw. exact Hw. Qed.

Lemma keeps_now env : Pipeline.keeps P (now env).
Proof. intros w Hw. exact Hw. Qed.

Lemma keeps_new_uuid env : Pipeline.keeps P (new_uuid env).
Proof. intros w Hw. exact Hw. Qed.

Lemma keeps_adapter {A} c (outcome : Exn + A) : Pipeline.keeps P (adapter c outcome).
Proof. intros w Hw. exact Hw. Qed.

Lemma keeps_bind {A B} (m : M A) (k : A -> M B) :
  Pipeline.keeps P m -> (forall a, Pipeline.keeps P (k a)) -> Pipeline.keeps P (bind m k).
Proof.
  intros Hm Hk w Hw. unfold bind. specialize (Hm w Hw).
  destruct (m w) as [[e|a] w1]; [exact Hm|]. now apply Hk.
Qed.

Lemma keeps_try_except {A} (m : M A) (h : Exn -> M A) :
  Pipeline.keeps P m -> (forall e, Pipeline.keeps P (h e)) ->
  Pipeline.keeps P (try_except m h).
Proof.
  intros Hm Hh w Hw. unfold try_except. specialize (Hm w Hw).
  destruct (m w) as [[e|a] w1]; [now apply Hh | exact Hm].
Qed.

Lemma keeps_try_except_if {A} catches (m : M A) (h : Exn -> M A) :
  Pipeline.keeps P m -> (forall e, Pipeline.keeps P (h e)) ->
  Pipeline.keeps P (try_except_if catches m h).
Proof.
  intros Hm Hh. apply keeps_try_except; [exact Hm|].
  intros e. destruct (catches e); [apply Hh | apply keeps_raise].
Qed.

Lemma keeps_aws {A} env c (act : M A) :
  Pipeline.keeps P act -> Pipeline.keeps P (aws env c act).
Proof.
  intros Hact w Hw. unfold aws.
  destruct (fault env (tick w)); [exact Hw|]. now apply (Hact (record_call c w)).
Qed.

Lemma keeps_get_item env key : Pipeline.keeps P (get_item env key).
Proof. apply keeps_aws. intros w Hw. exact Hw. Qed.

Lemma keeps_head_object env key : Pipeline.keeps P (head_object env key).
Proof.
  destruct key; try apply keeps_raise. apply keeps_aws.
  intros w Hw. now destruct (bool_decide _).
Qed.

Lemma keeps_delete_object env key : Pipeline.keeps P (delete_object env key).
Proof.
  destruct key; try apply keeps_raise. apply keeps_aws. intros w Hw. exact Hw.
Qed.

Lemma keeps_get_user_documents env user_id limit :
  Pipeline.keeps P (Dynamodb.get_user_documents env user_id limit).
Proof. apply keeps_aws. intros w Hw. exact Hw. Qed.

End Keeps.

Section StatusInvariant.
Context (allowed : list string).

Lemma ok_without_text (item : Item) :
  item !! "extractedText" = None ->
  Pipeline.text_implies_status allowed item = true.
Proof. intros H. unfold Pipeline.text_implies_status. now rewrite H. Qed.

Lemma ok_with_status (item : Item) s :
  item !! "status" = Some (VStr s) -> s ∈ allowed ->
  Pipeline.text_implies_status allowed item = true.
Proof.
  intros Hs Hin. unfold Pipeline.text_implies_status. rewrite Hs.
  destruct (item !! "extractedText"); [|reflexivity].
  now apply bool_decide_eq_true_2.
Qed.

Lemma ok_same_fields (old new : Item) :
  new !! "extractedText" = old !! "extractedText" ->
  new !! "status" = old !! "status" ->
  Pipeline.text_implies_status allowed old = true ->
  Pipeline.text_implies_status allowed new = true.
Proof. unfold Pipeline.text_implies_status. now intros -> ->. Qed.

Lemma ok_upserted key w :
  Pipeline.invariant allowed (table w) ->
  Pipeline.text_implies_status allowed (upserted key w) = true.
Proof.
  intros Hinv. unfold upserted. destruct (table w !! key) as [item|] eqn:Hitem.
  - exact (Hinv key item Hitem).
  - apply ok_without_text. reflexivity.
Qed.

Lemma keeps_put_item env item :
  Pipeline.text_implies_status allowed item = true ->
  Pipeline.keeps (Pipeline.invariant allowed) (put_item env item).
Proof.
  intros Hitem. apply keeps_aws. intros w Hw.
  destruct (item !! "documentId") as [[| | | |k| |]|]; try exact Hw.
  cbn. now apply map_Forall_insert_2.
Qed.

Lemma keeps_delete_item env key : Pipeline.keeps (Pipeline.invariant allowed) (delete_item env key).
Proof. apply keeps_aws. intros w Hw. cbn. now apply map_Forall_delete. Qed.

Lemma keeps_update_document_status env key status metadata :
  status ∈ allowed ->
  (forall kv, kv ∈ metadata -> fst kv <> "status") ->
  Pipeline.keeps (Pipeline.invariant allowed)
    (Dynamodb.update_document_status env key status metadata).
Proof.
  intros Hstatus Hkeys w Hw.
  destruct (fault env (tick w)) as [e|] eqn:Hfault.
  - now rewrite (update_document_status_raises env _ _ _ _ e Hfault).
  - rewrite (update_document_status_returns env _ _ _ _ Hfault). cbn.
    apply map_Forall_insert_2; [|exact Hw].
    eapply ok_with_status; [|exact Hstatus]. now apply with_status_status.
Qed.

Lemma keeps_add_query_to_history env key question answer :
  Pipeline.keeps (Pipeline.invariant allowed)
    (Dynamodb.add_query_to_history env key question answer).
Proof.
  unfold Dynamodb.add_query_to_history.
  apply keeps_bind; [apply keeps_now|]. intros d.
  assert (forall acts,
            (forall old new, fold_left apply_action acts (inr old) = inr new ->
                             new !! "extractedText" = old !! "extractedText"
                             /\ new !! "status" = old !! "status") ->
            Pipeline.keeps (Pipeline.invariant allowed) (update_item env key acts)) as Hupdate.
  { intros acts Hacts. apply keeps_aws. intros w Hw. cbv beta zeta.
    change (default _ (table w !! key)) with (upserted key w).
    destruct (fold_left apply_action acts (inr (upserted key w))) as [e|new] eqn:Hfold;
      [exact Hw|].
    cbn. apply map_Forall_insert_2; [|exact Hw].
    destruct (Hacts _ _ Hfold) as [Htext Hstatus].
    eapply ok_same_fields; [exact Htext | exact Hstatus |].
    now apply (ok_upserted key w). }
  apply keeps_try_except; [|intros e]; (apply keeps_bind; [|intros; apply keeps_ret]);
    apply Hupdate; intros old new; cbn.
  - destruct (dict_get_default old "queryHistory" (VList [])); try discriminate.
    intros [= <-]. now rewrite !lookup_insert_ne by discriminate.
  - intros [= <-]. now rewrite !lookup_insert_ne by discriminate.
Qed.

End StatusInvariant.

Section Handlers.
Context (env : Env).

Ltac status_update :=
  apply keeps_update_document_status;
  [ solve [repeat constructor]
  | let kv := fresh "kv" in
    let Hin := fresh "Hin" in
    intros kv Hin;
    repeat (apply elem_of_cons in Hin as [->|Hin]; [discriminate|]);
    inversion Hin ].

Ltac keeps_step :=
  first
    [ apply keeps_ret | apply keeps_raise | apply keeps_print | apply keeps_now
    | apply keeps_new_uuid | apply keeps_adapter
    | apply keeps_get_item | apply keeps_head_object | apply keeps_delete_object
    | apply keeps_get_user_documents | apply keeps_delete_item
    | apply keeps_add_query_to_history
    | status_update
    | apply keeps_bind; [|intros ?]
    | apply keeps_try_except_if; [|intros ?]
    | apply keeps_try_except; [|intros ?]
    | match goal with
      | |- Pipeline.keeps _ (if ?b then _ else _) => destruct b
      | |- Pipeline.keeps _ (match ?x with _ => _ end) => destruct x
      | |- Pipeline.keeps _ (let _ := _ in _) => cbv zeta
      end
    | apply keeps_pure ].

Lemma keeps_create_document user_id filename s3_key content_type file_size :
  Pipeline.keeps (Pipeline.invariant Pipeline.code_statuses)
    (Dynamodb.create_document env user_id filename s3_key content_type file_size).
Proof.
  unfold Dynamodb.create_document.
  apply keeps_bind; [apply keeps_new_uuid|]. intros document_id.
  apply keeps_bind; [apply keeps_now|]. intros d.
  apply keeps_bind; [|intros; apply keeps_ret].
  apply keeps_put_item. apply ok_without_text. reflexivity.
Qed.

Lemma keeps_upload event :
  Pipeline.keeps (Pipeline.invariant Pipeline.code_statuses) (Upload.lambda_handler env event).
Proof.
  unfold Upload.lambda_handler, Upload.handle_upload_request,
    Upload.handle_get_presigned_url, json_loads, as_dict.
  repeat first [apply keeps_create_document | keeps_step].
Qed.

Lemma keeps_extract_and_store bucket key document_id :
  Pipeline.keeps (Pipeline.invariant Pipeline.code_statuses)
    (Extract.extract_and_store env bucket key document_id).
Proof.
  unfold Extract.extract_and_store, Dynamodb.store_extracted_text.
  repeat keeps_step.
Qed.

Lemma keeps_for_each_record records :
  Pipeline.keeps (Pipeline.invariant Pipeline.code_statuses) (Extract.for_each_record env records).
Proof.
  induction records as [|record records IH]; cbn [Extract.for_each_record].
  - apply keeps_ret.
  - apply keeps_bind; [|intros; exact IH].
    unfold Extract.process_record.
    repeat first [apply keeps_extract_and_store | keeps_step].
Qed.

Lemma keeps_extract event :
  Pipeline.keeps (Pipeline.invariant Pipeline.code_statuses) (Extract.lambda_handler env event).
Proof.
  unfold Extract.lambda_handler, Extract.handle_s3_event, Extract.handle_api_request,
    Dynamodb.get_document, Dynamodb.store_extracted_text.
  repeat first [apply keeps_for_each_record | keeps_step].
Qed.

Lemma keeps_query event :
  Pipeline.keeps (Pipeline.invariant Pipeline.code_statuses) (Query.lambda_handler env event).
Proof.
  unfold Query.lambda_handler, Dynamodb.get_document, json_loads, as_dict, Query.stripped.
  repeat keeps_step.
Qed.

Lemma keeps_summarize event :
  Pipeline.keeps (Pipeline.invariant Pipeline.code_statuses) (Summarize.lambda_handler env event).
Proof.
  unfold Summarize.lambda_handler, Dynamodb.get_document, Dynamodb.store_summary.
  repeat keeps_step.
Qed.

Lemma keeps_documents event :
  Pipeline.keeps (Pipeline.invariant Pipeline.code_statuses) (Documents.lambda_handler env event).
Proof.
  unfold Documents.lambda_handler, Documents.get_document_handler,
    Documents.list_documents_handler, Documents.delete_document_handler,
    Dynamodb.get_document, Dynamodb.delete_document.
  repeat keeps_step.
Qed.

End Handlers.

Lemma reachable_invariant w :
  Pipeline.reachable w -> Pipeline.invariant Pipeline.code_statuses (table w).
Proof.
  induction 1 as [w Hempty | env request w _ IH].
  - rewrite Hempty. apply map_Forall_empty.
  - destruct request; cbn [Pipeline.serve].
    + now apply keeps_upload.
    + now apply keeps_extract.
    + now apply keeps_query.
    + now apply keeps_summarize.
    + now apply keeps_documents.
    + exact IH.
Qed.

Lemma redelivery_reachable :
  Pipeline.reachable (Pipeline.serve_all Scenario.redelivery Scenario.empty_world).
Proof.
  cbn [Pipeline.serve_all Scenario.redelivery].
  do 2 apply Pipeline.reachable_serve. now apply Pipeline.reachable_start.
Qed.

(** C5 as stated fails.  The storage event of the uploaded report is
    delivered twice and Textract fails the second time: the record keeps the
    text of the first extraction while its status is FAILED. *)
Lemma text_outlives_extracted_status :
  let w := Pipeline.serve_all Scenario.redelivery Scenario.empty_world in
  Pipeline.reachable w
  /\ (table w !! "01" ≫= lookup "extractedText") = Some (VStr "Hello world")
  /\ (table w !! "01" ≫= lookup "status") = Some (VStr "FAILED")
  /\ ~ Pipeline.invariant Pipeline.spec_statuses (table w).
Proof.
  cbv zeta. split; [exact redelivery_reachable|].
  split; [vm_compute; reflexivity|]. split; [vm_compute; reflexivity|].
  intros Hinv.
  assert ((Pipeline.text_implies_status Pipeline.spec_statuses
             <$> table (Pipeline.serve_all Scenario.redelivery Scenario.empty_world) !! "01")
          = Some false) as Hbad by (vm_compute; reflexivity).
  destruct (table _ !! "01") as [item|] eqn:Hitem; [|discriminate Hbad].
  specialize (Hinv "01" item Hitem). cbn in Hinv, Hbad. congruence.
Qed.

(** C5, amended.  In every world the handlers can reach from an empty table,
    a record that carries [extractedText] has status PROCESSING, EXTRACTED,
    COMPLETED or FAILED: the text is never found next to UPLOADED. *)
Theorem extracted_text_statuses w key :
  Pipeline.reachable w ->
  is_Some (table w !! key ≫= lookup "extractedText") ->
  exists status,
    (table w !! key ≫= lookup "status") = Some (VStr status)
    /\ status ∈ ["PROCESSING"; "EXTRACTED"; "COMPLETED"; "FAILED"].
Proof.
  intros Hreach Htext. pose proof (reachable_invariant w Hreach) as Hinv.
  destruct (table w !! key) as [item|] eqn:Hitem; cbn in *.
  2: { destruct Htext as [? [=]]. }
  specialize (Hinv key item Hitem). cbn in Hinv.
  unfold Pipeline.text_implies_status in Hinv.
  destruct Htext as [text Htext]. rewrite Htext in Hinv.
  destruct (item !! "status") as [[| | | |status| |]|]; try discriminate.
  exists status. split; [reflexivity|]. now apply bool_decide_eq_true_1 in Hinv.
Qed.

Lemma extracted_text_statuses_witness :
  exists status,
    (table (Pipeline.serve_all Scenario.redelivery Scenario.empty_world) !! "01"
       ≫= lookup "status") = Some (VStr status)
    /\ status ∈ ["PROCESSING"; "EXTRACTED"; "COMPLETED"; "FAILED"].
Proof.
  apply (extracted_text_statuses
           (Pipeline.serve_all Scenario.redelivery Scenario.empty_world) "01").
  - exact redelivery_reachable.
  - exists (VStr "Hello world"). vm_compute. reflexivity.
Defined.

(** The same on the request path: a summarized document extracted again
    while Textract is down ends FAILED, with its text and its summary. *)
Example completed_document_extracted_again :
  let out := Extract.handle_api_request Scenario.ocr_down
               (Scenario.on_document "doc-1" Scenario.no_event)
               Scenario.summarized_world in
  status_of (fst out) = Some 500
  /\ (table (snd out) !! "doc-1" ≫= lookup "status") = Some (VStr "FAILED")
  /\ (table (snd out) !! "doc-1" ≫= lookup "extractedText") = Some (VStr "Hello world")
  /\ (table (snd out) !! "doc-1" ≫= lookup "summary") = Some (VStr "A greeting.").
Proof. vm_compute. repeat split. Qed.

(** * Further properties of the handlers and adapters *)

(** ** Upload slots *)

Lemma append_assoc (a b c : string) : ((a ++ b) ++ c = a ++ b ++ c)%string.
Proof.
  induction a as [|x a IH]; [reflexivity|].
  change (String x ((a ++ b) ++ c) = String x (a ++ b ++ c))%string. now f_equal.
Qed.

(** A slot request with a file name and an allowed content type is answered
    with a new identifier and the key
    documents/{user}/{yyyy}/{mm}/{dd}/{identifier}/{filename}, dated by the
    clock with zero-padded fields; the only trace it leaves is the drawing of
    the uuid: no record is created and the bucket is not touched. *)
Theorem slot_issues_layout_key env event filename w :
  params_of (queryStringParameters event) !! "filename" = Some filename ->
  filename <> "" ->
  default "application/pdf" (params_of (queryStringParameters event) !! "contentType")
    ∈ Upload.ALLOWED_TYPES ->
  let today := utcnow env (S (tick w)) in
  let key := key_layout (Upload.get_user_id event)
               (zfill 4 (dt_year today)) (zfill 2 (dt_month today))
               (zfill 2 (dt_day today)) (uuid4 env (tick w)) filename in
  Upload.handle_get_presigned_url env event w
  = (inr (Upload.response 200 (dict
            [("uploadUrl", VStr (presigned_url env "put_object" key));
             ("documentId", VStr (uuid4 env (tick w)));
             ("s3Key", VStr key);
             ("expiresIn", VInt 3600)])),
     record_call Uuid4 w).
Proof.
  intros Hname Hne Hallowed today key.
  unfold Upload.handle_get_presigned_url. rewrite Hname.
  replace (nonempty (Some filename)) with true
    by (simpl; now destruct (String.eqb_spec filename "")).
  rewrite bool_decide_eq_true_2 by exact Hallowed. cbn [negb].
  unfold bind, new_uuid, now, ret. cbv beta iota.
  change (default "" (Some filename)) with filename.
  change (utcnow env (tick (record_call Uuid4 w))) with today.
  assert (("documents/" ++ Upload.get_user_id event ++ "/" ++ strftime_Ymd today ++ "/"
           ++ uuid4 env (tick w) ++ "/" ++ filename)%string = key) as ->; [|reflexivity].
  unfold key, key_layout, strftime_Ymd.
  now rewrite !append_assoc.
Qed.

Lemma slot_issues_layout_key_witness :
  Upload.handle_get_presigned_url Scenario.env0 Scenario.slot_request Scenario.empty_world
  = (inr (Upload.response 200 (dict
            [("uploadUrl", VStr "https://s3.example/documents/u1/2024/01/15/uuid-0/report.pdf");
             ("documentId", VStr "uuid-0");
             ("s3Key", VStr "documents/u1/2024/01/15/uuid-0/report.pdf");
             ("expiresIn", VInt 3600)])),
     record_call Uuid4 Scenario.empty_world).
Proof.
  exact (slot_issues_layout_key Scenario.env0 Scenario.slot_request "report.pdf"
           Scenario.empty_world eq_refl ltac:(discriminate) ltac:(set_solver)).
Defined.

(** A slot request without a file name, or with a content type outside the
    allow-list, is answered 400 and leaves the world as it was: no identifier
    is drawn. *)
Theorem slot_request_is_validated env event w :
  nonempty (params_of (queryStringParameters event) !! "filename") = false
  \/ default "application/pdf" (params_of (queryStringParameters event) !! "contentType")
     ∉ Upload.ALLOWED_TYPES ->
  exists resp,
    Upload.handle_get_presigned_url env event w = (inr resp, w)
    /\ statusCode resp = 400.
Proof.
  intros Hbad. unfold Upload.handle_get_presigned_url.
  destruct (nonempty _) eqn:Hname; cbn [negb].
  2: { eexists. split; reflexivity. }
  destruct Hbad as [|Htype]; [discriminate|].
  rewrite bool_decide_eq_false_2 by exact Htype. cbn [negb].
  eexists. split; reflexivity.
Qed.

Lemma slot_request_is_validated_witness :
  exists resp,
    Upload.handle_get_presigned_url Scenario.env0
      (Scenario.with_query {[ "filename" := "notes.docx";
                              "contentType" := "application/msword" ]} Scenario.no_event)
      Scenario.empty_world
    = (inr resp, Scenario.empty_world)
    /\ statusCode resp = 400.
Proof.
  apply (slot_request_is_validated Scenario.env0).
  right. vm_compute. intros Hin.
  repeat (apply elem_of_cons in Hin as [Hin|Hin]; [discriminate|]).
  inversion Hin.
Defined.

(** ** Finalize requests that create nothing *)

(** When the blob is not in the bucket, and just as well when [head_object]
    fails with any other ClientError (access denied, throttling), the finalize
    request is answered 404 "Document not found in S3"; no identifier is drawn
    and no record is written. *)
Theorem finalize_without_blob env event fields key w :
  body event = BodyJson (VDict fields) ->
  truthy (dict_get fields "documentId") = true ->
  dict_get fields "s3Key" = VStr key ->
  key <> "" ->
  truthy (dict_get fields "filename") = true ->
  (fault env (tick w) = None /\ key ∉ bucket w)
  \/ (exists e, fault env (tick w) = Some e /\ is_ClientError e = true) ->
  Upload.handle_upload_request env event w
  = (inr (Upload.response 404 (dict [("error", VStr "Document not found in S3")])),
     record_call (HeadObject key) w).
Proof.
  intros Hbody Hgiven Hkey Hkey_ne Hname Hmissing.
  unfold Upload.handle_upload_request, try_except_if, try_except.
  unfold bind at 1. rewrite Hbody. simpl json_loads.
  unfold bind at 1. unfold ret at 1 2. cbv beta iota.
  unfold bind at 1. simpl as_dict. unfold ret at 1. cbv beta iota.
  rewrite Hgiven, Hname, Hkey.
  replace (truthy (VStr key)) with true
    by (simpl; now destruct (String.eqb_spec key "")).
  cbn [andb negb].
  unfold bind at 1 2. unfold head_object.
  destruct Hmissing as [[Hok Habsent] | (e & Hfault & Hclient)].
  - rewrite aws_returns by exact Hok. cbn [bucket record_call].
    rewrite bool_decide_eq_false_2 by exact Habsent. reflexivity.
  - rewrite (aws_raises env _ _ _ e Hfault). now rewrite Hclient.
Qed.

Lemma finalize_without_blob_witness :
  Upload.handle_upload_request Scenario.env0 Scenario.finalize_request
    Scenario.empty_world
  = (inr (Upload.response 404 (dict [("error", VStr "Document not found in S3")])),
     record_call (HeadObject Scenario.slot_key) Scenario.empty_world).
Proof.
  apply (finalize_without_blob Scenario.env0 Scenario.finalize_request
           (list_to_map [("documentId", VStr "uuid-0");
                         ("s3Key", VStr Scenario.slot_key);
                         ("filename", VStr "report.pdf");
                         ("contentType", VStr "application/pdf");
                         ("fileSize", VInt 2048)])
           Scenario.slot_key Scenario.empty_world);
    try reflexivity; [discriminate|].
  left. split; [reflexivity | set_solver].
Defined.

(** A finalize request whose body is not JSON, or lacks one of documentId,
    s3Key and filename (or carries it empty), is answered 400 before any call
    is made: the world is as it was. *)
Theorem finalize_request_is_validated env event w :
  body event = BodyInvalid
  \/ (exists fields,
        json_loads (body event) w = (inr (VDict fields), w)
        /\ truthy (dict_get fields "documentId") && truthy (dict_get fields "s3Key")
           && truthy (dict_get fields "filename") = false) ->
  exists resp,
    Upload.handle_upload_request env event w = (inr resp, w)
    /\ statusCode resp = 400.
Proof.
  intros [Hbody | (fields & Hbody & Hmissing)];
    unfold Upload.handle_upload_request, try_except_if, try_except.
  - unfold bind at 1. rewrite Hbody. eexists. split; reflexivity.
  - unfold bind at 1 2. rewrite Hbody. unfold ret at 1 2. cbv beta iota.
    unfold bind at 1. simpl as_dict. unfold ret at 1. cbv beta iota.
    rewrite Hmissing. eexists. split; reflexivity.
Qed.

Lemma finalize_request_is_validated_witness :
  exists resp,
    Upload.handle_upload_request Scenario.env0
      (Scenario.with_body [("documentId", VStr "uuid-0"); ("s3Key", VStr "")]
         Scenario.no_event)
      Scenario.empty_world
    = (inr resp, Scenario.empty_world)
    /\ statusCode resp = 400.
Proof.
  apply (finalize_request_is_validated Scenario.env0). right.
  exists (list_to_map [("documentId", VStr "uuid-0"); ("s3Key", VStr "")]).
  split; reflexivity.
Defined.

(** ** What an entry point can answer *)

Ltac run_handler H :=
  cbv [try_except_if try_except bind ret raise print] in H;
  repeat case_match; simplify_eq; cbn.

Ltac in_codes := repeat first [apply list_elem_of_here | apply list_elem_of_further].

Lemma upload_answers env event w :
  exists resp w',
    Upload.lambda_handler env event w = (inr resp, w')
    /\ statusCode resp ∈ [200; 201; 400; 404; 405; 500].
Proof.
  destruct (Upload.lambda_handler env event w) as [[e|resp] w'] eqn:Hrun.
  - exfalso. unfold Upload.lambda_handler in Hrun. run_handler Hrun.
  - exists resp, w'. split; [reflexivity|].
    unfold Upload.lambda_handler, Upload.handle_upload_request,
      Upload.handle_get_presigned_url in Hrun.
    run_handler Hrun; in_codes.
Qed.

Lemma extract_answers env event w :
  exists resp w',
    Extract.lambda_handler env event w = (inr resp, w')
    /\ statusCode resp ∈ [200; 400; 404; 500].
Proof.
  destruct (Extract.lambda_handler env event w) as [[e|resp] w'] eqn:Hrun.
  - exfalso. unfold Extract.lambda_handler in Hrun. run_handler Hrun.
  - exists resp, w'. split; [reflexivity|].
    unfold Extract.lambda_handler, Extract.handle_s3_event,
      Extract.handle_api_request in Hrun.
    run_handler Hrun; in_codes.
Qed.

Lemma query_answers env event w :
  exists resp w',
    Query.lambda_handler env event w = (inr resp, w')
    /\ statusCode resp ∈ [200; 400; 404; 500].
Proof.
  destruct (Query.lambda_handler env event w) as [[e|resp] w'] eqn:Hrun.
  - exfalso. unfold Query.lambda_handler in Hrun. run_handler Hrun.
  - exists resp, w'. split; [reflexivity|].
    unfold Query.lambda_handler in Hrun. run_handler Hrun; in_codes.
Qed.

Lemma summarize_answers env event w :
  exists resp w',
    Summarize.lambda_handler env event w = (inr resp, w')
    /\ statusCode resp ∈ [200; 400; 404; 500].
Proof.
  destruct (Summarize.lambda_handler env event w) as [[e|resp] w'] eqn:Hrun.
  - exfalso. unfold Summarize.lambda_handler in Hrun. run_handler Hrun.
  - exists resp, w'. split; [reflexivity|].
    unfold Summarize.lambda_handler in Hrun. run_handler Hrun; in_codes.
Qed.

Lemma documents_answers env event w :
  exists resp w',
    Documents.lambda_handler env event w = (inr resp, w')
    /\ statusCode resp ∈ [200; 400; 403; 404; 405; 500].
Proof.
  destruct (Documents.lambda_handler env event w) as [[e|resp] w'] eqn:Hrun.
  - exfalso. unfold Documents.lambda_handler in Hrun. run_handler Hrun.
  - exists resp, w'. split; [reflexivity|].
    unfold Documents.lambda_handler, Documents.get_document_handler,
      Documents.list_documents_handler, Documents.delete_document_handler in Hrun.
    run_handler Hrun; in_codes.
Qed.

(** No entry point lets an exception escape: whatever the event, the services
    and the world, each [lambda_handler] returns a response, and its status
    code is one of those listed for it.  A 403 can only come from the
    documents handler. *)
Theorem entry_points_always_answer env event w :
  (exists resp w', Upload.lambda_handler env event w = (inr resp, w')
                   /\ statusCode resp ∈ [200; 201; 400; 404; 405; 500])
  /\ (exists resp w', Extract.lambda_handler env event w = (inr resp, w')
                      /\ statusCode resp ∈ [200; 400; 404; 500])
  /\ (exists resp w', Query.lambda_handler env event w = (inr resp, w')
                      /\ statusCode resp ∈ [200; 400; 404; 500])
  /\ (exists resp w', Summarize.lambda_handler env event w = (inr resp, w')
                      /\ statusCode resp ∈ [200; 400; 404; 500])
  /\ (exists resp w', Documents.lambda_handler env event w = (inr resp, w')
                      /\ statusCode resp ∈ [200; 400; 403; 404; 405; 500]).
Proof.
  split; [apply upload_answers|].
  split; [apply extract_answers|].
  split; [apply query_answers|].
  split; [apply summarize_answers | apply documents_answers].
Qed.

(** ** The ownership check of the documents handler *)

Section StoredDocument.
Context (env : Env) (event : Event) (document_id : string) (document : Item) (w : World).
Hypothesis Hid : document_id <> "".
Hypothesis Hdoc : table w !! document_id = Some document.
Hypothesis Hfound : truthy (VDict document) = true.
Hypothesis Hread : fault env (tick w) = None.

Lemma get_document_handler_reads :
  Documents.get_document_handler env event document_id w
  = (if Documents.access_denied document (Documents.get_user_id event) then
       ret (Documents.response 403 (dict [("error", VStr "Access denied")]))
     else
       let query_params := params_of (queryStringParameters event) in
       let shown :=
         if Summarize.flag query_params "includeText" then document
         else delete "extractedText" document in
       let shown :=
         if Summarize.flag query_params "includeHistory" then shown
         else delete "queryHistory" shown in
       do shown <- (if truthy (dict_get shown "s3Key") then
                      match dict_get shown "s3Key" with
                      | VStr k =>
                          ret (<["downloadUrl" :=
                                  VStr (presigned_url env "get_object" k)]> shown)
                      | _ => raise ParamValidationError
                      end
                    else ret shown);
       ret (Documents.response 200 (dict [("document", VDict shown)])))
      (record_call (GetItem document_id) w).
Proof.
  unfold Documents.get_document_handler, bind at 1, Dynamodb.get_document.
  rewrite get_item_returns by exact Hread. rewrite Hdoc.
  change (default ∅ (Some document)) with document.
  rewrite Hfound. reflexivity.
Qed.

Lemma delete_document_handler_reads :
  Documents.access_denied document (Documents.get_user_id event) = true ->
  Documents.delete_document_handler env event (Some document_id) w
  = (inr (Documents.response 403 (dict [("error", VStr "Access denied")])),
     record_call (GetItem document_id) w).
Proof.
  intros Hdenied. unfold Documents.delete_document_handler.
  replace (nonempty (Some document_id)) with true
    by (simpl; now destruct (String.eqb_spec document_id "")).
  cbn [negb]. change (default "" (Some document_id)) with document_id.
  unfold bind at 1, Dynamodb.get_document.
  rewrite get_item_returns by exact Hread. rewrite Hdoc.
  change (default ∅ (Some document)) with document.
  rewrite Hfound, Hdenied. reflexivity.
Qed.

End StoredDocument.

(** A caller who is neither the owner of the document nor anonymous gets 403
    from both the get and the delete handler; after the one read of the
    record nothing else happens: nothing is deleted, no URL is signed. *)
Theorem stranger_is_turned_away env event document_id document w :
  document_id <> "" ->
  table w !! document_id = Some document ->
  truthy (VDict document) = true ->
  fault env (tick w) = None ->
  eq_str (dict_get document "userId") (Documents.get_user_id event) = false ->
  Documents.get_user_id event <> "anonymous" ->
  Documents.get_document_handler env event document_id w
  = (inr (Documents.response 403 (dict [("error", VStr "Access denied")])),
     record_call (GetItem document_id) w)
  /\ Documents.delete_document_handler env event (Some document_id) w
     = (inr (Documents.response 403 (dict [("error", VStr "Access denied")])),
        record_call (GetItem document_id) w).
Proof.
  intros Hid Hdoc Hfound Hread Hother Hnamed.
  assert (Documents.access_denied document (Documents.get_user_id event) = true)
    as Hdenied.
  { unfold Documents.access_denied. rewrite Hother.
    now destruct (String.eqb_spec (Documents.get_user_id event) "anonymous"). }
  split.
  - rewrite (get_document_handler_reads env event document_id document w Hdoc Hfound Hread).
    now rewrite Hdenied.
  - exact (delete_document_handler_reads env event document_id document w
             Hid Hdoc Hfound Hread Hdenied).
Qed.

Lemma stranger_is_turned_away_witness :
  Documents.get_document_handler Scenario.env0 Scenario.question_request "doc-1"
    Scenario.asked_world
  = (inr (Documents.response 403 (dict [("error", VStr "Access denied")])),
     record_call (GetItem "doc-1") Scenario.asked_world)
  /\ Documents.delete_document_handler Scenario.env0 Scenario.question_request
       (Some "doc-1") Scenario.asked_world
     = (inr (Documents.response 403 (dict [("error", VStr "Access denied")])),
        record_call (GetItem "doc-1") Scenario.asked_world).
Proof.
  apply (stranger_is_turned_away Scenario.env0 Scenario.question_request "doc-1"
           Scenario.asked_document Scenario.asked_world);
    try reflexivity; discriminate.
Defined.

(** A request that names no one passes the check for every document: without
    authorizer claims and without an X-User-Id header, or with claims that
    carry no sub (whatever the header says), the caller is "anonymous", and
    the get handler answers 200 with the document of any owner. *)
Theorem nameless_caller_reads_any_document env event document_id document w :
  (claims event = None /\ params_of (headers event) !! "X-User-Id" = None)
  \/ (exists c, claims event = Some c /\ c !! "sub" = None) ->
  table w !! document_id = Some document ->
  truthy (VDict document) = true ->
  fault env (tick w) = None ->
  (forall v, document !! "s3Key" = Some v -> exists key, v = VStr key) ->
  Documents.get_user_id event = "anonymous"
  /\ exists shown,
       Documents.get_document_handler env event document_id w
       = (inr (Documents.response 200 (dict [("document", VDict shown)])),
          record_call (GetItem document_id) w)
       /\ shown !! "userId" = document !! "userId"
       /\ shown !! "filename" = document !! "filename".
Proof.
  intros Hnameless Hdoc Hfound Hread Hkey.
  assert (Documents.get_user_id event = "anonymous") as Hanon.
  { unfold Documents.get_user_id.
    destruct Hnameless as [[-> ->] | (c & -> & ->)]; reflexivity. }
  split; [exact Hanon|].
  rewrite (get_document_handler_reads env event document_id document w Hdoc Hfound Hread).
  unfold Documents.access_denied. rewrite Hanon.
  rewrite andb_false_r. cbv zeta.
  set (shown := if Summarize.flag _ "includeHistory" then _ else _).
  assert (shown !! "userId" = document !! "userId"
          /\ shown !! "filename" = document !! "filename"
          /\ shown !! "s3Key" = document !! "s3Key") as (Huser & Hname & Hsame).
  { unfold shown. repeat destruct (Summarize.flag _ _);
      now rewrite ?lookup_delete_ne by discriminate. }
  unfold dict_get. rewrite Hsame.
  destruct (document !! "s3Key") as [v|] eqn:Hv; cbn [from_option id].
  - destruct (Hkey v eq_refl) as [key ->].
    destruct (truthy (VStr key)); unfold bind, ret; eexists; (split; [reflexivity|]).
    + now rewrite !lookup_insert_ne by discriminate.
    + now split.
  - cbn [truthy]. unfold bind, ret. eexists. split; [reflexivity|]. now split.
Qed.

Lemma nameless_caller_reads_any_document_witness :
  Documents.get_user_id (Scenario.on_document "doc-1" Scenario.no_event) = "anonymous"
  /\ exists shown,
       Documents.get_document_handler Scenario.env0
         (Scenario.on_document "doc-1" Scenario.no_event) "doc-1" Scenario.alice_world
       = (inr (Documents.response 200 (dict [("document", VDict shown)])),
          record_call (GetItem "doc-1") Scenario.alice_world)
       /\ shown !! "userId" = Scenario.alice_document !! "userId"
       /\ shown !! "filename" = Scenario.alice_document !! "filename".
Proof.
  apply (nameless_caller_reads_any_document Scenario.env0
           (Scenario.on_document "doc-1" Scenario.no_event) "doc-1"
           Scenario.alice_document Scenario.alice_world).
  - left. split; reflexivity.
  - reflexivity.
  - reflexivity.
  - reflexivity.
  - intros v Hv. vm_compute in Hv. injection Hv as <-. now eexists.
Defined.

(** ** What get and list show *)

(** An authorized get leaves out [extractedText] unless includeText is true
    (in any letter case) and [queryHistory] unless includeHistory is; what it
    shows of them is what the record holds.  A record with a non-empty
    [s3Key] is shown with a download URL signed for that key.  The stored
    record is not changed by what the response leaves out. *)
Theorem get_hides_large_fields env event document_id document w :
  table w !! document_id = Some document ->
  truthy (VDict document) = true ->
  fault env (tick w) = None ->
  Documents.access_denied document (Documents.get_user_id event) = false ->
  (forall v, document !! "s3Key" = Some v -> exists key, v = VStr key) ->
  let query_params := params_of (queryStringParameters event) in
  exists shown,
    Documents.get_document_handler env event document_id w
    = (inr (Documents.response 200 (dict [("document", VDict shown)])),
       record_call (GetItem document_id) w)
    /\ shown !! "extractedText"
       = (if Summarize.flag query_params "includeText"
          then document !! "extractedText" else None)
    /\ shown !! "queryHistory"
       = (if Summarize.flag query_params "includeHistory"
          then document !! "queryHistory" else None)
    /\ (forall key, document !! "s3Key" = Some (VStr key) -> key <> "" ->
        shown !! "downloadUrl" = Some (VStr (presigned_url env "get_object" key))).
Proof.
  intros Hdoc Hfound Hread Hallowed Hkey query_params.
  rewrite (get_document_handler_reads env event document_id document w Hdoc Hfound Hread).
  rewrite Hallowed. cbv zeta. fold query_params.
  set (shown := if Summarize.flag _ "includeHistory" then _ else _).
  assert (shown !! "extractedText"
          = (if Summarize.flag query_params "includeText"
             then document !! "extractedText" else None)
          /\ shown !! "queryHistory"
             = (if Summarize.flag query_params "includeHistory"
                then document !! "queryHistory" else None)
          /\ shown !! "s3Key" = document !! "s3Key") as (Htext & Hhistory & Hsame).
  { unfold shown, query_params.
    destruct (Summarize.flag _ "includeText"), (Summarize.flag _ "includeHistory");
      repeat split; by simplify_map_eq. }
  unfold dict_get. rewrite Hsame.
  destruct (document !! "s3Key") as [v|] eqn:Hv; cbn [from_option id].
  - destruct (Hkey v eq_refl) as [key ->].
    destruct (truthy (VStr key)) eqn:Hfull; unfold bind, ret; eexists;
      (split; [reflexivity|]).
    + rewrite !lookup_insert_ne by discriminate. split; [exact Htext|].
      split; [exact Hhistory|]. intros key' [= <-] _. apply lookup_insert_eq.
    + split; [exact Htext|]. split; [exact Hhistory|].
      intros key' [= <-] Hne. cbn in Hfull.
      destruct (String.eqb_spec key ""); [contradiction | discriminate].
  - cbn [truthy]. unfold bind, ret. eexists. split; [reflexivity|].
    split; [exact Htext|]. split; [exact Hhistory|]. discriminate.
Qed.

Lemma get_hides_large_fields_witness :
  exists shown,
    Documents.get_document_handler Scenario.env0
      (Scenario.as_user "alice" Scenario.no_event) "doc-1" Scenario.asked_world
    = (inr (Documents.response 200 (dict [("document", VDict shown)])),
       record_call (GetItem "doc-1") Scenario.asked_world)
    /\ shown !! "extractedText" = None
    /\ shown !! "queryHistory" = None
    /\ (forall key, Scenario.asked_document !! "s3Key" = Some (VStr key) -> key <> "" ->
        shown !! "downloadUrl"
        = Some (VStr (presigned_url Scenario.env0 "get_object" key))).
Proof.
  apply (get_hides_large_fields Scenario.env0
           (Scenario.as_user "alice" Scenario.no_event) "doc-1"
           Scenario.asked_document Scenario.asked_world).
  - reflexivity.
  - reflexivity.
  - reflexivity.
  - reflexivity.
  - intros v Hv. vm_compute in Hv. injection Hv as <-. now eexists.
Defined.

(** The list handler asks the index once, for at most min(limit, 100)
    documents of the caller (50 when no limit is given), and returns the
    documents the index answered, in its order, each without [extractedText]
    and [queryHistory] and otherwise as the index gave it; count is their
    number. *)
Theorem list_strips_large_fields env event limit w :
  py_int env (default (VInt 50)
                (VStr <$> params_of (queryStringParameters event) !! "limit"))
  = inr limit ->
  fault env (tick w) = None ->
  let answered :=
    index_query env (table w) (Documents.get_user_id event) (Z.min limit 100) in
  exists documents,
    Documents.list_documents_handler env event w
    = (inr (Documents.response 200 (dict
              [("documents", VList (VDict <$> documents));
               ("count", VInt (Z.of_nat (length answered)))])),
       record_call (QueryIndex (Documents.get_user_id event) (Z.min limit 100)) w)
    /\ Forall2 (fun shown stored : Item =>
                  shown !! "extractedText" = None
                  /\ shown !! "queryHistory" = None
                  /\ forall k, k <> "extractedText" -> k <> "queryHistory" ->
                               shown !! k = stored !! k)
         documents answered
    /\ Z.min limit 100 <= 100.
Proof.
  intros Hlimit Hread answered.
  unfold Documents.list_documents_handler, bind at 1. rewrite Hlimit.
  unfold bind at 1, Dynamodb.get_user_documents. rewrite aws_returns by exact Hread.
  cbn [table record_call]. fold answered. unfold ret.
  eexists. split; [rewrite length_fmap; reflexivity|]. split; [|lia].
  apply Forall2_fmap_l, Forall_Forall2_diag, Forall_forall. intros stored _.
  split; [|split].
  - rewrite lookup_delete_ne by discriminate. apply lookup_delete_eq.
  - apply lookup_delete_eq.
  - intros k Htext Hhistory. now rewrite !lookup_delete_ne by congruence.
Qed.

Lemma list_strips_large_fields_witness :
  exists documents,
    Documents.list_documents_handler
      (Cases.listing [Scenario.asked_document]) (Scenario.as_user "alice" Scenario.no_event)
      Scenario.asked_world
    = (inr (Documents.response 200 (dict
              [("documents", VList (VDict <$> documents));
               ("count", VInt (Z.of_nat (length [Scenario.asked_document])))])),
       record_call (QueryIndex "alice" (Z.min 50 100)) Scenario.asked_world)
    /\ Forall2 (fun shown stored : Item =>
                  shown !! "extractedText" = None
                  /\ shown !! "queryHistory" = None
                  /\ forall k, k <> "extractedText" -> k <> "queryHistory" ->
                               shown !! k = stored !! k)
         documents [Scenario.asked_document]
    /\ Z.min 50 100 <= 100.
Proof.
  exact (list_strips_large_fields (Cases.listing [Scenario.asked_document])
           (Scenario.as_user "alice" Scenario.no_event) 50 Scenario.asked_world
           eq_refl eq_refl).
Defined.

(** ** Requests that cannot be served *)

Section NamedDocument.
Context (env : Env) (event : Event) (document_id : string) (w : World).
Hypothesis Hpath : params_of (pathParameters event) !! "documentId" = Some document_id.
Hypothesis Hid : document_id <> "".
Hypothesis Hread : fault env (tick w) = None.

Lemma named : nonempty (Some document_id) = true.
Proof. simpl. now destruct (String.eqb_spec document_id ""). Qed.

(** The query handler up to the record it reads, for a valid question. *)
Lemma query_reads fields question :
  body event = BodyJson (VDict fields) ->
  dict_get_default fields "question" (VStr "") = VStr question ->
  strip question <> "" ->
  len (strip question) <= 1000 ->
  Query.lambda_handler env event w
  = try_except
      (let document := default ∅ (table w !! document_id) in
       if negb (truthy (VDict document)) then
         ret (Query.response 404 (dict [("error", VStr "Document not found")]))
       else
         let extracted_text := dict_get document "extractedText" in
         if negb (truthy extracted_text) then
           ret (Query.response 400 (dict
             [("error", VStr "Document text has not been extracted yet");
              ("hint", VStr "Call the extract endpoint first")]))
         else
           do result <- adapter (InvokeAnswer extracted_text (strip question))
                          (answer_question env extracted_text (strip question));
           do _ <- Dynamodb.add_query_to_history env document_id (strip question)
                     (fst result);
           ret (Query.response 200 (dict
             [("documentId", VStr document_id);
              ("question", VStr (strip question));
              ("answer", VStr (fst result));
              ("confidence", VStr (snd result))])))
      (fun e =>
         do _ <- print ("Error: " ++ exn_str e);
         ret (Query.response 500 (dict
           [("error", VStr "Query failed"); ("message", VStr (exn_str e))])))
      (record_call (GetItem document_id) w).
Proof.
  intros Hbody Hquestion Hfull Hshort.
  unfold Query.lambda_handler. rewrite Hpath, named. cbn [negb].
  change (default "" (Some document_id)) with document_id.
  unfold try_except_if. unfold try_except at 1 2 3. unfold bind at 1 2.
  rewrite Hbody. cbn [json_loads]. unfold ret at 1 2. cbv beta iota.
  unfold bind at 1. cbn [as_dict]. unfold ret at 1. cbv beta iota.
  rewrite Hquestion. unfold bind at 1. cbn [Query.stripped]. unfold ret at 1.
  cbv beta iota.
  destruct (String.eqb_spec (strip question) "") as [|_]; [contradiction|].
  destruct (Z.ltb_spec 1000 (len (strip question))) as [|_]; [lia|].
  unfold bind at 1. unfold Dynamodb.get_document.
  rewrite get_item_returns by exact Hread. reflexivity.
Qed.

(** The summarize handler up to the record it reads. *)
Lemma summarize_found max_length :
  py_int env (default (VInt 500)
                (VStr <$> params_of (queryStringParameters event) !! "maxLength"))
  = inr max_length ->
  Summarize.lambda_handler env event w
  = try_except
      (let query_params := params_of (queryStringParameters event) in
       let include_entities := Summarize.flag query_params "entities" in
       let include_questions := Summarize.flag query_params "questions" in
       let document := default ∅ (table w !! document_id) in
       if negb (truthy (VDict document)) then
         ret (Summarize.response 404 (dict [("error", VStr "Document not found")]))
       else
         let extracted_text := dict_get document "extractedText" in
         if negb (truthy extracted_text) then
           ret (Summarize.response 400 (dict
             [("error", VStr "Document text has not been extracted yet");
              ("hint", VStr "Call the extract endpoint first")]))
         else if truthy (dict_get document "summary")
                 && negb include_entities && negb include_questions then
           ret (Summarize.response 200 (dict
             [("documentId", VStr document_id);
              ("summary", dict_get document "summary");
              ("cached", VBool true)]))
         else
           do summary <- adapter (InvokeSummarize extracted_text max_length)
                           (summarize_document env extracted_text max_length);
           do _ <- Dynamodb.store_summary env document_id summary;
           let result :=
             [("documentId", VStr document_id);
              ("summary", VStr summary);
              ("wordCount", dict_get_default document "wordCount" (VInt 0));
              ("cached", VBool false)] in
           do result <- (if include_entities then
                           do entities <- adapter (InvokeEntities extracted_text)
                                            (extract_key_entities env extracted_text);
                           ret (result ++ [("entities", entities)])%list
                         else ret result);
           do result <- (if include_questions then
                           do questions <- adapter (InvokeQuestions extracted_text 5)
                                             (generate_document_questions env extracted_text 5);
                           ret (result ++ [("suggestedQuestions", VList (VStr <$> questions))])%list
                         else ret result);
           ret (Summarize.response 200 (dict result)))
      (fun e =>
         do _ <- print ("Error: " ++ exn_str e);
         ret (Summarize.response 500 (dict
           [("error", VStr "Summarization failed"); ("message", VStr (exn_str e))])))
      (record_call (GetItem document_id) w).
Proof.
  intros Hlength.
  unfold Summarize.lambda_handler. rewrite Hpath, named. cbn [negb].
  change (default "" (Some document_id)) with document_id.
  unfold try_except at 1 2. unfold bind at 1. rewrite Hlength.
  unfold bind at 1. unfold Dynamodb.get_document.
  rewrite get_item_returns by exact Hread. reflexivity.
Qed.

End NamedDocument.

(** An unknown document is a 404 for the extraction request, the question,
    the summary, the get and the delete alike, and the lookup is all that
    happens: in particular an extraction request does not create the record
    (the storage-event path would), and nothing is deleted or asked of the
    LLM. *)
Theorem unknown_document_is_not_found env event document_id w :
  params_of (pathParameters event) !! "documentId" = Some document_id ->
  document_id <> "" ->
  fault env (tick w) = None ->
  table w !! document_id = None ->
  let w' := record_call (GetItem document_id) w in
  Extract.handle_api_request env event w
  = (inr (Extract.response 404 (dict [("error", VStr "Document not found")])), w')
  /\ (forall fields question,
        body event = BodyJson (VDict fields) ->
        dict_get_default fields "question" (VStr "") = VStr question ->
        strip question <> "" -> len (strip question) <= 1000 ->
        Query.lambda_handler env event w
        = (inr (Query.response 404 (dict [("error", VStr "Document not found")])), w'))
  /\ (forall max_length,
        py_int env (default (VInt 500)
                      (VStr <$> params_of (queryStringParameters event) !! "maxLength"))
        = inr max_length ->
        Summarize.lambda_handler env event w
        = (inr (Summarize.response 404 (dict [("error", VStr "Document not found")])),
           w'))
  /\ Documents.get_document_handler env event document_id w
     = (inr (Documents.response 404 (dict [("error", VStr "Document not found")])), w')
  /\ Documents.delete_document_handler env event (Some document_id) w
     = (inr (Documents.response 404 (dict [("error", VStr "Document not found")])), w').
Proof.
  intros Hpath Hid Hread Hnone w'.
  split; [|split; [|split; [|split]]].
  - unfold Extract.handle_api_request. rewrite Hpath, (named document_id Hid).
    cbn [negb]. change (default "" (Some document_id)) with document_id.
    unfold bind at 1, Dynamodb.get_document.
    rewrite get_item_returns by exact Hread. now rewrite Hnone.
  - intros fields question Hbody Hquestion Hfull Hshort.
    rewrite (query_reads env event document_id w Hpath Hid Hread fields question
               Hbody Hquestion Hfull Hshort).
    now rewrite Hnone.
  - intros max_length Hlength.
    rewrite (summarize_found env event document_id w Hpath Hid Hread max_length Hlength).
    now rewrite Hnone.
  - unfold Documents.get_document_handler, bind at 1, Dynamodb.get_document.
    rewrite get_item_returns by exact Hread. now rewrite Hnone.
  - unfold Documents.delete_document_handler. rewrite (named document_id Hid).
    cbn [negb]. change (default "" (Some document_id)) with document_id.
    unfold bind at 1, Dynamodb.get_document.
    rewrite get_item_returns by exact Hread. now rewrite Hnone.
Qed.

Lemma unknown_document_is_not_found_witness :
  Extract.handle_api_request Scenario.env0
    (Scenario.on_document "doc-9" Scenario.no_event) Scenario.alice_world
  = (inr (Extract.response 404 (dict [("error", VStr "Document not found")])),
     record_call (GetItem "doc-9") Scenario.alice_world).
Proof.
  exact (proj1 (unknown_document_is_not_found Scenario.env0
                  (Scenario.on_document "doc-9" Scenario.no_event) "doc-9"
                  Scenario.alice_world eq_refl ltac:(discriminate) eq_refl eq_refl)).
Defined.

(** A document without extracted text (none stored, or an empty one) cannot
    be asked about nor summarized: both handlers answer 400 with the hint to
    extract first, after the one read of the record; the LLM is not
    invoked. *)
Theorem text_is_required env event document_id document w :
  params_of (pathParameters event) !! "documentId" = Some document_id ->
  document_id <> "" ->
  fault env (tick w) = None ->
  table w !! document_id = Some document ->
  truthy (VDict document) = true ->
  truthy (dict_get document "extractedText") = false ->
  let refusal := dict [("error", VStr "Document text has not been extracted yet");
                       ("hint", VStr "Call the extract endpoint first")] in
  let w' := record_call (GetItem document_id) w in
  (forall fields question,
     body event = BodyJson (VDict fields) ->
     dict_get_default fields "question" (VStr "") = VStr question ->
     strip question <> "" -> len (strip question) <= 1000 ->
     Query.lambda_handler env event w = (inr (Query.response 400 refusal), w'))
  /\ (forall max_length,
        py_int env (default (VInt 500)
                      (VStr <$> params_of (queryStringParameters event) !! "maxLength"))
        = inr max_length ->
        Summarize.lambda_handler env event w
        = (inr (Summarize.response 400 refusal), w')).
Proof.
  intros Hpath Hid Hread Hdoc Hfound Hnotext refusal w'. split.
  - intros fields question Hbody Hquestion Hfull Hshort.
    rewrite (query_reads env event document_id w Hpath Hid Hread fields question
               Hbody Hquestion Hfull Hshort).
    rewrite Hdoc. change (default ∅ (Some document)) with document.
    cbv zeta. now rewrite Hfound, Hnotext.
  - intros max_length Hlength.
    rewrite (summarize_found env event document_id w Hpath Hid Hread max_length Hlength).
    rewrite Hdoc. change (default ∅ (Some document)) with document.
    cbv zeta. now rewrite Hfound, Hnotext.
Qed.

Lemma text_is_required_witness :
  Summarize.lambda_handler Scenario.env0 Scenario.summarize_request
    Cases.uploaded_world
  = (inr (Summarize.response 400 (dict
            [("error", VStr "Document text has not been extracted yet");
             ("hint", VStr "Call the extract endpoint first")])),
     record_call (GetItem "doc-1") Cases.uploaded_world).
Proof.
  exact (proj2 (text_is_required Scenario.env0 Scenario.summarize_request "doc-1"
                  Cases.uploaded_document Cases.uploaded_world
                  eq_refl ltac:(discriminate) eq_refl eq_refl eq_refl eq_refl)
           50 eq_refl).
Defined.

(** When the LLM adapter raises, the question is answered 500 with the
    message of the exception, and so is the summary request; the table is as
    it was: no history entry, no summary, no status change. *)
Theorem llm_failure_changes_nothing env event document_id document w :
  params_of (pathParameters event) !! "documentId" = Some document_id ->
  document_id <> "" ->
  fault env (tick w) = None ->
  table w !! document_id = Some document ->
  truthy (dict_get document "extractedText") = true ->
  (forall fields question e,
     body event = BodyJson (VDict fields) ->
     dict_get_default fields "question" (VStr "") = VStr question ->
     strip question <> "" -> len (strip question) <= 1000 ->
     answer_question env (dict_get document "extractedText") (strip question) = inl e ->
     exists w',
       Query.lambda_handler env event w
       = (inr (Query.response 500 (dict
                 [("error", VStr "Query failed"); ("message", VStr (exn_str e))])), w')
       /\ table w' = table w)
  /\ (forall max_length e,
        py_int env (default (VInt 500)
                      (VStr <$> params_of (queryStringParameters event) !! "maxLength"))
        = inr max_length ->
        truthy (dict_get document "summary")
        && negb (Summarize.flag (params_of (queryStringParameters event)) "entities")
        && negb (Summarize.flag (params_of (queryStringParameters event)) "questions")
        = false ->
        summarize_document env (dict_get document "extractedText") max_length = inl e ->
        exists w',
          Summarize.lambda_handler env event w
          = (inr (Summarize.response 500 (dict
                    [("error", VStr "Summarization failed");
                     ("message", VStr (exn_str e))])), w')
          /\ table w' = table w).
Proof.
  intros Hpath Hid Hread Hdoc Htext. split.
  - intros fields question e Hbody Hquestion Hfull Hshort Hfails.
    rewrite (query_reads env event document_id w Hpath Hid Hread fields question
               Hbody Hquestion Hfull Hshort).
    rewrite Hdoc. change (default ∅ (Some document)) with document.
    cbv zeta. rewrite (truthy_lookup _ _ Htext), Htext. cbn [negb].
    unfold try_except, bind at 1, adapter. rewrite Hfails.
    unfold bind, print, ret. eexists. split; reflexivity.
  - intros max_length e Hlength Hfresh Hfails.
    rewrite (summarize_found env event document_id w Hpath Hid Hread max_length Hlength).
    rewrite Hdoc. change (default ∅ (Some document)) with document.
    cbv zeta. rewrite (truthy_lookup _ _ Htext), Htext, Hfresh. cbn [negb].
    unfold try_except, bind at 1, adapter. rewrite Hfails.
    unfold bind, print, ret. eexists. split; reflexivity.
Qed.

Lemma llm_failure_changes_nothing_witness :
  exists w',
    Summarize.lambda_handler Cases.llm_down Scenario.summarize_request
      Scenario.alice_world
    = (inr (Summarize.response 500 (dict
              [("error", VStr "Summarization failed");
               ("message", VStr (exn_str Scenario.AccessDenied))])), w')
    /\ table w' = table Scenario.alice_world.
Proof.
  exact (proj2 (llm_failure_changes_nothing Cases.llm_down Scenario.summarize_request
                  "doc-1" Scenario.alice_document Scenario.alice_world
                  eq_refl ltac:(discriminate) eq_refl eq_refl eq_refl)
           50 Scenario.AccessDenied eq_refl eq_refl eq_refl).
Defined.

(** ** Summaries with entities and questions *)

Section FreshSummary.
Context (env : Env) (event : Event) (document_id : string) (document : Item)
  (w : World) (max_length : Z) (summary : string).
Hypothesis Hpath : params_of (pathParameters event) !! "documentId" = Some document_id.
Hypothesis Hid : document_id <> "".
Hypothesis Hread : fault env (tick w) = None.
Hypothesis Hdoc : table w !! document_id = Some document.
Hypothesis Htext : truthy (dict_get document "extractedText") = true.
Hypothesis Hlength :
  py_int env (default (VInt 500)
                (VStr <$> params_of (queryStringParameters event) !! "maxLength"))
  = inr max_length.
Hypothesis Hfresh :
  truthy (dict_get document "summary")
  && negb (Summarize.flag (params_of (queryStringParameters event)) "entities")
  && negb (Summarize.flag (params_of (queryStringParameters event)) "questions")
  = false.
Hypothesis Hsummary :
  summarize_document env (dict_get document "extractedText") max_length = inr summary.
Hypothesis Hstore : fault env (S (S (tick w))) = None.

(** The handler from the stored summary on: the entities and the questions
    remain to be asked for. *)
Lemma summarize_stores :
  Summarize.lambda_handler env event w
  = let text := dict_get document "extractedText" in
    let query_params := params_of (queryStringParameters event) in
    let w2 := record_call (InvokeSummarize text max_length)
                (record_call (GetItem document_id) w) in
    let stored := with_status env document_id "COMPLETED" [("summary", VStr summary)] w2 in
    try_except
      (let result :=
         [("documentId", VStr document_id);
          ("summary", VStr summary);
          ("wordCount", dict_get_default document "wordCount" (VInt 0));
          ("cached", VBool false)] in
       do result <- (if Summarize.flag query_params "entities" then
                       do entities <- adapter (InvokeEntities text)
                                        (extract_key_entities env text);
                       ret (result ++ [("entities", entities)])%list
                     else ret result);
       do result <- (if Summarize.flag query_params "questions" then
                       do questions <- adapter (InvokeQuestions text 5)
                                         (generate_document_questions env text 5);
                       ret (result ++ [("suggestedQuestions", VList (VStr <$> questions))])%list
                     else ret result);
       ret (Summarize.response 200 (dict result)))
      (fun e =>
         do _ <- print ("Error: " ++ exn_str e);
         ret (Summarize.response 500 (dict
           [("error", VStr "Summarization failed"); ("message", VStr (exn_str e))])))
      (set_table (<[document_id := stored]> (table w))
         (record_call
            (UpdateItem document_id
               (status_actions env "COMPLETED" w2 [("summary", VStr summary)])) w2)).
Proof.
  rewrite (summarize_found env event document_id w Hpath Hid Hread max_length Hlength).
  rewrite Hdoc. change (default ∅ (Some document)) with document.
  cbv zeta. rewrite (truthy_lookup _ _ Htext), Htext, Hfresh. cbn [negb].
  unfold try_except. unfold bind at 1. unfold adapter at 1. rewrite Hsummary.
  unfold bind at 1. unfold Dynamodb.store_summary.
  rewrite update_document_status_returns by exact Hstore.
  reflexivity.
Qed.

End FreshSummary.

(** With a flag set, or no summary stored, the summary is generated anew and
    stored with status COMPLETED, whatever summary the record held; the
    answer carries the new summary with [cached: false], the entities when
    asked for and the suggested questions when asked for.  Entities and
    questions are only returned: the record gains nothing but the summary,
    the status and the time of the update. *)
Theorem summary_is_generated_and_stored
    env event document_id document w max_length summary entities questions :
  let query_params := params_of (queryStringParameters event) in
  let text := dict_get document "extractedText" in
  params_of (pathParameters event) !! "documentId" = Some document_id ->
  document_id <> "" ->
  fault env (tick w) = None ->
  table w !! document_id = Some document ->
  truthy text = true ->
  py_int env (default (VInt 500) (VStr <$> query_params !! "maxLength"))
  = inr max_length ->
  truthy (dict_get document "summary")
  && negb (Summarize.flag query_params "entities")
  && negb (Summarize.flag query_params "questions") = false ->
  summarize_document env text max_length = inr summary ->
  fault env (S (S (tick w))) = None ->
  (Summarize.flag query_params "entities" = true ->
   extract_key_entities env text = inr entities) ->
  (Summarize.flag query_params "questions" = true ->
   generate_document_questions env text 5 = inr questions) ->
  exists w' stamp,
    Summarize.lambda_handler env event w
    = (inr (Summarize.response 200 (dict
              ([("documentId", VStr document_id);
                ("summary", VStr summary);
                ("wordCount", dict_get_default document "wordCount" (VInt 0));
                ("cached", VBool false)]
               ++ (if Summarize.flag query_params "entities"
                   then [("entities", entities)] else [])
               ++ (if Summarize.flag query_params "questions"
                   then [("suggestedQuestions", VList (VStr <$> questions))]
                   else [])))), w')
    /\ table w'
       = <[document_id := <["summary" := VStr summary]>
                            (<["updatedAt" := VStr stamp]>
                               (<["status" := VStr "COMPLETED"]> document))]> (table w).
Proof.
  intros query_params text Hpath Hid Hread Hdoc Htext Hlength Hfresh Hsummary Hstore
    Hentities Hquestions.
  rewrite (summarize_stores env event document_id document w max_length summary
             Hpath Hid Hread Hdoc Htext Hlength Hfresh Hsummary Hstore).
  cbv zeta. fold query_params text.
  unfold with_status, upserted, set_all. cbn [fold_left fst snd].
  repeat change (table (record_call ?c ?w0)) with (table w0). rewrite Hdoc.
  change (default _ (Some document)) with document.
  unfold try_except.
  destruct (Summarize.flag query_params "entities");
    destruct (Summarize.flag query_params "questions");
    unfold bind, adapter, ret;
    rewrite ?(Hentities eq_refl), ?(Hquestions eq_refl);
    eexists _, _; (split; [reflexivity|reflexivity]).
Qed.

Lemma summary_is_generated_and_stored_witness :
  exists w' stamp,
    Summarize.lambda_handler Scenario.env0 Cases.entities_request
      Scenario.summarized_world
    = (inr (Summarize.response 200 (dict
              [("documentId", VStr "doc-1");
               ("summary", VStr "A greeting.");
               ("wordCount", VInt 2);
               ("cached", VBool false);
               ("entities", VDict ∅)])), w')
    /\ table w'
       = <["doc-1" := <["summary" := VStr "A greeting."]>
                        (<["updatedAt" := VStr stamp]>
                           (<["status" := VStr "COMPLETED"]>
                              Scenario.summarized_document))]>
           (table Scenario.summarized_world).
Proof.
  exact (summary_is_generated_and_stored Scenario.env0 Cases.entities_request "doc-1"
           Scenario.summarized_document Scenario.summarized_world 500 "A greeting."
           (VDict ∅) []
           eq_refl ltac:(discriminate) eq_refl eq_refl eq_refl eq_refl eq_refl eq_refl
           eq_refl (fun _ => eq_refl) (fun _ => eq_refl)).
Defined.

(** The summary is stored before the entities and the questions are asked
    for.  When one of these two calls raises, the request is answered 500
    "Summarization failed", yet the record holds the new summary with status
    COMPLETED: the same request without flags is then served from the
    record. *)
Theorem enrichment_failure_keeps_the_summary
    env event document_id document w max_length summary e :
  let query_params := params_of (queryStringParameters event) in
  let text := dict_get document "extractedText" in
  params_of (pathParameters event) !! "documentId" = Some document_id ->
  document_id <> "" ->
  fault env (tick w) = None ->
  table w !! document_id = Some document ->
  truthy text = true ->
  py_int env (default (VInt 500) (VStr <$> query_params !! "maxLength"))
  = inr max_length ->
  summarize_document env text max_length = inr summary ->
  fault env (S (S (tick w))) = None ->
  (Summarize.flag query_params "entities" = true
   /\ extract_key_entities env text = inl e)
  \/ ((Summarize.flag query_params "entities" = true ->
       exists entities, extract_key_entities env text = inr entities)
      /\ Summarize.flag query_params "questions" = true
      /\ generate_document_questions env text 5 = inl e) ->
  exists w' stamp,
    Summarize.lambda_handler env event w
    = (inr (Summarize.response 500 (dict
              [("error", VStr "Summarization failed");
               ("message", VStr (exn_str e))])), w')
    /\ table w'
       = <[document_id := <["summary" := VStr summary]>
                            (<["updatedAt" := VStr stamp]>
                               (<["status" := VStr "COMPLETED"]> document))]> (table w).
Proof.
  intros query_params text Hpath Hid Hread Hdoc Htext Hlength Hsummary Hstore Hfails.
  assert (Hfresh : truthy (dict_get document "summary")
                   && negb (Summarize.flag query_params "entities")
                   && negb (Summarize.flag query_params "questions") = false).
  { destruct Hfails as [[-> _]|(_ & -> & _)]; cbn [negb]; now rewrite ?andb_false_r. }
  rewrite (summarize_stores env event document_id document w max_length summary
             Hpath Hid Hread Hdoc Htext Hlength Hfresh Hsummary Hstore).
  cbv zeta. fold query_params text.
  unfold with_status, upserted, set_all. cbn [fold_left fst snd].
  repeat change (table (record_call ?c ?w0)) with (table w0). rewrite Hdoc.
  change (default _ (Some document)) with document.
  unfold try_except.
  destruct Hfails as [[-> Hfails]|(Hentities & -> & Hfails)].
  - unfold bind, adapter, ret, print. rewrite Hfails.
    eexists _, _; (split; [reflexivity|reflexivity]).
  - destruct (Summarize.flag query_params "entities").
    + destruct (Hentities eq_refl) as [entities ->].
      unfold bind, adapter, ret, print. rewrite Hfails.
      eexists _, _; (split; [reflexivity|reflexivity]).
    + unfold bind, adapter, ret, print. rewrite Hfails.
      eexists _, _; (split; [reflexivity|reflexivity]).
Qed.

Lemma enrichment_failure_keeps_the_summary_witness :
  exists w' stamp,
    Summarize.lambda_handler Cases.enrichment_down Cases.entities_request
      Scenario.summarized_world
    = (inr (Summarize.response 500 (dict
              [("error", VStr "Summarization failed");
               ("message", VStr (exn_str Scenario.AccessDenied))])), w')
    /\ table w'
       = <["doc-1" := <["summary" := VStr "A short greeting."]>
                        (<["updatedAt" := VStr stamp]>
                           (<["status" := VStr "COMPLETED"]>
                              Scenario.summarized_document))]>
           (table Scenario.summarized_world).
Proof.
  exact (enrichment_failure_keeps_the_summary Cases.enrichment_down
           Cases.entities_request "doc-1" Scenario.summarized_document
           Scenario.summarized_world 500 "A short greeting." Scenario.AccessDenied
           eq_refl ltac:(discriminate) eq_refl eq_refl eq_refl eq_refl eq_refl eq_refl
           (or_introl (conj eq_refl eq_refl))).
Defined.

(** ** Batches of storage events *)

Section StorageEvents.
Context (env : Env).

(** One object of a batch, with the table answering: the record ends
    EXTRACTED with the text, or FAILED with the message of what Textract
    raised; the other records are as before. *)
Lemma extract_and_store_runs bucket key document_id w :
  fault env (tick w) = None ->
  fault env (S (S (tick w))) = None ->
  exists item w',
    Extract.extract_and_store env bucket key document_id w = (inr tt, w')
    /\ table w' !! document_id = Some item
    /\ (forall other, other <> document_id -> table w' !! other = table w !! other)
    /\ match extract_text_from_s3 env bucket key with
       | inr result =>
           item !! "status" = Some (VStr "EXTRACTED")
           /\ item !! "extractedText" = Some (VStr (slice_to 50000 (ocr_text result)))
       | inl e =>
           item !! "status" = Some (VStr "FAILED")
           /\ item !! "errorMessage" = Some (VStr (exn_str e))
       end.
Proof.
  intros Hfirst Hsecond. unfold Extract.extract_and_store. unfold bind at 1.
  rewrite update_document_status_returns by exact Hfirst.
  unfold try_except. unfold bind at 1. unfold adapter at 1.
  destruct (extract_text_from_s3 env bucket key) as [e|result].
  - unfold bind, print. cbv beta iota.
    rewrite update_document_status_returns by exact Hsecond.
    eexists _, _. split; [reflexivity|]. cbn [table set_table record_call].
    split; [apply lookup_insert_eq|]. split.
    + intros other Hother. now rewrite !lookup_insert_ne by congruence.
    + split.
      * apply with_status_status. intros kv Hin.
        apply list_elem_of_singleton in Hin as ->. discriminate.
      * unfold with_status, set_all. simpl. apply lookup_insert_eq.
  - unfold bind at 1. unfold Dynamodb.store_extracted_text.
    rewrite update_document_status_returns by exact Hsecond.
    unfold print. eexists _, _. split; [reflexivity|]. cbn [table set_table record_call].
    split; [apply lookup_insert_eq|]. split.
    + intros other Hother. now rewrite !lookup_insert_ne by congruence.
    + split.
      * apply with_status_status. intros kv Hin.
        repeat (apply elem_of_cons in Hin as [->|Hin]; [discriminate|]).
        inversion Hin.
      * unfold with_status, set_all. simpl. by simplify_map_eq.
Qed.

Hypothesis Htable : forall n, fault env n = None.

Lemma process_record_settles record w :
  exists w',
    Extract.process_record env record w = (inr tt, w')
    /\ (forall key, settled (table w) key -> settled (table w') key)
    /\ let parts := split "/" (unquote_plus env (s3_object_key record)) in
       ((4 <= length parts)%nat -> settled (table w') (nth 3 parts "")).
Proof.
  unfold Extract.process_record. unfold bind at 1. unfold print at 1. cbv beta iota zeta.
  destruct (Nat.leb_spec 4 (length (split "/" (unquote_plus env (s3_object_key record)))))
    as [Hlong|Hshort].
  - match goal with |- context [Extract.extract_and_store env ?b ?k ?d ?w0] =>
      destruct (extract_and_store_runs b k d w0 (Htable _) (Htable _))
        as (item & w' & -> & Hitem & Hothers & Hstatus)
    end.
    assert (Hsettled : settled (table w')
              (nth 3 (split "/" (unquote_plus env (s3_object_key record))) "")).
    { exists item. split; [exact Hitem|].
      destruct (extract_text_from_s3 env _ _); [right|left]; apply Hstatus. }
    exists w'. split; [reflexivity|]. split; [|intros _; exact Hsettled].
    intros key Hkey.
    destruct (decide (key = nth 3 (split "/" (unquote_plus env (s3_object_key record))) ""))
      as [->|Hne]; [exact Hsettled|].
    destruct Hkey as (old & Hold & Hstatus_old). exists old. split; [|exact Hstatus_old].
    now rewrite Hothers.
  - unfold print. eexists. split; [reflexivity|]. split; [tauto|]. lia.
Qed.

Lemma for_each_record_settles records : forall w,
  exists w',
    Extract.for_each_record env records w = (inr tt, w')
    /\ (forall key, settled (table w) key -> settled (table w') key)
    /\ forall record, record ∈ records ->
         let parts := split "/" (unquote_plus env (s3_object_key record)) in
         (4 <= length parts)%nat -> settled (table w') (nth 3 parts "").
Proof.
  induction records as [|record rest IH]; intros w.
  - exists w. split; [reflexivity|]. split; [tauto|]. intros record Hin. inversion Hin.
  - destruct (process_record_settles record w) as (w1 & Hrun & Hkeeps & Hrecord).
    destruct (IH w1) as (w' & Hrest & Hkeeps' & Hrecords).
    exists w'. cbn [Extract.for_each_record]. unfold bind. rewrite Hrun.
    split; [exact Hrest|]. split; [intros key Hkey; now apply Hkeeps', Hkeeps|].
    intros record' Hin Hlong.
    apply elem_of_cons in Hin as [->|Hin].
    + apply Hkeeps'. now apply Hrecord.
    + now apply Hrecords.
Qed.

End StorageEvents.

(** As long as the table answers, a batch of storage events is processed to
    its end and answered 200, whatever Textract does on each object: a
    failure of Textract is stored on its record and the loop goes on.  When
    the handler returns, the record of every object whose key has four
    segments or more is EXTRACTED or FAILED; none is left PROCESSING. *)
Theorem batch_survives_ocr_failures env event records w :
  (forall n, fault env n = None) ->
  Records event = Some records ->
  exists w',
    Extract.lambda_handler env event w
    = (inr (MkResponse 200 [] (VStr "Processing complete")), w')
    /\ forall record, record ∈ records ->
         let parts := split "/" (unquote_plus env (s3_object_key record)) in
         (4 <= length parts)%nat -> settled (table w') (nth 3 parts "").
Proof.
  intros Htable Hrecords.
  destruct (for_each_record_settles env Htable records w) as (w' & Hrun & _ & Hsettled).
  exists w'. split; [|exact Hsettled].
  unfold Extract.lambda_handler, try_except. rewrite Hrecords.
  unfold Extract.handle_s3_event, bind. rewrite Hrecords.
  change (default [] (Some records)) with records. now rewrite Hrun.
Qed.

Lemma batch_survives_ocr_failures_witness :
  exists w',
    Extract.lambda_handler Scenario.ocr_down
      (Scenario.s3_event [Scenario.slot_key; "inbox/scan.png"]) Scenario.empty_world
    = (inr (MkResponse 200 [] (VStr "Processing complete")), w')
    /\ forall record,
         record ∈ MkS3Record BUCKET_NAME <$> [Scenario.slot_key; "inbox/scan.png"] ->
         let parts := split "/" (unquote_plus Scenario.ocr_down (s3_object_key record)) in
         (4 <= length parts)%nat -> settled (table w') (nth 3 parts "").
Proof.
  exact (batch_survives_ocr_failures Scenario.ocr_down
           (Scenario.s3_event [Scenario.slot_key; "inbox/scan.png"])
           (MkS3Record BUCKET_NAME <$> [Scenario.slot_key; "inbox/scan.png"])
           Scenario.empty_world (fun _ => eq_refl) eq_refl).
Defined.

(** A failure of the table is not caught by the loop.  When the update to
    PROCESSING of the first object raises, the batch is answered 500 and the
    objects that follow are never looked at: the refused update is the only
    call issued, and the table is as before. *)
Theorem batch_stops_at_a_table_failure env event record rest w e :
  Records event = Some (record :: rest) ->
  let key := unquote_plus env (s3_object_key record) in
  (4 <= length (split "/" key))%nat ->
  fault env (tick w) = Some e ->
  exists w',
    Extract.lambda_handler env event w
    = (inr (Extract.response 500 (dict
              [("error", VStr "Internal server error");
               ("message", VStr (exn_str e))])), w')
    /\ table w' = table w
    /\ trace w'
       = UpdateItem (nth 3 (split "/" key) "") (status_actions env "PROCESSING" w [])
         :: trace w.
Proof.
  intros Hrecords key Hlong Hfault.
  unfold Extract.lambda_handler, try_except. rewrite Hrecords.
  unfold Extract.handle_s3_event. rewrite Hrecords.
  change (default [] (Some (record :: rest))) with (record :: rest).
  cbn [Extract.for_each_record]. unfold bind at 1 2.
  unfold Extract.process_record. fold key. unfold bind at 1. unfold print at 1.
  cbv beta iota zeta.
  destruct (Nat.leb_spec 4 (length (split "/" key))) as [_|]; [|lia].
  unfold Extract.extract_and_store. unfold bind at 1.
  rewrite (update_document_status_raises env _ _ _ _ e) by exact Hfault.
  unfold bind, print, ret. eexists. split; [reflexivity|]. split; reflexivity.
Qed.

Lemma batch_stops_at_a_table_failure_witness :
  exists w',
    Extract.lambda_handler (Scenario.failing_at 0 Scenario.env0)
      (Scenario.s3_event [Scenario.slot_key; "a/b/c/doc-7/scan.png"])
      Scenario.empty_world
    = (inr (Extract.response 500 (dict
              [("error", VStr "Internal server error");
               ("message", VStr (exn_str Scenario.AccessDenied))])), w')
    /\ table w' = table Scenario.empty_world
    /\ trace w'
       = UpdateItem (nth 3 (split "/" Scenario.slot_key) "")
           (status_actions (Scenario.failing_at 0 Scenario.env0) "PROCESSING"
              Scenario.empty_world [])
         :: trace Scenario.empty_world.
Proof.
  exact (batch_stops_at_a_table_failure (Scenario.failing_at 0 Scenario.env0)
           (Scenario.s3_event [Scenario.slot_key; "a/b/c/doc-7/scan.png"])
           (MkS3Record BUCKET_NAME Scenario.slot_key)
           [MkS3Record BUCKET_NAME "a/b/c/doc-7/scan.png"]
           Scenario.empty_world Scenario.AccessDenied
           eq_refl ltac:(vm_compute; lia) eq_refl).
Defined.

(** ** Extraction requests that fail *)

Section FailedExtraction.
Context (env : Env) (event : Event) (document_id : string) (document : Item) (w : World).
Hypothesis Hpath : params_of (pathParameters event) !! "documentId" = Some document_id.
Hypothesis Hid : document_id <> "".
Hypothesis Hdoc : table w !! document_id = Some document.
Hypothesis Hfound : truthy (VDict document) = true.
Hypothesis Hmiss :
  eq_str (dict_get document "status") "EXTRACTED"
  && truthy (dict_get document "extractedText") = false.
Hypothesis Hread : fault env (tick w) = None.
Hypothesis Hupdate : fault env (S (tick w)) = None.

(** The handler from the update to PROCESSING on. *)
Lemma extraction_request_starts :
  Extract.handle_api_request env event w
  = let w1 := record_call (GetItem document_id) w in
    try_except
      (do s3_key <- match document !! "s3Key" with
                    | Some (VStr k) => ret k
                    | Some _ => raise ParamValidationError
                    | None => raise (MkExn KeyError "'s3Key'")
                    end;
       do result <- adapter (DetectDocumentText BUCKET_NAME s3_key)
                      (extract_text_from_s3 env BUCKET_NAME s3_key);
       do _ <- Dynamodb.store_extracted_text env document_id
                 (ocr_text result) (ocr_word_count result) (ocr_confidence result);
       ret (Extract.response 200 (dict
         [("documentId", VStr document_id);
          ("text", VStr (ocr_text result));
          ("wordCount", VInt (ocr_word_count result));
          ("confidence", VFloat (ocr_confidence result));
          ("cached", VBool false)])))
      (fun e =>
         do _ <- Dynamodb.update_document_status env document_id "FAILED"
                   [("errorMessage", VStr (exn_str e))];
         ret (Extract.response 500 (dict
           [("error", VStr "Text extraction failed"); ("message", VStr (exn_str e))])))
      (set_table (<[document_id := with_status env document_id "PROCESSING" [] w1]>
                    (table w))
         (record_call (UpdateItem document_id (status_actions env "PROCESSING" w1 [])) w1)).
Proof.
  unfold Extract.handle_api_request. rewrite Hpath.
  replace (nonempty (Some document_id)) with true
    by (simpl; now destruct (String.eqb_spec document_id "")).
  cbn [negb]. unfold bind at 1. unfold Dynamodb.get_document.
  change (default "" (Some document_id)) with document_id. cbv beta.
  rewrite get_item_returns by exact Hread. rewrite Hdoc.
  change (default ∅ (Some document)) with document.
  rewrite Hfound, Hmiss. cbn [negb].
  unfold bind at 1. rewrite update_document_status_returns by exact Hupdate.
  reflexivity.
Qed.

End FailedExtraction.

(** A record without [s3Key] cannot be extracted on request.  After the read
    the record is moved to PROCESSING; the lookup of the key then raises, and
    the record is moved to FAILED with the name of the missing key as its
    message; the request is answered 500 with that message.  These three
    calls are all there is: Textract is not called.  The record ends as it
    was but for status, [updatedAt] and [errorMessage], and no other record
    changes.  Records created by a storage event for an unknown identifier
    are of this kind. *)
Theorem record_without_key_fails env event document_id document w :
  params_of (pathParameters event) !! "documentId" = Some document_id ->
  document_id <> "" ->
  table w !! document_id = Some document ->
  truthy (VDict document) = true ->
  eq_str (dict_get document "status") "EXTRACTED"
  && truthy (dict_get document "extractedText") = false ->
  document !! "s3Key" = None ->
  fault env (tick w) = None ->
  fault env (S (tick w)) = None ->
  fault env (S (S (tick w))) = None ->
  let started := VStr (isoformat (utcnow env (S (tick w)))) in
  let stopped := VStr (isoformat (utcnow env (S (S (tick w))))) in
  exists w',
    Extract.handle_api_request env event w
    = (inr (Extract.response 500 (dict
              [("error", VStr "Text extraction failed");
               ("message", VStr "'s3Key'")])), w')
    /\ trace w'
       = UpdateItem document_id
           [SetAttr "status" (VStr "FAILED"); SetAttr "updatedAt" stopped;
            SetAttr "errorMessage" (VStr "'s3Key'")]
         :: UpdateItem document_id
              [SetAttr "status" (VStr "PROCESSING"); SetAttr "updatedAt" started]
         :: GetItem document_id :: trace w
    /\ table w'
       = <[document_id :=
             <["errorMessage" := VStr "'s3Key'"]>
               (<["updatedAt" := stopped]>
                  (<["status" := VStr "FAILED"]>
                     (<["updatedAt" := started]>
                        (<["status" := VStr "PROCESSING"]> document))))]>
           (table w).
Proof.
  intros Hpath Hid Hdoc Hfound Hmiss Hkey Hread Hupdate Hfailed started stopped.
  rewrite (extraction_request_starts env event document_id document w
             Hpath Hid Hdoc Hfound Hmiss Hread Hupdate).
  cbv zeta. rewrite Hkey. unfold try_except. unfold bind at 1. unfold raise at 1.
  unfold bind at 1. rewrite update_document_status_returns by exact Hfailed.
  eexists. split; [reflexivity|]. cbn [table set_table record_call trace].
  split; [reflexivity|].
  rewrite insert_insert_eq.
  unfold with_status, upserted, set_all.
  cbn [fold_left fst snd table set_table record_call].
  rewrite lookup_insert_eq, Hdoc. reflexivity.
Qed.

Lemma record_without_key_fails_witness :
  exists w',
    Extract.handle_api_request Scenario.env0
      (Scenario.on_document "01" Scenario.no_event) Cases.stub_world
    = (inr (Extract.response 500 (dict
              [("error", VStr "Text extraction failed");
               ("message", VStr "'s3Key'")])), w')
    /\ trace w'
       = UpdateItem "01"
           [SetAttr "status" (VStr "FAILED");
            SetAttr "updatedAt"
              (VStr (isoformat (utcnow Scenario.env0 (S (S (tick Cases.stub_world))))));
            SetAttr "errorMessage" (VStr "'s3Key'")]
         :: UpdateItem "01"
              [SetAttr "status" (VStr "PROCESSING");
               SetAttr "updatedAt"
                 (VStr (isoformat (utcnow Scenario.env0 (S (tick Cases.stub_world)))))]
         :: GetItem "01" :: trace Cases.stub_world
    /\ table w'
       = <["01" :=
             <["errorMessage" := VStr "'s3Key'"]>
               (<["updatedAt" :=
                    VStr (isoformat
                            (utcnow Scenario.env0 (S (S (tick Cases.stub_world)))))]>
                  (<["status" := VStr "FAILED"]>
                     (<["updatedAt" :=
                          VStr (isoformat
                                  (utcnow Scenario.env0 (S (tick Cases.stub_world))))]>
                        (<["status" := VStr "PROCESSING"]> Cases.stub))))]>
           (table Cases.stub_world).
Proof.
  exact (record_without_key_fails Scenario.env0
           (Scenario.on_document "01" Scenario.no_event) "01" Cases.stub
           Cases.stub_world eq_refl ltac:(discriminate) eq_refl eq_refl eq_refl
           eq_refl eq_refl eq_refl eq_refl).
Defined.

(** PROCESSING can be where a record stays.  When Textract raises and the
    update to FAILED is refused by the table as well, the exception leaves
    the handler, the request is answered 500 "Internal server error", and the
    record keeps the status PROCESSING it was given first. *)
Theorem refused_failure_leaves_processing env event document_id document key w e e' :
  Records event = None ->
  params_of (pathParameters event) !! "documentId" = Some document_id ->
  document_id <> "" ->
  table w !! document_id = Some document ->
  truthy (VDict document) = true ->
  eq_str (dict_get document "status") "EXTRACTED"
  && truthy (dict_get document "extractedText") = false ->
  document !! "s3Key" = Some (VStr key) ->
  fault env (tick w) = None ->
  fault env (S (tick w)) = None ->
  extract_text_from_s3 env BUCKET_NAME key = inl e ->
  fault env (S (S (S (tick w)))) = Some e' ->
  exists item w',
    Extract.lambda_handler env event w
    = (inr (Extract.response 500 (dict
              [("error", VStr "Internal server error");
               ("message", VStr (exn_str e'))])), w')
    /\ table w' !! document_id = Some item
    /\ item !! "status" = Some (VStr "PROCESSING").
Proof.
  intros Hapi Hpath Hid Hdoc Hfound Hmiss Hkey Hread Hupdate Hocr Hfailed.
  unfold Extract.lambda_handler. rewrite Hapi. unfold try_except at 1.
  rewrite (extraction_request_starts env event document_id document w
             Hpath Hid Hdoc Hfound Hmiss Hread Hupdate).
  cbv zeta. rewrite Hkey. unfold try_except. unfold bind at 1. unfold ret at 1.
  unfold bind at 1. unfold adapter at 1. rewrite Hocr.
  unfold bind at 1.
  rewrite (update_document_status_raises env _ _ _ _ e') by exact Hfailed.
  unfold bind, print, ret. eexists _, _. split; [reflexivity|].
  cbn [table set_table record_call].
  split; [apply lookup_insert_eq|].
  apply with_status_status. intros kv Hin. inversion Hin.
Qed.

Lemma refused_failure_leaves_processing_witness :
  exists item w',
    Extract.lambda_handler (Scenario.failing_at 3 Scenario.ocr_down)
      (Scenario.on_document "doc-1" Scenario.no_event) Cases.uploaded_world
    = (inr (Extract.response 500 (dict
              [("error", VStr "Internal server error");
               ("message", VStr (exn_str Scenario.AccessDenied))])), w')
    /\ table w' !! "doc-1" = Some item
    /\ item !! "status" = Some (VStr "PROCESSING").
Proof.
  exact (refused_failure_leaves_processing (Scenario.failing_at 3 Scenario.ocr_down)
           (Scenario.on_document "doc-1" Scenario.no_event) "doc-1"
           Cases.uploaded_document "documents/alice/2024/01/15/doc-1/report.pdf"
           Cases.uploaded_world Scenario.AccessDenied Scenario.AccessDenied
           eq_refl eq_refl ltac:(discriminate) eq_refl eq_refl eq_refl eq_refl
           eq_refl eq_refl eq_refl eq_refl).
Defined.

(** ** utils/textract.py: what is read off the blocks *)

Section Blocks.
Import Textract.

Lemma text_of_some b t : Text b = Some t -> text_of b = inr t.
Proof. unfold text_of. now intros ->. Qed.

Lemma text_of_none b : Text b = None -> text_of b = inl (MkExn KeyError "'Text'").
Proof. unfold text_of. now intros ->. Qed.

Lemma gather_reads blocks : forall lines words,
  (forall b, b ∈ blocks -> BlockType b = "LINE" \/ BlockType b = "WORD" ->
             is_Some (Text b)) ->
  gather blocks lines words
  = inr (lines ++ omap Text (filter (fun b => BlockType b = "LINE") blocks),
         words ++ omap Text (filter (fun b => BlockType b = "WORD") blocks))%list.
Proof.
  induction blocks as [|b blocks IH]; intros lines words Htexts.
  - cbn. now rewrite !app_nil_r.
  - assert (Hrest : forall b', b' ∈ blocks ->
              BlockType b' = "LINE" \/ BlockType b' = "WORD" -> is_Some (Text b')).
    { intros b' Hin. apply Htexts. now right. }
    cbn [gather]. rewrite !filter_cons.
    destruct (String.eqb_spec (BlockType b) "LINE") as [Hline|Hline].
    + destruct (Htexts b ltac:(now left) (or_introl Hline)) as [t Ht].
      rewrite (text_of_some b t Ht), IH by exact Hrest.
      rewrite decide_True by exact Hline.
      rewrite decide_False by (rewrite Hline; discriminate).
      cbn [omap list_omap]. rewrite Ht. cbn [omap list_omap]. now rewrite <- app_assoc.
    + rewrite decide_False by exact Hline.
      destruct (String.eqb_spec (BlockType b) "WORD") as [Hword|Hword].
      * destruct (Htexts b ltac:(now left) (or_intror Hword)) as [t Ht].
        rewrite (text_of_some b t Ht), IH by exact Hrest.
        rewrite decide_True by exact Hword.
        cbn [omap list_omap]. rewrite Ht. cbn [omap list_omap]. now rewrite <- app_assoc.
      * rewrite decide_False by exact Hword. now apply IH.
Qed.

Lemma gather_raises blocks : forall lines words,
  (exists b, b ∈ blocks /\ (BlockType b = "LINE" \/ BlockType b = "WORD")
             /\ Text b = None) ->
  gather blocks lines words = inl (MkExn KeyError "'Text'").
Proof.
  induction blocks as [|b blocks IH]; intros lines words (b' & Hin & Htype & Hnone).
  - inversion Hin.
  - cbn [gather]. apply elem_of_cons in Hin as [<-|Hin].
    + rewrite (text_of_none b' Hnone).
      destruct Htype as [->| ->]; reflexivity.
    + assert (Hrest : exists b, b ∈ blocks
                /\ (BlockType b = "LINE" \/ BlockType b = "WORD") /\ Text b = None)
        by now exists b'.
      destruct (Text b) as [t|] eqn:Hb;
        [rewrite (text_of_some _ _ Hb) | rewrite (text_of_none _ Hb)];
        destruct (String.eqb (BlockType b) "LINE"), (String.eqb (BlockType b) "WORD");
        try reflexivity; apply IH; exact Hrest.
Qed.

Lemma texts_of_all blocks :
  (forall b, b ∈ blocks -> is_Some (Text b)) ->
  length (omap Text blocks) = length blocks.
Proof.
  induction blocks as [|b blocks IH]; intros Htexts; [reflexivity|].
  destruct (Htexts b ltac:(now left)) as [t Ht]. cbn. rewrite Ht. cbn.
  f_equal. apply IH. intros b' Hin. apply Htexts. now right.
Qed.

End Blocks.

(** The OCR result is read off the blocks Textract answers.  When every LINE
    and WORD block carries its text, the text is the LINE texts joined by
    newlines, in the order of the blocks; the line count and the word count
    are the numbers of LINE and of WORD blocks, so the word count does not
    depend on the text.  A LINE or WORD block without text makes the adapter
    raise [KeyError]. *)
Theorem ocr_result_counts_blocks detect bucket key blocks :
  detect bucket key = inr blocks ->
  let lines := filter (fun b => Textract.BlockType b = "LINE") blocks in
  let words := filter (fun b => Textract.BlockType b = "WORD") blocks in
  Textract.extract_text_from_s3 detect bucket key
  = if decide (Forall (fun b => is_Some (Textract.Text b)) (lines ++ words)%list)
    then inr (MkOcr (join newline (omap Textract.Text lines))
                (Z.of_nat (length lines)) (Z.of_nat (length words))
                (Textract._calculate_average_confidence blocks))
    else inl (MkExn KeyError "'Text'").
Proof.
  intros Hdetect lines words.
  unfold Textract.extract_text_from_s3. rewrite Hdetect.
  destruct (decide _) as [Htexts|Hnone].
  - apply Forall_app in Htexts as [Hlines Hwords].
    rewrite Forall_forall in Hlines, Hwords.
    rewrite (gather_reads blocks [] []).
    + cbn [app]. fold lines words. now rewrite !texts_of_all.
    + intros b Hin [Hline|Hword]; [apply Hlines|apply Hwords];
        now apply list_elem_of_filter.
  - apply not_Forall_Exists in Hnone; [|intros b; apply _].
    apply Exists_exists in Hnone as (b & Hin & Hnone).
    rewrite (gather_raises blocks [] []); [reflexivity|].
    exists b. apply eq_None_not_Some in Hnone.
    apply elem_of_app in Hin as [Hin|Hin];
      apply list_elem_of_filter in Hin as [Htype Hin]; auto.
Qed.

Lemma ocr_result_counts_blocks_witness :
  Textract.extract_text_from_s3 Cases.detect "documind-documents" "scan.png"
  = inr (MkOcr ("Hello" ++ newline ++ "world") 2 3
           (Textract._calculate_average_confidence Cases.page)).
Proof.
  exact (ocr_result_counts_blocks Cases.detect "documind-documents" "scan.png"
           Cases.page eq_refl).
Defined.

Lemma analyze_blocks_forms all_blocks blocks : forall lines pairs lines' pairs',
  Textract.analyze_blocks all_blocks blocks lines pairs = inr (lines', pairs') ->
  Forall (fun kv => fst kv <> "") pairs ->
  Forall (fun kv => fst kv <> "") pairs'
  /\ (length pairs'
      <= length pairs
         + length (filter (fun b => Textract.BlockType b = "KEY_VALUE_SET") blocks))%nat.
Proof.
  induction blocks as [|b blocks IH]; intros lines pairs lines' pairs' Hrun Hkeys.
  - injection Hrun as <- <-. split; [exact Hkeys|]. cbn. lia.
  - cbn [Textract.analyze_blocks] in Hrun. rewrite filter_cons.
    destruct (String.eqb_spec (Textract.BlockType b) "LINE") as [Hline|Hline].
    { rewrite decide_False by (rewrite Hline; discriminate).
      destruct (Textract.text_of b); [discriminate|]. now apply IH in Hrun. }
    destruct (String.eqb_spec (Textract.BlockType b) "KEY_VALUE_SET") as [Hkv|Hkv].
    2: { rewrite decide_False by exact Hkv. now apply IH in Hrun. }
    rewrite decide_True by exact Hkv. cbn [length].
    destruct (bool_decide _).
    2: { apply IH in Hrun as [? ?]; [|exact Hkeys]. split; [assumption|lia]. }
    destruct (String.eqb_spec (Textract._get_text_from_block b all_blocks) "")
      as [Hempty|Hfull]; cbn [negb] in Hrun.
    { apply IH in Hrun as [? ?]; [|exact Hkeys]. split; [assumption|lia]. }
    apply IH in Hrun as [? Hlen].
    + split; [assumption|]. rewrite length_app in Hlen. cbn in Hlen. lia.
    + apply Forall_app. split; [exact Hkeys|]. now constructor.
Qed.

(** The analysis of a document reports its text and its form fields only:
    the tables and the signatures are empty whatever features were asked
    for.  Every reported field has a non-empty key, and there are at most
    as many fields as KEY_VALUE_SET blocks. *)
Theorem analysis_reports_forms_only analyze bucket key feature_types analysis :
  Textract.analyze_document_s3 analyze bucket key feature_types = inr analysis ->
  Textract.an_tables analysis = []
  /\ Textract.an_signatures analysis = []
  /\ Forall (fun kv => fst kv <> "") (Textract.an_forms analysis)
  /\ exists blocks,
       analyze bucket key (default ["TABLES"; "FORMS"] feature_types) = inr blocks
       /\ (length (Textract.an_forms analysis)
           <= length (filter (fun b => Textract.BlockType b = "KEY_VALUE_SET") blocks))%nat.
Proof.
  unfold Textract.analyze_document_s3. cbv zeta.
  destruct (analyze bucket key _) as [e|blocks]; [discriminate|].
  destruct (Textract.analyze_blocks blocks blocks [] []) as [e|[lines pairs]] eqn:Hrun;
    [discriminate|].
  intros [= <-]. cbn.
  apply analyze_blocks_forms in Hrun as [Hkeys Hlen]; [|constructor].
  repeat split; try exact Hkeys. now exists blocks.
Qed.

Lemma analysis_reports_forms_only_witness :
  Textract.an_tables (Textract.MkAnalysis "Name: Alice" [] [("Name:", "Alice")] []) = []
  /\ Textract.an_signatures (Textract.MkAnalysis "Name: Alice" [] [("Name:", "Alice")] [])
     = []
  /\ Forall (fun kv => fst kv <> "")
       (Textract.an_forms (Textract.MkAnalysis "Name: Alice" [] [("Name:", "Alice")] []))
  /\ exists blocks,
       Cases.analyze "documind-documents" "form.png"
         (default ["TABLES"; "FORMS"] (Some ["TABLES"])) = inr blocks
       /\ (length (Textract.an_forms
                     (Textract.MkAnalysis "Name: Alice" [] [("Name:", "Alice")] []))
           <= length (filter (fun b => Textract.BlockType b = "KEY_VALUE_SET") blocks))%nat.
Proof.
  exact (analysis_reports_forms_only Cases.analyze "documind-documents" "form.png"
           (Some ["TABLES"]) (Textract.MkAnalysis "Name: Alice" [] [("Name:", "Alice")] [])
           eq_refl).
Defined.

(** ** A page without lines *)

Lemma no_lines blocks :
  (forall b, b ∈ blocks -> Textract.BlockType b <> "LINE") ->
  filter (fun b => Textract.BlockType b = "LINE") blocks = [].
Proof.
  induction blocks as [|b blocks IH]; intros Hnone; [reflexivity|].
  rewrite filter_cons, decide_False by (apply Hnone; now left).
  apply IH. intros b' Hin. apply Hnone. now right.
Qed.

(** When Textract finds no LINE block on the page, the extraction request
    succeeds with an empty text and the record is EXTRACTED with
    [extractedText] empty.  Such a record counts as not extracted everywhere
    else: a summarize request on it is refused with "Document text has not
    been extracted yet", as is a question, and the next extraction request
    is not served from the record. *)
Theorem page_without_lines_is_extracted_in_vain
    env detect event document_id document key blocks w :
  params_of (pathParameters event) !! "documentId" = Some document_id ->
  document_id <> "" ->
  table w !! document_id = Some document ->
  truthy (VDict document) = true ->
  eq_str (dict_get document "status") "EXTRACTED"
  && truthy (dict_get document "extractedText") = false ->
  document !! "s3Key" = Some (VStr key) ->
  fault env (tick w) = None ->
  fault env (S (tick w)) = None ->
  fault env (S (S (S (tick w)))) = None ->
  detect BUCKET_NAME key = inr blocks ->
  (forall b, b ∈ blocks -> Textract.BlockType b <> "LINE") ->
  (forall b, b ∈ blocks -> Textract.BlockType b = "WORD" -> is_Some (Textract.Text b)) ->
  exists item w',
    Extract.handle_api_request
      (Scenario.with_ocr (Textract.extract_text_from_s3 detect) env) event w
    = (inr (Extract.response 200 (dict
              [("documentId", VStr document_id);
               ("text", VStr "");
               ("wordCount",
                VInt (Z.of_nat (length (filter (fun b => Textract.BlockType b = "WORD")
                                          blocks))));
               ("confidence", VFloat (Textract._calculate_average_confidence blocks));
               ("cached", VBool false)])), w')
    /\ table w' !! document_id = Some item
    /\ item !! "status" = Some (VStr "EXTRACTED")
    /\ item !! "extractedText" = Some (VStr "")
    /\ eq_str (dict_get item "status") "EXTRACTED"
       && truthy (dict_get item "extractedText") = false
    /\ forall env' event' max_length,
         params_of (pathParameters event') !! "documentId" = Some document_id ->
         fault env' (tick w') = None ->
         py_int env' (default (VInt 500)
                        (VStr <$> params_of (queryStringParameters event') !! "maxLength"))
         = inr max_length ->
         Summarize.lambda_handler env' event' w'
         = (inr (Summarize.response 400 (dict
                   [("error", VStr "Document text has not been extracted yet");
                    ("hint", VStr "Call the extract endpoint first")])),
            record_call (GetItem document_id) w').
Proof.
  intros Hpath Hid Hdoc Hfound Hmiss Hkey Hread Hupdate Hstore Hdetect Hnone Hwords.
  rewrite (extraction_request_fresh
             (Scenario.with_ocr (Textract.extract_text_from_s3 detect) env)
             event document_id document w Hpath Hid Hdoc Hfound Hread key Hmiss Hkey
             Hupdate Hstore).
  cbv zeta. rewrite (update_document_status_returns _ _ "PROCESSING") by exact Hupdate.
  cbn [snd extract_text_from_s3 Scenario.with_ocr].
  unfold Textract.extract_text_from_s3. rewrite Hdetect.
  rewrite (gather_reads blocks [] []).
  2: { intros b Hin [Hline|Hword]; [now apply Hnone in Hline|now apply Hwords]. }
  rewrite (no_lines blocks Hnone). cbn [app omap list_omap join length ocr_text
    ocr_word_count ocr_confidence].
  rewrite texts_of_all.
  2: { intros b Hin. apply list_elem_of_filter in Hin as [Hword Hin]. now apply Hwords. }
  unfold Dynamodb.store_extracted_text.
  rewrite update_document_status_returns by exact Hstore.
  eexists _, _. split; [reflexivity|]. cbn [snd table set_table record_call].
  split; [apply lookup_insert_eq|].
  unfold with_status, set_all. cbn [fold_left fst snd slice_to].
  split; [by simplify_map_eq|]. split; [by simplify_map_eq|].
  split.
  { unfold dict_get. rewrite (lookup_insert_ne _ "textLength" "extractedText")
      by discriminate.
    rewrite (lookup_insert_ne _ "ocrConfidence" "extractedText") by discriminate.
    rewrite (lookup_insert_ne _ "wordCount" "extractedText") by discriminate.
    rewrite lookup_insert_eq. apply andb_false_r. }
  intros env' event' max_length Hpath' Hread' Hlength.
  rewrite (summarize_found env' event' document_id _ Hpath' Hid Hread' max_length Hlength).
  cbn [table set_table record_call]. rewrite lookup_insert_eq.
  match goal with |- context [default ∅ (Some ?it)] =>
    change (default ∅ (Some it)) with it end.
  cbv zeta.
  match goal with |- context [truthy (VDict ?it)] =>
    replace (truthy (VDict it)) with true
      by (symmetry; apply negb_true_iff, bool_decide_eq_false_2, insert_non_empty)
  end.
  cbn [negb].
  unfold dict_get at 1. rewrite (lookup_insert_ne _ "textLength" "extractedText")
    by discriminate.
  rewrite (lookup_insert_ne _ "ocrConfidence" "extractedText") by discriminate.
  rewrite (lookup_insert_ne _ "wordCount" "extractedText") by discriminate.
  rewrite lookup_insert_eq. reflexivity.
Qed.

Lemma page_without_lines_is_extracted_in_vain_witness :
  exists item w',
    Extract.handle_api_request
      (Scenario.with_ocr (Textract.extract_text_from_s3 Cases.detect_blank) Scenario.env0)
      (Scenario.on_document "doc-1" Scenario.no_event) Cases.uploaded_world
    = (inr (Extract.response 200 (dict
              [("documentId", VStr "doc-1");
               ("text", VStr "");
               ("wordCount",
                VInt (Z.of_nat (length (filter (fun b => Textract.BlockType b = "WORD")
                                          Cases.blank_page))));
               ("confidence",
                VFloat (Textract._calculate_average_confidence Cases.blank_page));
               ("cached", VBool false)])), w')
    /\ table w' !! "doc-1" = Some item
    /\ item !! "status" = Some (VStr "EXTRACTED")
    /\ item !! "extractedText" = Some (VStr "")
    /\ eq_str (dict_get item "status") "EXTRACTED"
       && truthy (dict_get item "extractedText") = false
    /\ forall env' event' max_length,
         params_of (pathParameters event') !! "documentId" = Some "doc-1" ->
         fault env' (tick w') = None ->
         py_int env' (default (VInt 500)
                        (VStr <$> params_of (queryStringParameters event') !! "maxLength"))
         = inr max_length ->
         Summarize.lambda_handler env' event' w'
         = (inr (Summarize.response 400 (dict
                   [("error", VStr "Document text has not been extracted yet");
                    ("hint", VStr "Call the extract endpoint first")])),
            record_call (GetItem "doc-1") w').
Proof.
  refine (page_without_lines_is_extracted_in_vain Scenario.env0 Cases.detect_blank
            (Scenario.on_document "doc-1" Scenario.no_event) "doc-1"
            Cases.uploaded_document "documents/alice/2024/01/15/doc-1/report.pdf"
            Cases.blank_page Cases.uploaded_world
            eq_refl ltac:(discriminate) eq_refl eq_refl eq_refl eq_refl eq_refl eq_refl
            eq_refl eq_refl _ _);
    intros b Hin; apply list_elem_of_singleton in Hin as ->; simpl; discriminate.
Defined.

(** ** utils/bedrock.py: what is read off the model's response *)

Lemma len_app a b : len (a ++ b) = len a + len b.
Proof.
  unfold len. induction a as [|c a IH]; [reflexivity|].
  change (String c a ++ b)%string with (String c (a ++ b)).
  cbn [String.length]. lia.
Qed.

Lemma len_nonneg s : 0 <= len s.
Proof. unfold len. lia. Qed.

Lemma find_absent c s : contains c s = false -> find c s = -1.
Proof.
  induction s as [|c' s IH]; [reflexivity|]. cbn [contains find].
  intros [Hhead Htail]%orb_false_iff. now rewrite Hhead, IH.
Qed.

Lemma find_first c pre rest :
  contains c pre = false -> find c (pre ++ String c rest) = len pre.
Proof.
  induction pre as [|c' pre IH]; cbn [contains].
  - intros _. change ("" ++ String c rest)%string with (String c rest).
    cbn [find]. now rewrite Ascii.eqb_refl.
  - intros [Hhead Htail]%orb_false_iff.
    change (String c' pre ++ String c rest)%string with (String c' (pre ++ String c rest)).
    cbn [find]. rewrite Hhead, IH by exact Htail.
    destruct (Z.ltb_spec (len pre) 0) as [Hneg|_]; [pose proof (len_nonneg pre); lia|].
    unfold len. cbn [String.length]. lia.
Qed.

Lemma rfind_absent c s : contains c s = false -> rfind c s = -1.
Proof.
  induction s as [|c' s IH]; [reflexivity|]. cbn [contains rfind].
  intros [Hhead Htail]%orb_false_iff. now rewrite Hhead, IH.
Qed.

Lemma rfind_last c s post :
  contains c post = false -> rfind c (s ++ String c post) = len s.
Proof.
  intros Hpost. induction s as [|c' s IH].
  - change ("" ++ String c post)%string with (String c post).
    cbn [rfind]. rewrite (rfind_absent c post Hpost).
    cbn [Z.leb Z.compare]. now rewrite Ascii.eqb_refl.
  - change (String c' s ++ String c post)%string with (String c' (s ++ String c post)).
    cbn [rfind]. rewrite IH.
    destruct (Z.leb_spec 0 (len s)) as [_|Hneg]; [|pose proof (len_nonneg s); lia].
    unfold len. cbn [String.length]. lia.
Qed.

Lemma slice_from_app pre rest : slice_from (len pre) (pre ++ rest) = rest.
Proof.
  induction pre as [|c pre IH].
  - cbn. destruct rest; reflexivity.
  - change (String c pre ++ rest)%string with (String c (pre ++ rest)).
    cbn [slice_from].
    destruct (Z.leb_spec (len (String c pre)) 0) as [Hneg|_].
    { pose proof (len_nonneg pre). unfold len in *. cbn [String.length] in Hneg. lia. }
    replace (len (String c pre) - 1) with (len pre)
      by (unfold len; cbn [String.length]; lia).
    exact IH.
Qed.

Lemma slice_to_app s post : slice_to (len s) (s ++ post) = s.
Proof.
  induction s as [|c s IH].
  - cbn. destruct post; reflexivity.
  - change (String c s ++ post)%string with (String c (s ++ post)).
    cbn [slice_to].
    destruct (Z.leb_spec (len (String c s)) 0) as [Hneg|_].
    { pose proof (len_nonneg s). unfold len in *. cbn [String.length] in Hneg. lia. }
    replace (len (String c s) - 1) with (len s)
      by (unfold len; cbn [String.length]; lia).
    now rewrite IH.
Qed.

(** The entities are the JSON object cut out of the model's response, from
    its first opening brace to its last closing brace: what the model writes
    before and after the object is ignored.  When the object does not parse,
    the raw response is returned in its place; malformed JSON is never an
    error for the caller. *)
Theorem entities_are_cut_out_of_the_response
    invoke_claude json_loads text pre object post :
  let response := (pre ++ "{" ++ object ++ "}" ++ post)%string in
  invoke_claude (Bedrock.entities_prompt text) Bedrock.entities_system_prompt 0.1%float
  = inr response ->
  contains "{" pre = false ->
  contains "}" post = false ->
  Bedrock.extract_key_entities invoke_claude json_loads text
  = match json_loads ("{" ++ object ++ "}")%string with
    | inr entities => inr entities
    | inl e =>
        if is_JSONDecodeError e then inr (dict [("raw_response", VStr response)])
        else inl e
    end.
Proof.
  intros response Hinvoke Hpre Hpost.
  unfold Bedrock.extract_key_entities. rewrite Hinvoke.
  unfold Bedrock.entities_of.
  assert (Hstart : find "{" response = len pre) by (apply find_first; exact Hpre).
  assert (Hstop : rfind "}" response = len pre + 1 + len object).
  { unfold response.
    replace (pre ++ "{" ++ object ++ "}" ++ post)%string
      with ((pre ++ String "{" object) ++ String "}" post)%string.
    - rewrite rfind_last by exact Hpost. rewrite len_app.
      unfold len at 2. cbn [String.length]. unfold len. lia.
    - exact (append_assoc pre (String "{" object) (String "}" post)). }
  rewrite Hstart, Hstop. cbv zeta.
  pose proof (len_nonneg pre). pose proof (len_nonneg object).
  destruct (Z.eqb_spec (len pre) (-1)) as [?|_]; [lia|].
  destruct (Z.ltb_spec (len pre) (len pre + 1 + len object + 1)) as [_|?]; [|lia].
  cbn [negb andb]. unfold slice. unfold response. rewrite slice_from_app.
  replace (len pre + 1 + len object + 1 - len pre) with (len ("{" ++ object ++ "}"))
    by (rewrite (len_app "{"), len_app; unfold len; cbn [String.length]; lia).
  replace ("{" ++ object ++ "}" ++ post)%string
    with (("{" ++ object ++ "}") ++ post)%string
    by (change (("{" ++ object ++ "}") ++ post)%string
          with (String "{" ((object ++ "}") ++ post));
        now rewrite (append_assoc object "}" post)).
  rewrite slice_to_app.
  destruct (json_loads _) as [e|entities]; [|reflexivity].
  now destruct (is_JSONDecodeError e).
Qed.

Lemma entities_are_cut_out_of_the_response_witness :
  Bedrock.extract_key_entities (Cases.claude_says "Here you go: {} I hope it helps.")
    Cases.loads_empty_object "Hello world"
  = inr (VDict ∅).
Proof.
  exact (entities_are_cut_out_of_the_response
           (Cases.claude_says "Here you go: {} I hope it helps.") Cases.loads_empty_object
           "Hello world" "Here you go: " "" " I hope it helps."
           eq_refl eq_refl eq_refl).
Defined.

Lemma find_from c s : find c s = -1 \/ 0 <= find c s.
Proof.
  induction s as [|c' s IH]; [now left|]. cbn [find].
  destruct (Ascii.eqb c' c); [right; lia|].
  destruct (Z.ltb_spec (find c s) 0); [now left|right; lia].
Qed.

(** A response without an opening or without a closing brace is returned
    raw, under the key [raw_response]; [json.loads] is not consulted. *)
Theorem entities_without_an_object invoke_claude json_loads text response :
  invoke_claude (Bedrock.entities_prompt text) Bedrock.entities_system_prompt 0.1%float
  = inr response ->
  contains "{" response = false \/ contains "}" response = false ->
  Bedrock.extract_key_entities invoke_claude json_loads text
  = inr (dict [("raw_response", VStr response)]).
Proof.
  intros Hinvoke Hbraces.
  unfold Bedrock.extract_key_entities. rewrite Hinvoke.
  unfold Bedrock.entities_of. cbv zeta.
  destruct Hbraces as [Hopen|Hclose].
  - now rewrite (find_absent _ _ Hopen).
  - rewrite (rfind_absent _ _ Hclose).
    destruct (find_from "{" response) as [->|Hfrom]; [reflexivity|].
    destruct (Z.ltb_spec (find "{" response) (-1 + 1)) as [?|_]; [lia|].
    now rewrite andb_false_r.
Qed.

Lemma entities_without_an_object_witness :
  Bedrock.extract_key_entities (Cases.claude_says "I found no entities.")
    (fun _ => inr VNone) "Hello world"
  = inr (dict [("raw_response", VStr "I found no entities.")]).
Proof.
  exact (entities_without_an_object (Cases.claude_says "I found no entities.")
           (fun _ => inr VNone) "Hello world" "I found no entities."
           eq_refl (or_introl eq_refl)).
Defined.

Lemma lower_app a b : lower (a ++ b) = (lower a ++ lower b)%string.
Proof.
  induction a as [|c a IH]; [reflexivity|].
  change (String c a ++ b)%string with (String c (a ++ b)). cbn [lower].
  change (String (lower_char c) (lower a) ++ lower b)%string
    with (String (lower_char c) (lower a ++ lower b)).
  now rewrite IH.
Qed.

Lemma startswith_app needle rest : startswith needle (needle ++ rest) = true.
Proof.
  induction needle as [|c needle IH]; [reflexivity|].
  change (String c needle ++ rest)%string with (String c (needle ++ rest)).
  cbn [startswith]. now rewrite Ascii.eqb_refl, IH.
Qed.

Lemma is_infix_app needle pre post : is_infix needle (pre ++ needle ++ post) = true.
Proof.
  induction pre as [|c pre IH].
  - change ("" ++ needle ++ post)%string with (needle ++ post)%string.
    destruct (needle ++ post)%string eqn:Hhay; cbn [is_infix];
      rewrite <- Hhay, startswith_app; reflexivity.
  - change (String c pre ++ needle ++ post)%string
      with (String c (pre ++ needle ++ post)).
    cbn [is_infix]. rewrite IH. apply orb_true_r.
Qed.

Lemma is_infix_lower needle pre mid post :
  lower mid = needle -> is_infix needle (lower (pre ++ mid ++ post)) = true.
Proof. intros <-. rewrite !lower_app. apply is_infix_app. Qed.

(** The confidence of an answer is a test on substrings of the answer,
    whatever their case and wherever they stand: an answer that contains
    "not found" or "couldn't find" is rated low, also when it contains "may";
    an answer that contains "may" or "might", be it inside a word, is never
    rated high.  The answer itself is passed on unchanged. *)
Theorem confidence_is_a_substring_test
    invoke_claude document_text question pre mid post :
  invoke_claude (Bedrock.answer_prompt document_text question)
    Bedrock.answer_system_prompt 0.2%float
  = inr (pre ++ mid ++ post)%string ->
  lower mid ∈ ["couldn't find"; "not found"; "may"; "might"] ->
  exists confidence,
    Bedrock.answer_question invoke_claude document_text question
    = inr ((pre ++ mid ++ post)%string, confidence)
    /\ confidence <> "high"
    /\ (lower mid ∈ ["couldn't find"; "not found"] -> confidence = "low").
Proof.
  intros Hinvoke Hmid. unfold Bedrock.answer_question. rewrite Hinvoke.
  eexists. split; [reflexivity|]. unfold Bedrock.confidence_of.
  apply elem_of_cons in Hmid as [Hmid|Hmid];
    [|apply elem_of_cons in Hmid as [Hmid|Hmid];
      [|apply elem_of_cons in Hmid as [Hmid|Hmid];
        [|apply list_elem_of_singleton in Hmid]]].
  - rewrite (is_infix_lower _ pre mid post Hmid). cbn [orb]. split; [discriminate|easy].
  - rewrite (is_infix_lower _ pre mid post Hmid), orb_true_r. split; [discriminate|easy].
  - rewrite (is_infix_lower "may" pre mid post Hmid). cbn [orb]. split.
    + destruct (_ || _); discriminate.
    + rewrite Hmid. intros Hlow.
      repeat (apply elem_of_cons in Hlow as [Hlow|Hlow]; [discriminate|]).
      inversion Hlow.
  - rewrite (is_infix_lower "might" pre mid post Hmid), orb_true_r. split.
    + destruct (_ || _); discriminate.
    + rewrite Hmid. intros Hlow.
      repeat (apply elem_of_cons in Hlow as [Hlow|Hlow]; [discriminate|]).
      inversion Hlow.
Qed.

Lemma confidence_is_a_substring_test_witness :
  exists confidence,
    Bedrock.answer_question (Cases.claude_says "The Mayor signed the lease.")
      "Hello world" "Who signed?"
    = inr ("The Mayor signed the lease.", confidence)
    /\ confidence <> "high"
    /\ (lower "May" ∈ ["couldn't find"; "not found"] -> confidence = "low").
Proof.
  refine (confidence_is_a_substring_test
            (Cases.claude_says "The Mayor signed the lease.")
            "Hello world" "Who signed?" "The " "May" "or signed the lease."
            eq_refl _).
  vm_compute. do 2 right. left.
Defined.

Lemma question_of_line_nonempty line question :
  Bedrock.question_of_line line = Some question -> question <> "".
Proof.
  unfold Bedrock.question_of_line. cbv zeta.
  destruct (strip line) as [|first rest]; [discriminate|].
  destruct (_ || _); [|discriminate].
  destruct (String.eqb_spec (strip (lstrip_chars "0123456789.-) " (String first rest))) "")
    as [|Hfull]; [discriminate|].
  now intros [= <-].
Qed.

(** The suggested questions are read off the lines of the model's response
    that start with a digit or a dash: for a request of [n >= 0] questions at
    most [n] come back, possibly fewer than the model was asked for, and none
    is empty.  Only the first 3000 characters of the text reach the model:
    texts that agree on them get the same questions. *)
Theorem suggested_questions_are_bounded invoke_claude text num_questions questions :
  Bedrock.generate_document_questions invoke_claude text num_questions = inr questions ->
  0 <= num_questions ->
  Z.of_nat (length questions) <= num_questions
  /\ Forall (fun question => question <> "") questions
  /\ forall text',
       slice_to 3000 text' = slice_to 3000 text ->
       Bedrock.generate_document_questions invoke_claude text' num_questions
       = inr questions.
Proof.
  unfold Bedrock.generate_document_questions, Bedrock.questions_prompt.
  intros Hrun Hnum. split; [|split].
  - destruct (invoke_claude _ _ _) as [e|response]; [discriminate|].
    injection Hrun as <-. unfold Bedrock.parse_questions, list_slice_to.
    destruct (Z.leb_spec 0 num_questions) as [_|?]; [|lia].
    rewrite length_take. lia.
  - destruct (invoke_claude _ _ _) as [e|response]; [discriminate|].
    injection Hrun as <-. unfold Bedrock.parse_questions, list_slice_to.
    destruct (Z.leb_spec 0 num_questions) as [_|?]; [|lia].
    apply Forall_take, Forall_forall. intros question Hin.
    apply list_elem_of_omap in Hin as (line & _ & Hline).
    exact (question_of_line_nonempty line question Hline).
  - intros text' ->. exact Hrun.
Qed.

Lemma suggested_questions_are_bounded_witness :
  Z.of_nat (length ["What is greeted?"; "reasons to say hello?"; "Why?"]) <= 5
  /\ Forall (fun question => question <> "")
       ["What is greeted?"; "reasons to say hello?"; "Why?"]
  /\ forall text',
       slice_to 3000 text' = slice_to 3000 "Hello world" ->
       Bedrock.generate_document_questions (Cases.claude_says Cases.questions_response)
         text' 5
       = inr ["What is greeted?"; "reasons to say hello?"; "Why?"].
Proof.
  apply (suggested_questions_are_bounded (Cases.claude_says Cases.questions_response)
           "Hello world" 5 ["What is greeted?"; "reasons to say hello?"; "Why?"]).
  - reflexivity.
  - lia.
Defined.

(** ** A delete the table refuses *)

(** The outcome of the record deletion is not looked at.  When the blob is
    deleted and the table then refuses the delete of the record, the caller
    is still told "Document deleted successfully": the record stays in the
    table as it was, and its blob is gone. *)
Theorem refused_delete_is_reported_as_success env event document_id document key w e :
  document_id <> "" ->
  table w !! document_id = Some document ->
  document !! "s3Key" = Some (VStr key) ->
  key <> "" ->
  Documents.access_denied document (Documents.get_user_id event) = false ->
  fault env (tick w) = None ->
  fault env (S (tick w)) = None ->
  fault env (S (S (tick w))) = Some e ->
  exists w',
    Documents.delete_document_handler env event (Some document_id) w
    = (inr (Documents.response 200 (dict
              [("message", VStr "Document deleted successfully");
               ("documentId", VStr document_id)])), w')
    /\ table w' = table w
    /\ bucket w' = bucket w ∖ {[ key ]}
    /\ trace w'
       = DeleteItem document_id :: DeleteObject key :: GetItem document_id :: trace w.
Proof.
  intros Hid Hdoc Hkey Hkey_ne Hallowed Hread Hblob Hrefused.
  assert (Hs3 : dict_get document "s3Key" = VStr key) by (unfold dict_get; now rewrite Hkey).
  unfold Documents.delete_document_handler.
  replace (nonempty (Some document_id)) with true
    by (simpl; now destruct (String.eqb_spec document_id "")).
  cbn [negb]. change (default "" (Some document_id)) with document_id.
  unfold bind at 1, Dynamodb.get_document.
  rewrite get_item_returns by exact Hread. rewrite Hdoc.
  change (default ∅ (Some document)) with document.
  rewrite (truthy_lookup document "s3Key"), Hallowed, Hs3.
  2: { rewrite Hs3. simpl. now destruct (String.eqb_spec key ""). }
  replace (truthy (VStr key)) with true
    by (simpl; now destruct (String.eqb_spec key "")).
  cbn [negb]. unfold bind at 1. unfold try_except at 1. unfold delete_object.
  rewrite aws_returns by exact Hblob.
  unfold bind at 1. unfold Dynamodb.delete_document, try_except, bind at 1, delete_item.
  rewrite (aws_raises env _ _ _ e) by exact Hrefused.
  unfold ret. eexists. repeat split.
Qed.

Lemma refused_delete_is_reported_as_success_witness :
  exists w',
    Documents.delete_document_handler (Scenario.failing_at 2 Scenario.env0)
      (Scenario.as_user "alice" Scenario.no_event) (Some "doc-1") Scenario.alice_world
    = (inr (Documents.response 200 (dict
              [("message", VStr "Document deleted successfully");
               ("documentId", VStr "doc-1")])), w')
    /\ table w' = table Scenario.alice_world
    /\ bucket w'
       = bucket Scenario.alice_world ∖ {[ "documents/alice/2024/01/15/doc-1/report.pdf" ]}
    /\ trace w'
       = DeleteItem "doc-1"
         :: DeleteObject "documents/alice/2024/01/15/doc-1/report.pdf"
         :: GetItem "doc-1" :: trace Scenario.alice_world.
Proof.
  exact (refused_delete_is_reported_as_success (Scenario.failing_at 2 Scenario.env0)
           (Scenario.as_user "alice" Scenario.no_event) "doc-1" Scenario.alice_document
           "documents/alice/2024/01/15/doc-1/report.pdf" Scenario.alice_world
           Scenario.AccessDenied
           ltac:(discriminate) eq_refl eq_refl ltac:(discriminate) eq_refl eq_refl
           eq_refl eq_refl).
Defined.

(** ** A summary that outlives its text *)

(** Extracting a summarized document again replaces its text and leaves its
    summary in place.  The next summarize request without flags is served
    that summary from the record, [cached: true], although it was made from
    the text that has been replaced. *)
Theorem summary_outlives_its_text env event document_id document key result w :
  params_of (pathParameters event) !! "documentId" = Some document_id ->
  document_id <> "" ->
  table w !! document_id = Some document ->
  eq_str (dict_get document "status") "EXTRACTED"
  && truthy (dict_get document "extractedText") = false ->
  document !! "s3Key" = Some (VStr key) ->
  truthy (dict_get document "summary") = true ->
  fault env (tick w) = None ->
  fault env (S (tick w)) = None ->
  fault env (S (S (S (tick w)))) = None ->
  extract_text_from_s3 env BUCKET_NAME key = inr result ->
  slice_to 50000 (ocr_text result) <> "" ->
  exists item w',
    Extract.handle_api_request env event w
    = (inr (Extract.response 200 (dict
              [("documentId", VStr document_id);
               ("text", VStr (ocr_text result));
               ("wordCount", VInt (ocr_word_count result));
               ("confidence", VFloat (ocr_confidence result));
               ("cached", VBool false)])), w')
    /\ table w' !! document_id = Some item
    /\ item !! "extractedText" = Some (VStr (slice_to 50000 (ocr_text result)))
    /\ item !! "summary" = document !! "summary"
    /\ forall env' event' max_length,
         params_of (pathParameters event') !! "documentId" = Some document_id ->
         Summarize.flag (params_of (queryStringParameters event')) "entities" = false ->
         Summarize.flag (params_of (queryStringParameters event')) "questions" = false ->
         py_int env' (default (VInt 500)
                        (VStr <$> params_of (queryStringParameters event') !! "maxLength"))
         = inr max_length ->
         fault env' (tick w') = None ->
         Summarize.lambda_handler env' event' w'
         = (inr (Summarize.response 200 (dict
                   [("documentId", VStr document_id);
                    ("summary", dict_get document "summary");
                    ("cached", VBool true)])),
            record_call (GetItem document_id) w').
Proof.
  intros Hpath Hid Hdoc Hmiss Hkey Hsummary Hread Hupdate Hstore Hocr Htext.
  assert (Hfound : truthy (VDict document) = true) by exact (truthy_lookup _ _ Hsummary).
  rewrite (extraction_request_fresh env event document_id document w Hpath Hid Hdoc
             Hfound Hread key Hmiss Hkey Hupdate Hstore).
  cbv zeta. rewrite (update_document_status_returns _ _ "PROCESSING") by exact Hupdate.
  cbn [snd]. rewrite Hocr. unfold Dynamodb.store_extracted_text.
  rewrite update_document_status_returns by exact Hstore.
  cbn [snd].
  set (item := with_status env document_id "EXTRACTED" _ _).
  assert (Hitem_text : item !! "extractedText"
                       = Some (VStr (slice_to 50000 (ocr_text result)))).
  { unfold item, with_status, set_all. cbn [fold_left fst snd]. by simplify_map_eq. }
  assert (Hitem_summary : item !! "summary" = document !! "summary").
  { unfold item, with_status, set_all, upserted. cbn [fold_left fst snd].
    rewrite !lookup_insert_ne by discriminate.
    cbn [table set_table record_call]. rewrite lookup_insert_eq.
    unfold with_status, set_all, upserted.
    cbn [fold_left fst snd table record_call from_option id].
    rewrite !lookup_insert_ne by discriminate. now rewrite Hdoc. }
  exists item. eexists. split; [reflexivity|]. cbn [table set_table record_call].
  split; [apply lookup_insert_eq|]. split; [exact Hitem_text|].
  split; [exact Hitem_summary|].
  intros env' event' max_length Hpath' Hentities Hquestions Hlength Hread'.
  rewrite (summarize_reads env' event' document_id max_length Hpath' Hid Hentities
             Hquestions Hlength item).
  - cbv zeta. unfold dict_get. rewrite Hitem_summary.
    unfold dict_get in Hsummary. now rewrite Hsummary.
  - exact Hread'.
  - cbn [table set_table record_call]. apply lookup_insert_eq.
  - unfold dict_get. rewrite Hitem_text. cbn.
    now destruct (String.eqb_spec (slice_to 50000 (ocr_text result)) "").
Qed.

Lemma summary_outlives_its_text_witness :
  exists item w',
    Extract.handle_api_request Scenario.env0
      (Scenario.on_document "doc-1" Scenario.no_event) Scenario.summarized_world
    = (inr (Extract.response 200 (dict
              [("documentId", VStr "doc-1");
               ("text", VStr (ocr_text Scenario.hello_ocr));
               ("wordCount", VInt (ocr_word_count Scenario.hello_ocr));
               ("confidence", VFloat (ocr_confidence Scenario.hello_ocr));
               ("cached", VBool false)])), w')
    /\ table w' !! "doc-1" = Some item
    /\ item !! "extractedText"
       = Some (VStr (slice_to 50000 (ocr_text Scenario.hello_ocr)))
    /\ item !! "summary" = Scenario.summarized_document !! "summary"
    /\ forall env' event' max_length,
         params_of (pathParameters event') !! "documentId" = Some "doc-1" ->
         Summarize.flag (params_of (queryStringParameters event')) "entities" = false ->
         Summarize.flag (params_of (queryStringParameters event')) "questions" = false ->
         py_int env' (default (VInt 500)
                        (VStr <$> params_of (queryStringParameters event') !! "maxLength"))
         = inr max_length ->
         fault env' (tick w') = None ->
         Summarize.lambda_handler env' event' w'
         = (inr (Summarize.response 200 (dict
                   [("documentId", VStr "doc-1");
                    ("summary", dict_get Scenario.summarized_document "summary");
                    ("cached", VBool true)])),
            record_call (GetItem "doc-1") w').
Proof.
  exact (summary_outlives_its_text Scenario.env0
           (Scenario.on_document "doc-1" Scenario.no_event) "doc-1"
           Scenario.summarized_document "documents/alice/2024/01/15/doc-1/report.pdf"
           Scenario.hello_ocr Scenario.summarized_world
           eq_refl ltac:(discriminate) eq_refl eq_refl eq_refl eq_refl eq_refl eq_refl
           eq_refl eq_refl ltac:(discriminate)).
Defined.

(** ** Methods without a route *)

(** The upload entry point serves POST and GET, the documents entry point
    GET and DELETE; the names are compared as they are, so "get" is not GET.
    Any other method is answered 405 and nothing is called, read or
    written. *)
Theorem other_methods_are_refused env event method w :
  httpMethod event = Some method ->
  method <> "GET" ->
  (method <> "POST" ->
   Upload.lambda_handler env event w
   = (inr (Upload.response 405 (dict [("error", VStr "Method not allowed")])), w))
  /\ (method <> "DELETE" ->
      Documents.lambda_handler env event w
      = (inr (Documents.response 405 (dict [("error", VStr "Method not allowed")])), w)).
Proof.
  intros Hmethod Hget. split; intros Hother.
  - unfold Upload.lambda_handler, try_except. rewrite Hmethod.
    change (default "POST" (Some method)) with method.
    destruct (String.eqb_spec method "POST"); [contradiction|].
    now destruct (String.eqb_spec method "GET").
  - unfold Documents.lambda_handler, try_except. rewrite Hmethod.
    change (default "GET" (Some method)) with method.
    destruct (String.eqb_spec method "GET"); [contradiction|].
    now destruct (String.eqb_spec method "DELETE").
Qed.

Lemma other_methods_are_refused_witness :
  Documents.lambda_handler Scenario.env0 Cases.lowercase_get Scenario.alice_world
  = (inr (Documents.response 405 (dict [("error", VStr "Method not allowed")])),
     Scenario.alice_world).
Proof.
  exact (proj2 (other_methods_are_refused Scenario.env0 Cases.lowercase_get "get"
                  Scenario.alice_world eq_refl ltac:(discriminate))
           ltac:(discriminate)).
Defined.

(** ** A question that is answered *)

(** A valid question about a document with text is put to the LLM trimmed,
    and answered 200 with the answer and the confidence the adapter gave.
    When the table accepts the update, the record gains one history entry,
    after those it had, holding the trimmed question, the answer and the time;
    nothing else in the record changes, neither its status nor its
    [updatedAt]. *)
Theorem answered_question_is_recorded
    env event document_id document fields question answer confidence history w :
  params_of (pathParameters event) !! "documentId" = Some document_id ->
  document_id <> "" ->
  body event = BodyJson (VDict fields) ->
  dict_get_default fields "question" (VStr "") = VStr question ->
  strip question <> "" ->
  len (strip question) <= 1000 ->
  table w !! document_id = Some document ->
  truthy (dict_get document "extractedText") = true ->
  dict_get_default document "queryHistory" (VList []) = VList history ->
  answer_question env (dict_get document "extractedText") (strip question)
  = inr (answer, confidence) ->
  fault env (tick w) = None ->
  fault env (S (S (tick w))) = None ->
  exists w' stamp,
    Query.lambda_handler env event w
    = (inr (Query.response 200 (dict
              [("documentId", VStr document_id);
               ("question", VStr (strip question));
               ("answer", VStr answer);
               ("confidence", VStr confidence)])), w')
    /\ table w'
       = <[document_id :=
             <["queryHistory" :=
                 VList (history ++ [dict [("question", VStr (strip question));
                                          ("answer", VStr answer);
                                          ("timestamp", VStr stamp)]])]> document]>
           (table w).
Proof.
  intros Hpath Hid Hbody Hquestion Hfull Hshort Hdoc Htext Hhistory Hanswer Hread Hstore.
  rewrite (query_reads env event document_id w Hpath Hid Hread fields question
             Hbody Hquestion Hfull Hshort).
  rewrite Hdoc. change (default ∅ (Some document)) with document.
  cbv zeta. rewrite (truthy_lookup _ _ Htext), Htext. cbn [negb].
  unfold try_except. unfold bind at 1. unfold adapter at 1. rewrite Hanswer.
  cbn [fst snd]. unfold bind at 1.
  match goal with |- context [Dynamodb.add_query_to_history env _ _ _ ?w0] =>
    destruct (add_query_to_history_appends env document_id (strip question) answer w0
                document history Hdoc Hhistory Hstore) as (w' & entry & -> & -> & Htable)
  end.
  unfold ret. eexists _, _. split; [reflexivity|]. exact Htable.
Qed.

Lemma answered_question_is_recorded_witness :
  exists w' stamp,
    Query.lambda_handler Scenario.env0 Scenario.question_request Scenario.asked_world
    = (inr (Query.response 200 (dict
              [("documentId", VStr "doc-1");
               ("question", VStr (strip "  Who says hello?  "));
               ("answer", VStr "It says hello.");
               ("confidence", VStr "high")])), w')
    /\ table w'
       = <["doc-1" :=
             <["queryHistory" :=
                 VList ([Scenario.earlier_entry]
                        ++ [dict [("question", VStr (strip "  Who says hello?  "));
                                  ("answer", VStr "It says hello.");
                                  ("timestamp", VStr stamp)]])]>
               Scenario.asked_document]>
           (table Scenario.asked_world).
Proof.
  exact (answered_question_is_recorded Scenario.env0 Scenario.question_request "doc-1"
           Scenario.asked_document (list_to_map [("question", VStr "  Who says hello?  ")])
           "  Who says hello?  " "It says hello." "high" [Scenario.earlier_entry]
           Scenario.asked_world
           eq_refl ltac:(discriminate) eq_refl eq_refl ltac:(discriminate)
           ltac:(vm_compute; discriminate) eq_refl eq_refl eq_refl eq_refl eq_refl
           eq_refl).
Defined.

(** ** Extracting a document that has its text *)

(** A storage event for a record that already carries [extractedText] is
    processed like any other: the record is moved to PROCESSING, Textract is
    called, and when it raises the record is moved to FAILED with the message
    of the exception.  Neither update touches the text: the record ends as it
    was but for status, [updatedAt] and [errorMessage], its text standing
    next to FAILED, and no other record changes. *)
Theorem later_extraction_keeps_the_text env event record document text e w :
  Records event = Some [record] ->
  let key := unquote_plus env (s3_object_key record) in
  let document_id := nth 3 (split "/" key) "" in
  (4 <= length (split "/" key))%nat ->
  table w !! document_id = Some document ->
  document !! "extractedText" = Some text ->
  extract_text_from_s3 env (s3_bucket_name record) key = inl e ->
  fault env (tick w) = None ->
  fault env (S (S (tick w))) = None ->
  let started := VStr (isoformat (utcnow env (tick w))) in
  let stopped := VStr (isoformat (utcnow env (S (S (tick w))))) in
  let failed :=
    <["errorMessage" := VStr (exn_str e)]>
      (<["updatedAt" := stopped]>
         (<["status" := VStr "FAILED"]>
            (<["updatedAt" := started]>
               (<["status" := VStr "PROCESSING"]> document)))) in
  exists w',
    Extract.lambda_handler env event w
    = (inr (MkResponse 200 [] (VStr "Processing complete")), w')
    /\ trace w'
       = UpdateItem document_id
           [SetAttr "status" (VStr "FAILED"); SetAttr "updatedAt" stopped;
            SetAttr "errorMessage" (VStr (exn_str e))]
         :: DetectDocumentText (s3_bucket_name record) key
         :: UpdateItem document_id
              [SetAttr "status" (VStr "PROCESSING"); SetAttr "updatedAt" started]
         :: trace w
    /\ table w' = <[document_id := failed]> (table w)
    /\ failed !! "extractedText" = Some text
    /\ failed !! "status" = Some (VStr "FAILED").
Proof.
  intros Hrecords key document_id Hlong Hdoc Htext Hocr Hfirst Hsecond
    started stopped failed.
  unfold Extract.lambda_handler, try_except. rewrite Hrecords.
  unfold Extract.handle_s3_event. rewrite Hrecords.
  change (default [] (Some [record])) with [record].
  cbn [Extract.for_each_record]. unfold bind at 1 2.
  unfold Extract.process_record. fold key. unfold bind at 1. unfold print at 1.
  cbv beta iota zeta.
  destruct (Nat.leb_spec 4 (length (split "/" key))) as [_|]; [|lia].
  fold document_id. unfold Extract.extract_and_store. unfold bind at 1.
  rewrite update_document_status_returns by exact Hfirst.
  unfold try_except. unfold bind at 1. unfold adapter at 1. rewrite Hocr.
  unfold bind at 1. unfold print at 1. cbv beta iota.
  unfold bind at 1. rewrite update_document_status_returns by exact Hsecond.
  unfold ret. eexists. split; [reflexivity|].
  cbn [table set_table record_call trace stdout bucket].
  split; [reflexivity|]. split.
  - rewrite insert_insert_eq.
    unfold with_status, upserted, set_all.
    cbn [fold_left fst snd table set_table record_call].
    rewrite lookup_insert_eq, Hdoc. reflexivity.
  - unfold failed. split.
    + now rewrite !lookup_insert_ne by discriminate.
    + rewrite !lookup_insert_ne by discriminate. apply lookup_insert_eq.
Qed.

Lemma later_extraction_keeps_the_text_witness :
  exists w',
    Extract.lambda_handler Scenario.ocr_down (Scenario.s3_event ["a/b/c/doc-1/scan.png"])
      Scenario.alice_world
    = (inr (MkResponse 200 [] (VStr "Processing complete")), w')
    /\ trace w'
       = UpdateItem "doc-1"
           [SetAttr "status" (VStr "FAILED");
            SetAttr "updatedAt" (VStr "2024-01-15T10:30:00");
            SetAttr "errorMessage" (VStr "An error occurred (AccessDenied)")]
         :: DetectDocumentText BUCKET_NAME "a/b/c/doc-1/scan.png"
         :: UpdateItem "doc-1"
              [SetAttr "status" (VStr "PROCESSING");
               SetAttr "updatedAt" (VStr "2024-01-15T10:30:00")]
         :: trace Scenario.alice_world
    /\ table w'
       = <["doc-1" :=
             <["errorMessage" := VStr "An error occurred (AccessDenied)"]>
               (<["updatedAt" := VStr "2024-01-15T10:30:00"]>
                  (<["status" := VStr "FAILED"]>
                     (<["updatedAt" := VStr "2024-01-15T10:30:00"]>
                        (<["status" := VStr "PROCESSING"]> Scenario.alice_document))))]>
           (table Scenario.alice_world)
    /\ <["errorMessage" := VStr "An error occurred (AccessDenied)"]>
         (<["updatedAt" := VStr "2024-01-15T10:30:00"]>
            (<["status" := VStr "FAILED"]>
               (<["updatedAt" := VStr "2024-01-15T10:30:00"]>
                  (<["status" := VStr "PROCESSING"]> Scenario.alice_document))))
       !! "extractedText" = Some (VStr "Hello world")
    /\ <["errorMessage" := VStr "An error occurred (AccessDenied)"]>
         (<["updatedAt" := VStr "2024-01-15T10:30:00"]>
            (<["status" := VStr "FAILED"]>
               (<["updatedAt" := VStr "2024-01-15T10:30:00"]>
                  (<["status" := VStr "PROCESSING"]> Scenario.alice_document))))
       !! "status" = Some (VStr "FAILED").
Proof.
  exact (later_extraction_keeps_the_text Scenario.ocr_down
           (Scenario.s3_event ["a/b/c/doc-1/scan.png"])
           (MkS3Record BUCKET_NAME "a/b/c/doc-1/scan.png")
           Scenario.alice_document (VStr "Hello world") Scenario.AccessDenied
           Scenario.alice_world
           eq_refl ltac:(vm_compute; lia) eq_refl eq_refl eq_refl eq_refl eq_refl).
Defined.
